(** * ESP32 colour matching: calibration checks, settings and classifier

    A shallow embedding of the Python sources of the colour-matching
    project, followed by the properties proved about them:

    - [ColorMatcher]       color_matcher_server.py  (nearest Dulux colour)
    - [BlackCalibration]   test_black_calibration.py (black-level validation)
    - [MockServer]         mock_esp32_server.py     (device settings)
    - [BrightnessOptimizer] the LED feedback loop of the device firmware

    Python [int] is [Z]; Python [float] is the kernel's binary64 [float], so
    [math.sqrt], [/] and the comparisons are the IEEE 754 operations the
    interpreter runs; a [dict] is a [gmap] with string keys. *)

From Stdlib Require Import ZArith Floats Uint63 Lia Ascii String Reals.
From stdpp Require Import gmap strings list fin_maps pretty.

Open Scope Z_scope.

(* Decimal literals such as 87.2 denote the nearest binary64 value, as in
   Python. *)
Set Warnings "-inexact-float".

(* ===================================================================== *)
(** ** Python values and builtins *)
(* ===================================================================== *)

Module Py.

(** An [int] of [0 .. 2^63 - 1] as a [float]: the nearest binary64
    number, the [int] itself below [2^53]. *)
Definition float_of_small (z : Z) : float :=
  PrimFloat.of_uint63 (Uint63.of_Z z).

(** The binary64 number nearest to the fraction [p / q] (ties to even),
    for [0 <= p] and [0 < q], negated when [neg]; an infinity when the
    nearest value lies beyond the largest finite number. The quotient is
    cut to 53 bits (fewer in the subnormal range) and the remainder
    decides the rounding. *)
Definition nearest_float (neg : Datatypes.bool) (p q : Z) : float :=
  if p =? 0 then (if neg then (-0)%float else 0%float)
  else
    let scaled e := if 0 <=? e then (p, q * 2 ^ e) else (p * 2 ^ (- e), q) in
    let e1 := Z.log2 p - Z.log2 q - 53 in
    let m1 := (scaled e1).1 / (scaled e1).2 in
    let e := Z.max (if 2 ^ 53 <=? m1 then e1 + 1 else e1) (-1074) in
    let '(num, den) := scaled e in
    let m := num / den in
    let rem := num mod den in
    let m' :=
      if (den <? 2 * rem) || ((2 * rem =? den) && Z.odd m) then m + 1
      else m in
    let f := Z.ldexp (float_of_small m') e in
    if neg then (- f)%float else f.

(** [float(z)] on an [int]: the nearest binary64 number; [None] stands
    for the [OverflowError] raised when that is not finite. *)
Definition float_of_int (z : Z) : option float :=
  if Z.abs z <? 2 ^ 63 then
    Some (if z <? 0 then (- float_of_small (- z))%float
          else float_of_small z)
  else
    let f := nearest_float (z <? 0) (Z.abs z) 1 in
    if is_infinity f then None else Some f.

(** [math.sqrt(n)] on an [int]: the argument is converted to [float]
    first; [None] stands for the [OverflowError] of the conversion and
    for the [ValueError] raised on a negative argument. *)
Definition math_sqrt (n : Z) : option float :=
  if n <? 0 then None else PrimFloat.sqrt <$> float_of_int n.

(** [a / b] on two [int]s (true division): the binary64 number nearest
    to the quotient, which is the float division when both fit in 53
    bits; [None] stands for [ZeroDivisionError] and for the
    [OverflowError] raised when the quotient is too large. *)
Definition truediv (a b : Z) : option float :=
  if b =? 0 then None
  else if (Z.abs a <? 2 ^ 53) && (Z.abs b <? 2 ^ 53) then
    let fa := if a <? 0 then (- float_of_small (- a))%float
              else float_of_small a in
    let fb := if b <? 0 then (- float_of_small (- b))%float
              else float_of_small b in
    Some (fa / fb)%float
  else
    let f := nearest_float (xorb (a <? 0) (b <? 0)) (Z.abs a) (Z.abs b) in
    if is_infinity f then None else Some f.

(** [round(x, 2)] on a [float]: the exact value of [x] is rounded to two
    decimals, ties to even, and the decimal is read back as the nearest
    binary64 number; zeros, infinities and [nan] round to themselves. *)
Definition round2 (x : float) : float :=
  match Prim2SF x with
  | S754_finite s m e =>
      let '(p, q) :=
        if 0 <=? e then (Z.pos m * 2 ^ e, 1) else (Z.pos m, 2 ^ (- e)) in
      let k := (100 * p) / q in
      let rem := (100 * p) mod q in
      let k' :=
        if (q <? 2 * rem) || ((2 * rem =? q) && Z.odd k) then k + 1
        else k in
      nearest_float s k' 100
  | _ => x
  end.

(** How a [float] compares with an [int], exactly, as the comparison
    operators do; [None] for [nan], which compares false with
    everything. *)
Definition compare_float_int (f : float) (z : Z) : option comparison :=
  match Prim2SF f with
  | S754_nan => None
  | S754_infinity s => Some (if s then Lt else Gt)
  | S754_zero _ => Some (0 ?= z)
  | S754_finite s m e =>
      let sm := if s then Z.neg m else Z.pos m in
      Some (if 0 <=? e then sm * 2 ^ e ?= z else sm ?= z * 2 ^ (- e))
  end.

(** The values a decoded JSON payload or the device dictionary holds:
    [None], [bool], [int], [float] and [str] (arrays and objects do not
    occur in the payloads of the project). A [str] has one character
    per code point, the code points being below 256. *)
Inductive value : Type :=
| PNone
| PBool (b : bool)
| PInt (z : Z)
| PFloat (f : float)
| PStr (s : string).

(** [int(f)] on a [float]: truncation toward zero; [nan] and the
    infinities raise. *)
Definition int_of_float (f : float) : option Z :=
  match Prim2SF f with
  | S754_zero _ => Some 0
  | S754_finite s m e =>
      let a := if 0 <=? e then Z.pos m * 2 ^ e else Z.pos m / 2 ^ (- e) in
      Some (if s then - a else a)
  | S754_infinity _ | S754_nan => None
  end.

(** The blanks [int] skips around a literal: the six ASCII blanks, and
    the two blanks among the code points 128..255, next line and no-break
    space. The separators 28..31 are not skipped. *)
Definition is_space (c : ascii) : Datatypes.bool :=
  let n := N_of_ascii c in
  ((9 <=? n) && (n <=? 13) || (n =? 32) || (n =? 133) || (n =? 160))%N.

(** The decimal digits: below 256 the ASCII digits are the only ones. *)
Definition digit_of (c : ascii) : option Z :=
  let n := N_of_ascii c in
  if ((48 <=? n) && (n <=? 57))%N then Some (Z.of_N n - 48) else None.

Fixpoint lstrip (s : list ascii) : list ascii :=
  match s with
  | c :: s' => if is_space c then lstrip s' else s
  | [] => []
  end.

Definition strip (s : list ascii) : list ascii :=
  rev (lstrip (rev (lstrip s))).

(** Decimal digits with single underscores between digits; [acc] is the
    value read so far, [after_digit] tells whether the previous character
    was a digit and [count] is the number of digits read. A literal of
    more than 4300 digits is refused (the interpreter's default limit). *)
Fixpoint digits (s : list ascii) (acc : Z) (after_digit : Datatypes.bool)
    (count : nat) : option Z :=
  match s with
  | [] => if after_digit && (count <=? 4300)%nat then Some acc else None
  | c :: s' =>
      match digit_of c with
      | Some d => digits s' (10 * acc + d) true (S count)
      | None =>
          if (Ascii.eqb c "_" && after_digit)%bool
          then digits s' acc false count
          else None
      end
  end.

(** [int(s)] on a [str], base 10: surrounding blanks, an optional sign,
    digits. [None] stands for [ValueError]. *)
Definition int_of_str (s : string) : option Z :=
  match strip (list_ascii_of_string s) with
  | c :: s' =>
      if Ascii.eqb c "-" then Z.opp <$> digits s' 0 false 0
      else if Ascii.eqb c "+" then digits s' 0 false 0
      else digits (c :: s') 0 false 0
  | [] => None
  end.

(** The builtin [int(v)]; [None] stands for the raised [TypeError],
    [ValueError] or [OverflowError]. *)
Definition int (v : value) : option Z :=
  match v with
  | PNone => None
  | PBool b => Some (if b then 1 else 0)
  | PInt z => Some z
  | PFloat f => int_of_float f
  | PStr s => int_of_str s
  end.

(** The builtin [bool(v)]: truthiness. *)
Definition bool (v : value) : Datatypes.bool :=
  match v with
  | PNone => false
  | PBool b => b
  | PInt z => negb (z =? 0)
  | PFloat f => negb (PrimFloat.eqb f 0%float)
  | PStr s => negb (String.eqb s EmptyString)
  end.

(** [d.get(key)]: the value under [key], [None] when the key is
    missing. *)
Definition get (d : gmap string value) (key : string) : value :=
  default PNone (d !! key).

(** A [bool] or an [int] as the integer Python compares it as. *)
Definition as_integer (v : value) : option Z :=
  match v with
  | PBool b => Some (if b then 1 else 0)
  | PInt z => Some z
  | _ => None
  end.

(** [f == z] for a [float] and an [int]: the comparison is exact. *)
Definition float_eq_int (f : float) (z : Z) : Datatypes.bool :=
  match Prim2SF f with
  | S754_zero _ => z =? 0
  | S754_finite s m e =>
      let sm := if s then Z.neg m else Z.pos m in
      if 0 <=? e then z =? sm * 2 ^ e else z * 2 ^ (- e) =? sm
  | S754_infinity _ | S754_nan => false
  end.

(** [a == b]: numbers compare by value across [bool], [int] and
    [float], strings with strings, [None] with [None]. *)
Definition eq (a b : value) : Datatypes.bool :=
  match a, b with
  | PNone, PNone => true
  | PStr s, PStr t => String.eqb s t
  | PFloat f, PFloat g => PrimFloat.eqb f g
  | PFloat f, _ =>
      match as_integer b with
      | Some z => float_eq_int f z
      | None => false
      end
  | _, PFloat g =>
      match as_integer a with
      | Some z => float_eq_int g z
      | None => false
      end
  | _, _ =>
      match as_integer a, as_integer b with
      | Some x, Some y => x =? y
      | _, _ => false
      end
  end.

(** [v <= n] for an [int] [n]; [None] stands for the [TypeError] raised
    on [None] and on a [str]. *)
Definition le_int (v : value) (n : Z) : option Datatypes.bool :=
  match v with
  | PNone | PStr _ => None
  | PBool b => Some ((if b then 1 else 0) <=? n)
  | PInt z => Some (z <=? n)
  | PFloat f =>
      Some match compare_float_int f n with
           | Some Lt | Some Eq => true
           | _ => false
           end
  end.

End Py.

(* ===================================================================== *)
(** ** color_matcher_server.py *)
(* ===================================================================== *)

Module ColorMatcher.

(** An entry of the colour database: a dictionary with the six keys
    below. *)
Record color : Type := Color {
  name : string;
  code : string;
  r : Z;
  g : Z;
  b : Z;
  lrv : float
}.

Definition DULUX_COLORS : list color := [
  Color "Vivid White" "W01A1" 255 255 255 90.0%float;
  Color "First Love Quarter" "P08H1Q" 255 248 240 87.2%float;
  Color "Pink Tutu Quarter" "P04H1Q" 255 233 247 84.4%float;
  Color "Cruel Sea" "P29A9" 33 26 27 5.5%float;
  Color "Decorum" "P02D3" 179 154 161 40.0%float;
  Color "Deep Leather" "P05B9" 39 17 0 5.9%float
].

(** The radicand of the Euclidean distance, an exact [int]. *)
Definition squared_distance (r1 g1 b1 r2 g2 b2 : Z) : Z :=
  (r1 - r2) ^ 2 + (g1 - g2) ^ 2 + (b1 - b2) ^ 2.

(** [None] stands for the [OverflowError] [math.sqrt] raises on a
    radicand too large for a [float]. *)
Definition calculate_color_distance (r1 g1 b1 r2 g2 b2 : Z)
    : option float :=
  Py.math_sqrt (squared_distance r1 g1 b1 r2 g2 b2).

(** One turn of the [for color in DULUX_COLORS] loop on the pair
    [(best_match, min_distance)]; [None] when the distance raised. *)
Definition closest_step (target_r target_g target_b : Z)
    (acc : option color * float) (entry : color)
    : option (option color * float) :=
  let '(best_match, min_distance) := acc in
  distance ← calculate_color_distance target_r target_g target_b
               (r entry) (g entry) (b entry);
  Some (if (distance <? min_distance)%float then (Some entry, distance)
        else (best_match, min_distance)).

(** The loop over the remaining entries. *)
Fixpoint closest_loop (target_r target_g target_b : Z)
    (catalog : list color) (acc : option color * float)
    : option (option color * float) :=
  match catalog with
  | [] => Some acc
  | entry :: rest =>
      acc' ← closest_step target_r target_g target_b acc entry;
      closest_loop target_r target_g target_b rest acc'
  end.

(** [find_closest_color] over an explicit catalogue; the loop starts from
    [(None, float('inf'))]. [None] stands for an exception raised on the
    way. *)
Definition find_closest_color_in (catalog : list color)
    (target_r target_g target_b : Z) : option (option color * float) :=
  closest_loop target_r target_g target_b catalog (None, infinity).

Definition find_closest_color
    : Z -> Z -> Z -> option (option color * float) :=
  find_closest_color_in DULUX_COLORS.

(** The answers of the [/] route. *)
Inductive response : Type :=
| Matched (m : color) (distance : float) (input : Z * Z * Z) (* 200 *)
| InvalidRGB                          (* 400, values outside 0-255 *)
| InvalidParameters                   (* 400, int() raised ValueError *)
| NoMatch                             (* 404, "No color match found" *)
| InternalError.                      (* 500, any other exception *)

(** [color_match] over an explicit catalogue. The three arguments are the
    results of [int(request.args.get(..., 0))]; [None] stands for a
    [ValueError] raised by the conversion. The answer carries
    [round(distance, 2)]. *)
Definition color_match_in (catalog : list color) (pr pg pb : option Z)
    : response :=
  match pr, pg, pb with
  | Some r, Some g, Some b =>
      if negb ((0 <=? r) && (r <=? 255) && (0 <=? g) && (g <=? 255)
               && (0 <=? b) && (b <=? 255))
      then InvalidRGB
      else
        match find_closest_color_in catalog r g b with
        | Some (Some m, distance) =>
            Matched m (Py.round2 distance) (r, g, b)
        | Some (None, _) => NoMatch
        | None => InternalError
        end
  | _, _, _ => InvalidParameters
  end.

Definition color_match : option Z -> option Z -> option Z -> response :=
  color_match_in DULUX_COLORS.

(** The channels of a colour are bytes. *)
Definition is_u8 (z : Z) : Prop := 0 <= z <= 255.

Definition rgb_u8 (c : color) : Prop := is_u8 (r c) /\ is_u8 (g c) /\ is_u8 (b c).

Definition rgb_of (c : color) : Z * Z * Z := (r c, g c, b c).

(** Squared distance from a target to a catalogue entry, written out. *)
Definition sq_to (tr tg tb : Z) (c : color) : Z :=
  (tr - r c) ^ 2 + (tg - g c) ^ 2 + (tb - b c) ^ 2.

(** The binary64 square root of an [int] below [2^63]. *)
Definition root (n : Z) : float := PrimFloat.sqrt (Py.float_of_small n).

(** The distance the loop computes for an entry of bytes. *)
Definition distance_to (tr tg tb : Z) (c : color) : float :=
  root (sq_to tr tg tb c).

(** The Euclidean distance as a real number, the quantity
    [calculate_color_distance] rounds to binary64. *)
Definition euclidean (tr tg tb : Z) (c : color) : R :=
  sqrt (IZR (sq_to tr tg tb c)).

(** [d] is a binary64 number within half a unit in the last place of the
    real square root of [n]: writing [d = m * 2^e] with its 53-bit [m],
    [(2m - 1)^2 * 4^e <= 4n <= (2m + 1)^2 * 4^e]; and [d] is [0.0] for
    [n = 0]. *)
Definition nearest_to_sqrt (d : float) (n : Z) : bool :=
  match Prim2SF d with
  | S754_zero false => n =? 0
  | S754_finite false m e =>
      let lo := (2 * Z.pos m - 1) ^ 2 in
      let hi := (2 * Z.pos m + 1) ^ 2 in
      if e <=? 0
      then (lo <=? 4 * n * 4 ^ (- e)) && (4 * n * 4 ^ (- e) <=? hi)
      else (lo * 4 ^ e <=? 4 * n) && (4 * n <=? hi * 4 ^ e)
  | _ => false
  end.

(** [e] stands at index [i] of the catalogue, no entry is nearer to the
    target, and every entry before [i] is strictly farther. *)
Definition first_minimum (tr tg tb : Z) (catalog : list color)
    (i : nat) (e : color) : Prop :=
  catalog !! i = Some e /\
  (forall j e', catalog !! j = Some e' ->
                sq_to tr tg tb e <= sq_to tr tg tb e') /\
  (forall j e', (j < i)%nat -> catalog !! j = Some e' ->
                sq_to tr tg tb e < sq_to tr tg tb e').

(** A run of classifications against one catalogue, in request order. *)
Definition serve (catalog : list color) (requests : list (Z * Z * Z))
    : list (option (option color * float)) :=
  (fun '(r, g, b) => find_closest_color_in catalog r g b) <$> requests.

(** The largest radicand two byte triples can give: [3 * 255^2]. *)
Definition max_sq : Z := 195075.

(** The square root increases strictly at every step from [n] to
    [n + k]. *)
Fixpoint sqrt_increasing (k : nat) (n : Z) : bool :=
  match k with
  | O => true
  | S k' =>
      (root n <? root (n + 1))%float
      && sqrt_increasing k' (n + 1)
  end.

(** The square root is within half a unit in the last place of the real
    root at every step from [n] to [n + k]. *)
Fixpoint sqrt_rounded (k : nat) (n : Z) : bool :=
  match k with
  | O => true
  | S k' => nearest_to_sqrt (root n) n && sqrt_rounded k' (n + 1)
  end.

End ColorMatcher.

(* ===================================================================== *)
(** ** test_black_calibration.py: black-level validation *)
(* ===================================================================== *)

Module BlackCalibration.

(** What [validate_black_levels] logs before it returns; only
    [AllWithinRange] is logged as a pass. *)
Inductive outcome : Type :=
| CouldNotGetStatus                      (* the status request failed *)
| MissingData (key : string)             (* KeyError *)
| ChannelTooHigh (channel : string) (ratio : float)
| Raised                                 (* except Exception: str(e) *)
| AllWithinRange.

Definition passed (o : outcome) : bool :=
  match o with AllWithinRange => true | _ => false end.

(** The body of the [for channel in ['x', 'y', 'z']] loop up to the test:
    [black_cal.get(channel, 0)], [white_cal.get(channel, 65535)] and the
    guarded division. Channel counts are JSON integers; [None] stands
    for the [OverflowError] of a quotient too large for a [float]. *)
Definition channel_ratio (black_cal white_cal : gmap string Z)
    (channel : string) : option float :=
  let black_value := default 0 (black_cal !! channel) in
  let white_value := default 65535 (white_cal !! channel) in
  if 0 <? white_value then Py.truediv black_value white_value
  else Some 1%float.

(** The loop: the first channel whose ratio exceeds 0.15 ends it, and so
    does a division that raises. *)
Fixpoint check_channels (black_cal white_cal : gmap string Z)
    (channels : list string) : outcome :=
  match channels with
  | [] => AllWithinRange
  | channel :: rest =>
      match channel_ratio black_cal white_cal channel with
      | None => Raised
      | Some ratio =>
          if (0.15 <? ratio)%float then ChannelTooHigh channel ratio
          else check_channels black_cal white_cal rest
      end
  end.

(** The ratio of a channel is computed and is not above 15%. *)
Definition within (black_cal white_cal : gmap string Z) (c : string)
    : Prop :=
  exists rt, channel_ratio black_cal white_cal c = Some rt /\
             (0.15 <? rt)%float = false.

(** [validate_black_levels] as a function of what
    [get_calibration_status] returned, the pair [(success, status)]. *)
Definition validate_black_levels_outcome (success : bool)
    (status : gmap string (gmap string Z)) : outcome :=
  if negb success then CouldNotGetStatus
  else
    match status !! "blackCalibration" with
    | None => MissingData "blackCalibration"
    | Some black_cal =>
        match status !! "whiteCalibration" with
        | None => MissingData "whiteCalibration"
        | Some white_cal =>
            check_channels black_cal white_cal ["x"; "y"; "z"]
        end
    end.

Definition validate_black_levels (success : bool)
    (status : gmap string (gmap string Z)) : bool :=
  passed (validate_black_levels_outcome success status).

(** The status document holding a calibration pair. *)
Definition status_of (black_cal white_cal : gmap string Z)
    : gmap string (gmap string Z) :=
  {[ "blackCalibration" := black_cal; "whiteCalibration" := white_cal ]}.

(** The ratio as the specification words it: a white count that is absent
    or zero is replaced by the sentinel 65535 before dividing. Kept apart
    from [channel_ratio] to compare the two. *)
Definition specified_ratio (black_cal white_cal : gmap string Z)
    (channel : string) : option float :=
  let black_value := default 0 (black_cal !! channel) in
  let white_value :=
    match white_cal !! channel with
    | Some w => if w =? 0 then 65535 else w
    | None => 65535
    end in
  Py.truediv black_value white_value.

Definition specified_pass (black_cal white_cal : gmap string Z) : bool :=
  forallb (fun channel =>
             match specified_ratio black_cal white_cal channel with
             | Some ratio => negb (0.15 <? ratio)%float
             | None => false
             end)
    ["x"; "y"; "z"].

(** [b / 65535] exceeds 0.15 exactly when [9830 < b], at each of the [k]
    counts from [b] on. *)
Fixpoint sentinel_table (k : nat) (b : Z) : bool :=
  match k with
  | O => true
  | S k' =>
      match Py.truediv b 65535 with
      | Some ratio => Bool.eqb (0.15 <? ratio)%float (9830 <? b)
      | None => false
      end
      && sentinel_table k' (b + 1)
  end.

(** [0 / w] is not above 0.15 at each of the [k] counts from [w] on. *)
Fixpoint zero_black_table (k : nat) (w : Z) : bool :=
  match k with
  | O => true
  | S k' =>
      match Py.truediv 0 w with
      | Some ratio => negb (0.15 <? ratio)%float
      | None => false
      end
      && zero_black_table k' (w + 1)
  end.

(** A sensor count: 16 bits. *)
Definition is_count (z : Z) : Prop := 0 <= z <= 65535.

End BlackCalibration.

(* ===================================================================== *)
(** ** mock_esp32_server.py: device settings *)
(* ===================================================================== *)

Module MockServer.

(** The simulated device state, a module-level dictionary. *)
Definition device_state : gmap string Py.value :=
  list_to_map [
    ("isScanning", Py.PBool false);
    ("ledState", Py.PBool false);
    ("isCalibrated", Py.PBool true);
    ("currentR", Py.PInt 128);
    ("currentG", Py.PInt 128);
    ("currentB", Py.PInt 128);
    ("sampleCount", Py.PInt 5);
    ("atime", Py.PInt 56);
    ("again", Py.PInt 3);
    ("brightness", Py.PInt 128);
    ("ambientLux", Py.PFloat 150.5%float);
    ("autoZeroMode", Py.PInt 1);
    ("autoZeroFreq", Py.PInt 127);
    ("waitTime", Py.PInt 0);
    ("esp32IP", Py.PStr "192.168.1.100");
    ("clientIP", Py.PStr "192.168.1.50");
    ("gateway", Py.PStr "192.168.1.1");
    ("subnet", Py.PStr "255.255.255.0");
    ("macAddress", Py.PStr "AA:BB:CC:DD:EE:FF");
    ("rssi", Py.PInt (-45))
  ].

(** Why a request is answered with status 400. *)
Inductive error : Type :=
| InvalidAutoZeroMode (value : Z)   (* "... (must be 0-1)" *)
| InvalidAutoZeroFreq (value : Z)   (* "... (must be 0-255)" *)
| InvalidWaitTime (value : Z)       (* "... (must be 0-255)" *)
| BrightnessOutOfRange              (* "Brightness must be 0-255" *)
| Raised.                           (* except Exception: str(e) *)

Inductive response : Type :=
| SettingsSaved                      (* "Settings saved", 200 *)
| BrightnessSet (brightness : Z)     (* {"success": true, ...}, 200 *)
| BadRequest (e : error).            (* {"error": ...}, 400 *)

(** A handler body runs on the device dictionary, which it updates in
    place; it either falls through to the next statement or leaves the
    handler with a response ([return], or an exception caught by the
    handler's [except]). Updates made before leaving stay. *)
Inductive flow (A : Type) : Type :=
| Next (a : A)
| Leave (resp : response).
Arguments Next {A} a.
Arguments Leave {A} resp.

Definition handler (A : Type) : Type :=
  gmap string Py.value -> flow A * gmap string Py.value.

#[global] Instance handler_ret : MRet handler :=
  fun A (a : A) st => (Next a, st).

#[global] Instance handler_bind : MBind handler :=
  fun A B (k : A -> handler B) (m : handler A) st =>
    match m st with
    | (Next a, st') => k a st'
    | (Leave resp, st') => (Leave resp, st')
    end.

(** [return resp]. *)
Definition leave {A} (resp : response) : handler A :=
  fun st => (Leave resp, st).

(** [int(v)] inside the [try]: a raised exception becomes the 400 answer
    of the [except] clause. *)
Definition to_int (v : Py.value) : handler Z :=
  match Py.int v with
  | Some z => mret z
  | None => leave (BadRequest Raised)
  end.

(** [device_state[key] = v]. *)
Definition store (key : string) (v : Py.value) : handler unit :=
  fun st => (Next tt, <[key := v]> st).

(** The blocks of [update_settings], in source order. The list
    [updated_fields] and the [print] calls only feed the console log and
    are left out. *)

Definition set_autoZeroMode (data : gmap string Py.value) : handler unit :=
  match data !! "autoZeroMode" with
  | Some v =>
      value ← to_int v;
      if (0 <=? value) && (value <=? 1)
      then store "autoZeroMode" (Py.PInt value)
      else leave (BadRequest (InvalidAutoZeroMode value))
  | None => mret tt
  end.

Definition set_autoZeroFreq (data : gmap string Py.value) : handler unit :=
  match data !! "autoZeroFreq" with
  | Some v =>
      value ← to_int v;
      if (0 <=? value) && (value <=? 255)
      then store "autoZeroFreq" (Py.PInt value)
      else leave (BadRequest (InvalidAutoZeroFreq value))
  | None => mret tt
  end.

Definition set_waitTime (data : gmap string Py.value) : handler unit :=
  match data !! "waitTime" with
  | Some v =>
      value ← to_int v;
      if (0 <=? value) && (value <=? 255)
      then store "waitTime" (Py.PInt value)
      else leave (BadRequest (InvalidWaitTime value))
  | None => mret tt
  end.

Definition set_atime (data : gmap string Py.value) : handler unit :=
  match data !! "atime" with
  | Some v => value ← to_int v; store "atime" (Py.PInt value)
  | None => mret tt
  end.

Definition set_again (data : gmap string Py.value) : handler unit :=
  match data !! "again" with
  | Some v => value ← to_int v; store "again" (Py.PInt value)
  | None => mret tt
  end.

Definition set_brightness (data : gmap string Py.value) : handler unit :=
  match data !! "brightness" with
  | Some v => value ← to_int v; store "brightness" (Py.PInt value)
  | None => mret tt
  end.

Definition set_ledState (data : gmap string Py.value) : handler unit :=
  match data !! "ledState" with
  | Some v => store "ledState" (Py.PBool (Py.bool v))
  | None => mret tt
  end.

(** The [/settings] route on the decoded JSON object [data]. *)
Definition update_settings_body (data : gmap string Py.value)
    : handler unit :=
  set_autoZeroMode data ;;
  set_autoZeroFreq data ;;
  set_waitTime data ;;
  set_atime data ;;
  set_again data ;;
  set_brightness data ;;
  set_ledState data ;;
  leave SettingsSaved.

Definition run_handler (h : handler unit) (st : gmap string Py.value)
    : response * gmap string Py.value :=
  match h st with
  | (Leave resp, st') => (resp, st')
  | (Next _, st') => (SettingsSaved, st')
  end.

Definition update_settings (data : gmap string Py.value)
    (st : gmap string Py.value) : response * gmap string Py.value :=
  run_handler (update_settings_body data) st.

(** The [/brightness] route. *)
Definition update_brightness (data : gmap string Py.value)
    (st : gmap string Py.value) : response * gmap string Py.value :=
  run_handler
    (brightness ← to_int (default (Py.PInt 128) (data !! "brightness"));
     if (0 <=? brightness) && (brightness <=? 255)
     then store "brightness" (Py.PInt brightness) ;;
          leave (BrightnessSet brightness)
     else leave (BadRequest BrightnessOutOfRange))
    st.

(** The validated calibration fields with their ranges, in the order the
    handler checks them. *)
Definition validated_fields : list (string * (Z * Z)) :=
  [("autoZeroMode", (0, 1)); ("autoZeroFreq", (0, 255));
   ("waitTime", (0, 255))].

(** The error a validated field is rejected with when its value is an
    integer outside the range. *)
Definition range_error (key : string) (value : Z) : error :=
  if String.eqb key "autoZeroMode" then InvalidAutoZeroMode value
  else if String.eqb key "autoZeroFreq" then InvalidAutoZeroFreq value
  else InvalidWaitTime value.

Definition is_rejected (resp : response) : Prop :=
  exists e, resp = BadRequest e.

(** A payload value the handler accepts for a field with range
    [lo..hi]: its [int()] exists and lies in the range. *)
Definition accepted (lo hi : Z) (v : Py.value) : Prop :=
  exists z, Py.int v = Some z /\ lo <= z <= hi.

(** The field [key] of [data] is absent or accepted. *)
Definition passes (data : gmap string Py.value) (key : string)
    (lo hi : Z) : Prop :=
  match data !! key with
  | Some v => accepted lo hi v
  | None => True
  end.

(** *** The handler as a plan

    A second reading of [update_settings], proved equal to it below:
    each block decides what to do with its field, and the decisions are
    carried out in order until one of them rejects. *)

(** What a block of [update_settings] decides for its field: nothing to
    do, a value to store, or the end of the request with an error. *)
Inductive verdict : Type :=
| Skip
| Store (v : Py.value)
| Reject (e : error).

(** The decision of a block that converts with [int] and checks a range. *)
Definition checked (lo hi : Z) (mk : Z -> error) (o : option Py.value)
    : verdict :=
  match o with
  | None => Skip
  | Some v =>
      match Py.int v with
      | None => Reject Raised
      | Some z =>
          if (lo <=? z) && (z <=? hi) then Store (Py.PInt z)
          else Reject (mk z)
      end
  end.

(** The decision of a block that converts with [int] only. *)
Definition unchecked (o : option Py.value) : verdict :=
  match o with
  | None => Skip
  | Some v =>
      match Py.int v with
      | None => Reject Raised
      | Some z => Store (Py.PInt z)
      end
  end.

(** The decision of the [ledState] block. *)
Definition truth (o : option Py.value) : verdict :=
  match o with
  | None => Skip
  | Some v => Store (Py.PBool (Py.bool v))
  end.

Definition act (key : string) (vd : verdict) : handler unit :=
  match vd with
  | Skip => mret tt
  | Store v => store key v
  | Reject e => leave (BadRequest e)
  end.

(** The decisions of the seven blocks for a payload, in source order. *)
Definition plan (data : gmap string Py.value) : list (string * verdict) :=
  [ ("autoZeroMode", checked 0 1 InvalidAutoZeroMode (data !! "autoZeroMode"));
    ("autoZeroFreq",
       checked 0 255 InvalidAutoZeroFreq (data !! "autoZeroFreq"));
    ("waitTime", checked 0 255 InvalidWaitTime (data !! "waitTime"));
    ("atime", unchecked (data !! "atime"));
    ("again", unchecked (data !! "again"));
    ("brightness", unchecked (data !! "brightness"));
    ("ledState", truth (data !! "ledState")) ].

Fixpoint execute (p : list (string * verdict)) (st : gmap string Py.value)
    : response * gmap string Py.value :=
  match p with
  | [] => (SettingsSaved, st)
  | (_, Skip) :: p' => execute p' st
  | (k, Store v) :: p' => execute p' (<[k := v]> st)
  | (_, Reject e) :: _ => (BadRequest e, st)
  end.

(** The decisions carried out before the first rejection. *)
Fixpoint accepted_prefix (p : list (string * verdict))
    : list (string * verdict) :=
  match p with
  | [] => []
  | (_, Reject _) :: _ => []
  | x :: p' => x :: accepted_prefix p'
  end.

Fixpoint first_reject (p : list (string * verdict)) : option error :=
  match p with
  | [] => None
  | (_, Reject e) :: _ => Some e
  | _ :: p' => first_reject p'
  end.

Fixpoint apply_stores (p : list (string * verdict))
    (st : gmap string Py.value) : gmap string Py.value :=
  match p with
  | [] => st
  | (k, Store v) :: p' => apply_stores p' (<[k := v]> st)
  | _ :: p' => apply_stores p' st
  end.


(** A verdict that lets the handler go on to the next field. *)
Definition not_rejecting (vd : verdict) : Prop :=
  match vd with Reject _ => False | _ => True end.

(** *** The other routes and the server as a whole *)

(** [device_state[key]] for a key the handler has just assigned. *)
Definition item (st : gmap string Py.value) (key : string) : Py.value :=
  default Py.PNone (st !! key).

(** The [/status] route: [jsonify(device_state)]. *)
Definition get_status (st : gmap string Py.value) : gmap string Py.value :=
  st.

(** The [/scan] route: the simulated reading is stored and returned as
    the triple [(r, g, b)] of the answer; [time.sleep] has no effect on
    the state. *)
Definition start_scan (st : gmap string Py.value)
    : (Py.value * Py.value * Py.value) * gmap string Py.value :=
  let st1 := <["isScanning" := Py.PBool true]> st in
  let st2 := <["currentR" := Py.PInt 180]> st1 in
  let st3 := <["currentG" := Py.PInt 120]> st2 in
  let st4 := <["currentB" := Py.PInt 90]> st3 in
  let st5 := <["isScanning" := Py.PBool false]> st4 in
  ((item st5 "currentR", item st5 "currentG", item st5 "currentB"), st5).

(** The requests the server routes, with the decoded JSON body of the
    two routes that read one. *)
Inductive request : Type :=
| GetStatus
| PostSettings (data : gmap string Py.value)
| PostScan
| PostBrightness (data : gmap string Py.value)
| GetRoot.

Inductive reply : Type :=
| StatusDoc (doc : gmap string Py.value)
| SettingsReply (resp : response)
| ScanReply (rgb : Py.value * Py.value * Py.value)
| BrightnessReply (resp : response)
| RootDoc.

Definition handle (req : request) (st : gmap string Py.value)
    : reply * gmap string Py.value :=
  match req with
  | GetStatus => (StatusDoc (get_status st), st)
  | PostSettings data =>
      let '(resp, st') := update_settings data st in
      (SettingsReply resp, st')
  | PostScan =>
      let '(rgb, st') := start_scan st in (ScanReply rgb, st')
  | PostBrightness data =>
      let '(resp, st') := update_brightness data st in
      (BrightnessReply resp, st')
  | GetRoot => (RootDoc, st)
  end.

(** The requests of a session, handled one after the other on the shared
    dictionary. *)
Fixpoint run_requests (reqs : list request) (st : gmap string Py.value)
    : list reply * gmap string Py.value :=
  match reqs with
  | [] => ([], st)
  | req :: reqs' =>
      let '(rep, st') := handle req st in
      let '(reps, st'') := run_requests reqs' st' in
      (rep :: reps, st'')
  end.

(** The fields [update_settings] recognizes, in source order. *)
Definition settings_fields : list string :=
  ["autoZeroMode"; "autoZeroFreq"; "waitTime"; "atime"; "again";
   "brightness"; "ledState"].

(** The keys [start_scan] assigns. *)
Definition scan_keys : list string :=
  ["isScanning"; "currentR"; "currentG"; "currentB"].

(** The dictionary holds an integer between [lo] and [hi] under [key]. *)
Definition holds_int_in (st : gmap string Py.value) (key : string)
    (lo hi : Z) : Prop :=
  exists z, st !! key = Some (Py.PInt z) /\ lo <= z <= hi.

Definition calibration_in_range (st : gmap string Py.value) : Prop :=
  holds_int_in st "autoZeroMode" 0 1 /\
  holds_int_in st "autoZeroFreq" 0 255 /\
  holds_int_in st "waitTime" 0 255.

(** The field [key] of [data] is absent or its [int()] exists. *)
Definition converts (data : gmap string Py.value) (key : string) : Prop :=
  match data !! key with
  | Some v => is_Some (Py.int v)
  | None => True
  end.

(** The value a list of decisions leaves under [k], if it stores one:
    the last store wins. *)
Fixpoint stored (p : list (string * verdict)) (k : string)
    : option Py.value :=
  match p with
  | [] => None
  | (k', Store v) :: p' =>
      match stored p' k with
      | Some w => Some w
      | None => if decide (k' = k) then Some v else None
      end
  | _ :: p' => stored p' k
  end.

End MockServer.

(* ===================================================================== *)
(** ** test_calibration.py: the settings test suite *)
(* ===================================================================== *)

Module CalibrationSuite.

Section Tester.

(** The device the tester talks to, seen through the two requests it
    sends. [None] stands for an exception raised by [requests] or by the
    decoding of the body. *)
Variable S : Type.

(** [requests.post(base_url + "/settings", json=settings)]: the status
    code, and the device after the request. *)
Variable post_settings : gmap string Py.value -> S -> option nat * S.

(** [requests.get(base_url + "/status")]: the status code and the body
    decoded by [response.json()], a JSON object. Reading the status
    leaves the device as it is. *)
Variable fetch_status : S -> option (nat * gmap string Py.value).

(** [log_test]: appends to [self.test_results]. The message only feeds
    the console; the entries keep the test name and the flag, which is
    all the summary reads. *)
Definition log_test (test_name : string) (success : bool)
    (results : list (string * bool)) : list (string * bool) :=
  results ++ [(test_name, success)].

Definition get_status (dev : S) : gmap string Py.value :=
  match fetch_status dev with
  | Some (code, doc) => if (code =? 200)%nat then doc else ∅
  | None => ∅
  end.

Definition update_settings (settings : gmap string Py.value) (dev : S)
    : bool * S :=
  let '(code, dev') := post_settings settings dev in
  (match code with Some c => (c =? 200)%nat | None => false end, dev').

Definition test_connectivity (dev : S) (results : list (string * bool))
    : bool * list (string * bool) :=
  match fetch_status dev with
  | Some (code, _) =>
      if (code =? 200)%nat
      then (true, log_test "ESP32 Connectivity" true results)
      else (false, log_test "ESP32 Connectivity" false results)
  | None => (false, log_test "ESP32 Connectivity" false results)
  end.

Definition test_status_includes_calibration_settings (dev : S)
    (results : list (string * bool)) : list (string * bool) :=
  let status := get_status dev in
  let required_fields := ["autoZeroMode"; "autoZeroFreq"; "waitTime"] in
  let missing_fields :=
    filter (fun field => status !! field = None) required_fields in
  match missing_fields with
  | [] => log_test "Status Calibration Fields" true results
  | _ => log_test "Status Calibration Fields" false results
  end.

(** The body of the [for] loops over the valid values of a field: set
    it, read the status back, compare. *)
Definition set_and_read_back (field label : string)
    (acc : S * list (string * bool)) (value : Z)
    : S * list (string * bool) :=
  let '(dev, results) := acc in
  let '(success, dev) :=
    update_settings {[ field := Py.PInt value ]} dev in
  if success then
    let status := get_status dev in
    if Py.eq (Py.get status field) (Py.PInt value)
    then (dev, log_test (label +:+ pretty value) true results)
    else (dev, log_test (label +:+ pretty value) false results)
  else (dev, log_test (label +:+ pretty value) false results).

Definition test_auto_zero_mode_settings (dev : S)
    (results : list (string * bool)) : S * list (string * bool) :=
  let '(dev, results) :=
    fold_left (set_and_read_back "autoZeroMode" "Auto-Zero Mode ")
      [0; 1] (dev, results) in
  let '(_, dev) := update_settings {[ "autoZeroMode" := Py.PInt 2 ]} dev in
  let status := get_status dev in
  if existsb (Py.eq (Py.get status "autoZeroMode")) [Py.PInt 0; Py.PInt 1]
  then (dev, log_test "Auto-Zero Mode Invalid" true results)
  else (dev, log_test "Auto-Zero Mode Invalid" false results).

(** [None] stands for the [TypeError] that [status.get(...) <= 255]
    raises, uncaught, when the status holds no number under the key. *)
Definition test_auto_zero_frequency_settings (dev : S)
    (results : list (string * bool))
    : option (S * list (string * bool)) :=
  let '(dev, results) :=
    fold_left (set_and_read_back "autoZeroFreq" "Auto-Zero Freq ")
      [0; 127; 255] (dev, results) in
  let '(_, dev) :=
    update_settings {[ "autoZeroFreq" := Py.PInt 300 ]} dev in
  let status := get_status dev in
  below ← Py.le_int (Py.get status "autoZeroFreq") 255;
  Some (if below : bool
        then (dev, log_test "Auto-Zero Freq Invalid" true results)
        else (dev, log_test "Auto-Zero Freq Invalid" false results)).

Definition test_wait_time_settings (dev : S)
    (results : list (string * bool))
    : option (S * list (string * bool)) :=
  let '(dev, results) :=
    fold_left (set_and_read_back "waitTime" "Wait Time ")
      [0; 10; 50; 255] (dev, results) in
  let '(_, dev) := update_settings {[ "waitTime" := Py.PInt 300 ]} dev in
  let status := get_status dev in
  below ← Py.le_int (Py.get status "waitTime") 255;
  Some (if below : bool
        then (dev, log_test "Wait Time Invalid" true results)
        else (dev, log_test "Wait Time Invalid" false results)).

Definition combined_settings : list (string * Z) :=
  [("autoZeroMode", 1); ("autoZeroFreq", 127); ("waitTime", 5);
   ("atime", 56); ("again", 3)].

Definition as_payload (settings : list (string * Z))
    : gmap string Py.value :=
  list_to_map (map (fun '(key, value) => (key, Py.PInt value)) settings).

Definition test_combined_settings (dev : S)
    (results : list (string * bool)) : S * list (string * bool) :=
  let '(success, dev) :=
    update_settings (as_payload combined_settings) dev in
  if success then
    let status := get_status dev in
    let all_correct :=
      forallb (fun '(key, expected_value) =>
                 Py.eq (Py.get status key) (Py.PInt expected_value))
        combined_settings in
    if all_correct
    then (dev, log_test "Combined Settings" true results)
    else (dev, log_test "Combined Settings" false results)
  else (dev, log_test "Combined Settings" false results).

Definition test_settings : list (string * Z) :=
  [("autoZeroMode", 0); ("autoZeroFreq", 200); ("waitTime", 15)].

Definition test_persistence (dev : S) (results : list (string * bool))
    : S * list (string * bool) :=
  let '(success, dev) := update_settings (as_payload test_settings) dev in
  if success then
    let status1 := get_status dev in
    let status2 := get_status dev in
    let persistent :=
      forallb (fun '(key, _) =>
                 Py.eq (Py.get status1 key) (Py.get status2 key))
        test_settings in
    if persistent
    then (dev, log_test "Settings Persistence" true results)
    else (dev, log_test "Settings Persistence" false results)
  else (dev, log_test "Settings Persistence" false results).

(** [run_all_tests] on a tester whose [test_results] is [results]: the
    verdict, the device after the suite and the results logged; [None]
    when a test raised. *)
Definition run_all_tests (dev : S) (results : list (string * bool))
    : option (bool * S * list (string * bool)) :=
  let '(connected, results) := test_connectivity dev results in
  if negb connected then Some (false, dev, results)
  else
    let results := test_status_includes_calibration_settings dev results in
    let '(dev, results) := test_auto_zero_mode_settings dev results in
    '(dev, results) ← test_auto_zero_frequency_settings dev results;
    '(dev, results) ← test_wait_time_settings dev results;
    let '(dev, results) := test_combined_settings dev results in
    let '(dev, results) := test_persistence dev results in
    let passed := length (filter (fun result => result.2 = true) results) in
    let total := length results in
    Some ((passed =? total)%nat, dev, results).

End Tester.

(** The mock server behind the two requests: the handlers are called on
    the device dictionary, and the JSON encoding of the status is decoded
    to the same values. *)
Definition mock_post_settings (data : gmap string Py.value)
    (st : gmap string Py.value) : option nat * gmap string Py.value :=
  let '(resp, st') := MockServer.update_settings data st in
  (Some match resp with
        | MockServer.BadRequest _ => 400%nat
        | _ => 200%nat
        end, st').

Definition mock_fetch_status (st : gmap string Py.value)
    : option (nat * gmap string Py.value) :=
  Some (200%nat, MockServer.get_status st).

End CalibrationSuite.

(* ===================================================================== *)
(** ** The white checks of the scan scripts *)
(* ===================================================================== *)

Module ScanChecks.

(** A value of a decoded scan body. What is inside an array or a nested
    object is only ever printed, so the two carry no content here. *)
Inductive json : Type :=
| JNull
| JBool (b : bool)
| JInt (z : Z)
| JFloat (f : float)
| JStr (s : string)
| JArray
| JObject.

(** What a scan request came back with: the status code and the decoded
    body, a JSON object; [None] stands for an exception raised by
    [requests] or by the decoding. *)
Definition scan_response : Type := option (nat * gmap string json).

(** [data.get(key, 0)]. *)
Definition channel (data : gmap string json) (key : string) : json :=
  default (JInt 0) (data !! key).

(** [v > n] for an [int] [n]; [None] stands for the [TypeError] raised on
    anything but a number. A [bool] counts as 0 or 1. *)
Definition gt (v : json) (n : Z) : option bool :=
  match v with
  | JBool b => Some (n <? (if b then 1 else 0))
  | JInt z => Some (n <? z)
  | JFloat f =>
      Some match Py.compare_float_int f n with
           | Some Gt => true
           | _ => false
           end
  | _ => None
  end.

(** [v == n] for an [int] [n]: never raises. *)
Definition eq (v : json) (n : Z) : bool :=
  match v with
  | JBool b => (if b then 1 else 0) =? n
  | JInt z => z =? n
  | JFloat f =>
      match Py.compare_float_int f n with
      | Some Eq => true
      | _ => false
      end
  | _ => false
  end.

(** A number met while [rgb_diff] is computed. *)
Inductive num : Type :=
| NInt (z : Z)
| NFloat (f : float).

(** [v - n] for an [int] [n]; [None] stands for the [TypeError] raised on
    anything but a number, and for the [OverflowError] of converting [n]
    for a [float]. *)
Definition sub (v : json) (n : Z) : option num :=
  match v with
  | JBool b => Some (NInt ((if b then 1 else 0) - n))
  | JInt z => Some (NInt (z - n))
  | JFloat f => fn ← Py.float_of_int n; Some (NFloat (f - fn)%float)
  | _ => None
  end.

(** [abs(a)]. *)
Definition absolute (a : num) : num :=
  match a with
  | NInt z => NInt (Z.abs z)
  | NFloat f => NFloat (PrimFloat.abs f)
  end.

(** [a + b]: an [int] met by a [float] is converted first, which raises
    [OverflowError] when it is too large. *)
Definition add (a b : num) : option num :=
  match a, b with
  | NInt x, NInt y => Some (NInt (x + y))
  | NFloat f, NFloat g => Some (NFloat (f + g)%float)
  | NInt x, NFloat g => fx ← Py.float_of_int x; Some (NFloat (fx + g)%float)
  | NFloat f, NInt y => fy ← Py.float_of_int y; Some (NFloat (f + fy)%float)
  end.

(** [a < n] for an [int] [n]. *)
Definition lt (a : num) (n : Z) : bool :=
  match a with
  | NInt z => z <? n
  | NFloat f =>
      match Py.compare_float_int f n with
      | Some Lt => true
      | _ => false
      end
  end.

(** [r > 200 and g > 200 and b > 200], left to right: a comparison is
    evaluated only when those before it held. *)
Definition near_white (r g b : json) : option bool :=
  match gt r 200 with
  | None => None
  | Some false => Some false
  | Some true =>
      match gt g 200 with
      | None => None
      | Some false => Some false
      | Some true => gt b 200
      end
  end.

(** [r == 255 and g == 255 and b == 255]. *)
Definition exact_white (r g b : json) : bool :=
  eq r 255 && eq g 255 && eq b 255.

(** [abs(r - 255) + abs(g - 255) + abs(b - 255)]. *)
Definition rgb_diff (r g b : json) : option num :=
  dr ← sub r 255;
  dg ← sub g 255;
  db ← sub b 255;
  s ← add (absolute dr) (absolute dg);
  add s (absolute db).

(** [opt = data[key]] followed by [opt.get(...)], run when [key in data]:
    only an object has [get], anything else raises [AttributeError]. *)
Definition section_prints (data : gmap string json) (key : string) : bool :=
  match data !! key with
  | None | Some JObject => true
  | Some _ => false
  end.

(** simple_vivid_white_test.py, [scan_color]: the line printed about the
    colour. *)
Inductive whiteness : Type :=
| CloseToWhite      (* "SUCCESS: Color is close to white!" *)
| PerfectWhite      (* "PERFECT: Exact white RGB (255,255,255)!" *)
| NotWhite.         (* "ISSUE: Color is not white - needs calibration" *)

(** [scan_color]: the pair it returns and the line it printed about the
    colour, if it got that far. *)
Definition scan_color (resp : scan_response)
    : bool * gmap string json * option whiteness :=
  match resp with
  | Some (code, data) =>
      if (code =? 200)%nat then
        let r := channel data "r" in
        let g := channel data "g" in
        let b := channel data "b" in
        match near_white r g b with
        | None => (false, ∅, None)
        | Some true => (true, data, Some CloseToWhite)
        | Some false =>
            if exact_white r g b then (true, data, Some PerfectWhite)
            else (true, data, Some NotWhite)
        end
      else (false, ∅, None)
  | None => (false, ∅, None)
  end.

(** test_enhanced_scan_only.py, [enhanced_scan]. *)
Definition enhanced_scan (resp : scan_response) : bool :=
  match resp with
  | Some (code, data) =>
      if (code =? 200)%nat then
        let r := channel data "r" in
        let g := channel data "g" in
        let b := channel data "b" in
        if negb (section_prints data "brightnessOptimization") then false
        else if negb (section_prints data "sensorConfig") then false
        else if exact_white r g b then true
        else
          match near_white r g b with
          | Some near => near
          | None => false
          end
      else false
  | None => false
  end.

(** test_enhanced_final.py, [test_enhanced_scan]. *)
Definition test_enhanced_scan (resp : scan_response) : bool :=
  match resp with
  | Some (code, data) =>
      if (code =? 200)%nat then
        exact_white (channel data "r") (channel data "g") (channel data "b")
      else false
  | None => false
  end.

(** test_calibration_sequence.py, [test_white_scan]. *)
Definition test_white_scan (resp : scan_response) : bool :=
  match resp with
  | Some (code, data) =>
      if (code =? 200)%nat then
        match rgb_diff (channel data "r") (channel data "g")
                (channel data "b") with
        | Some d => lt d 30
        | None => false
        end
      else false
  | None => false
  end.

(** The three colour channels of a body are JSON integers. *)
Definition integer_channels (data : gmap string json) : Prop :=
  forall key, key ∈ ["r"; "g"; "b"] -> exists z, channel data key = JInt z.

End ScanChecks.

(* ===================================================================== *)
(** ** The brightness optimizer (device firmware) *)
(* ===================================================================== *)

Module BrightnessOptimizer.

(** Modelled from the spec: the transient per-scan record of section 3,
    [OptimizerState]; the optimizer itself runs in the device firmware,
    whose source is not among the Python files. *)
Record OptimizerState : Type := {
  brightness : Z;
  atime : Z;
  again : Z;
  control_variable : float;
  target_min : float;
  target_max : float;
  in_range : bool;
  iterations : nat
}.

(** Modelled from the spec: [clamp(x, 0, 255)] of the proportional step
    in section 4.4, where the firmware's step function is missing. *)
Definition clamp (x lo hi : Z) : Z := Z.max lo (Z.min x hi).

(** Modelled from the spec: the test of step (4), the control variable
    lies in the band [[target_min, target_max]]; the firmware test is
    missing from the sources. *)
Definition in_band (lo hi cv : float) : bool :=
  ((lo <=? cv) && (cv <=? hi))%float.

Section Loop.

(** The configured hard iteration cap. *)
Variable cap : nat.

(** The sensor port reduced to the control variable: the value computed
    from the reading acquired in iteration [i] with the LED commanded to
    [level]. Any function is a trajectory the loop may meet. *)
Variable read_control : nat -> Z -> float.

(** The adjustment policy (proportional step or bisection), applied to the
    current brightness and the control variable read with it. *)
Variable adjust : Z -> float -> Z.

(** Modelled from the spec: steps (1) to (3) of an iteration in section
    4.4, command the setting, acquire one reading, compute the control
    variable; the firmware loop is missing from the sources. *)
Definition attempt (st : OptimizerState) : OptimizerState :=
  let cv := read_control (iterations st) (brightness st) in
  {| brightness := brightness st;
     atime := atime st;
     again := again st;
     control_variable := cv;
     target_min := target_min st;
     target_max := target_max st;
     in_range := in_band (target_min st) (target_max st) cv;
     iterations := S (iterations st) |}.

(** Modelled from the spec: step (5), the brightness of the next
    iteration, where the firmware loop is missing. *)
Definition retune (st : OptimizerState) : OptimizerState :=
  {| brightness :=
       clamp (adjust (brightness st) (control_variable st)) 0 255;
     atime := atime st;
     again := again st;
     control_variable := control_variable st;
     target_min := target_min st;
     target_max := target_max st;
     in_range := in_range st;
     iterations := iterations st |}.

(** Modelled from the spec: the two ways a turn of the loop of section
    4.4 ends, going on with a new state or stopping with the result; the
    firmware loop is missing from the sources. *)
Inductive progress : Type :=
| Continue (st : OptimizerState)
| Stop (st : OptimizerState).

(** Modelled from the spec: one turn of the bounded search of section
    4.4, where the firmware loop is missing. Below the cap an attempt is
    made; a control variable inside the band stops the loop with
    success; the attempt that reaches the cap stops it with the setting
    just tried; otherwise the brightness is adjusted and the loop goes
    on. *)
Definition turn (st : OptimizerState) : progress :=
  if (iterations st <? cap)%nat then
    let st' := attempt st in
    if in_range st' then Stop st'
    else if (iterations st' <? cap)%nat then Continue (retune st')
    else Stop st'
  else Stop st.

(** Modelled from the spec: the optimizer loop, run for at most [fuel]
    turns; [None] means the fuel ran out before the loop stopped. *)
Fixpoint run (fuel : nat) (st : OptimizerState) : option OptimizerState :=
  match fuel with
  | O => None
  | S fuel' =>
      match turn st with
      | Stop st' => Some st'
      | Continue st' => run fuel' st'
      end
  end.

(** Modelled from the spec: the number of turns the loop of section 4.4
    takes from [st], when [fuel] suffices; the firmware loop is missing
    from the sources. *)
Fixpoint turns (fuel : nat) (st : OptimizerState) : option nat :=
  match fuel with
  | O => None
  | S fuel' =>
      match turn st with
      | Stop _ => Some 1%nat
      | Continue st' => S <$> turns fuel' st'
      end
  end.

(** Modelled from the spec: the state an enhanced scan starts the
    optimizer from. *)
Definition initial (level a g : Z) (tmin tmax : float) : OptimizerState :=
  {| brightness := level; atime := a; again := g;
     control_variable := 0%float;
     target_min := tmin; target_max := tmax;
     in_range := false; iterations := O |}.

(** A run of the loop summed up: from the state [st] it returns the
    result [r] after [n] turns; the fields are the facts the termination
    theorem rests on. *)
Record outcome_from (st r : OptimizerState) (n : nat) : Prop := {
  out_run :
    forall fuel, (n <= fuel)%nat ->
      run fuel st = Some r;
  out_turns :
    forall fuel, (n <= fuel)%nat ->
      turns fuel st = Some n;
  out_bound : (1 <= n <= Nat.max 1 (cap - iterations st))%nat;
  out_iterations :
    (iterations st <= iterations r <= Nat.max cap (iterations st))%nat;
  out_targets :
    target_min r = target_min st /\ target_max r = target_max st;
  out_level :
    0 <= brightness st <= 255 -> 0 <= brightness r <= 255;
  out_attempted :
    (iterations st < cap)%nat ->
    control_variable r =
      read_control (pred (iterations r)) (brightness r) /\
    in_range r =
      in_band (target_min st) (target_max st) (control_variable r);
  out_failed :
    (iterations st < cap)%nat -> in_range r = false -> iterations r = cap
}.

End Loop.

End BrightnessOptimizer.
(* ===================================================================== *)
(** * Properties *)
(* ===================================================================== *)

(** ** Order facts on binary64 values *)

Module FloatFacts.

Lemma SFcompare_finite_Lt s1 m1 e1 s2 m2 e2 :
  SFcompare (S754_finite s1 m1 e1) (S754_finite s2 m2 e2) = Some Lt <->
  match s1, s2 with
  | true, false => True
  | false, true => False
  | false, false => e1 < e2 \/ (e1 = e2 /\ (m1 < m2)%positive)
  | true, true => e2 < e1 \/ (e1 = e2 /\ (m2 < m1)%positive)
  end.
Proof.
  unfold SFcompare.
  destruct s1, s2; try (split; [easy | intros []]); try easy;
    destruct (Z.compare_spec e1 e2) as [He|He|He];
    rewrite ?Pos.compare_cont_spec; simpl;
    destruct (Pos.compare_spec m1 m2) as [Hm|Hm|Hm]; simpl;
    split; try discriminate; try (intros _; lia); try lia; auto.
Qed.

Lemma SFcompare_refl x : x <> S754_nan -> SFcompare x x = Some Eq.
Proof.
  destruct x as [s|s| |s m e]; intros Hx; try congruence;
    simpl; try (destruct s; reflexivity).
  rewrite Z.compare_refl, Pos.compare_cont_refl. destruct s; reflexivity.
Qed.

Lemma SFltb_trans x y z :
  SFltb x y = true -> SFltb y z = true -> SFltb x z = true.
Proof.
  unfold SFltb.
  destruct (SFcompare x y) as [[]|] eqn:Hxy; try discriminate.
  destruct (SFcompare y z) as [[]|] eqn:Hyz; try discriminate.
  intros _ _.
  assert (SFcompare x z = Some Lt) as ->; [|reflexivity].
  destruct x as [sx|sx| |sx mx ex], y as [sy|sy| |sy my ey],
           z as [sz|sz| |sz mz ez];
    try (apply SFcompare_finite_Lt in Hxy);
    try (apply SFcompare_finite_Lt in Hyz);
    try (apply SFcompare_finite_Lt);
    simpl in *;
    repeat match goal with b : Datatypes.bool |- _ => destruct b end;
    simpl in *; try congruence; try lia; auto.
Qed.

Lemma SFltb_irrefl x : SFltb x x = false.
Proof.
  unfold SFltb. destruct (SFcompare x x) as [[]|] eqn:H; try reflexivity.
  destruct x as [s|s| |s m e]; try (destruct s; discriminate);
    try discriminate.
  apply SFcompare_finite_Lt in H. destruct s; lia.
Qed.

Lemma ltb_trans (x y z : float) :
  (x <? y)%float = true -> (y <? z)%float = true -> (x <? z)%float = true.
Proof. rewrite !FloatAxioms.ltb_spec. apply SFltb_trans. Qed.

Lemma ltb_irrefl (x : float) : (x <? x)%float = false.
Proof. rewrite FloatAxioms.ltb_spec. apply SFltb_irrefl. Qed.

Lemma ltb_asym (x y : float) :
  (x <? y)%float = true -> (y <? x)%float = false.
Proof.
  intros H. destruct (y <? x)%float eqn:E; [|reflexivity].
  pose proof (ltb_trans _ _ _ H E) as Hxx.
  rewrite ltb_irrefl in Hxx. discriminate.
Qed.

Lemma ltb_leb (x y : float) :
  (x <? y)%float = true -> (x <=? y)%float = true.
Proof.
  rewrite FloatAxioms.ltb_spec, FloatAxioms.leb_spec. unfold SFltb, SFleb.
  destruct (SFcompare _ _) as [[]|]; congruence.
Qed.

(** A value below another one is not [nan], hence equal to itself. *)
Lemma ltb_leb_refl (x y : float) :
  (x <? y)%float = true -> (x <=? x)%float = true.
Proof.
  rewrite FloatAxioms.ltb_spec, FloatAxioms.leb_spec. unfold SFltb, SFleb.
  intros H. rewrite SFcompare_refl; [reflexivity|].
  intros Hnan. rewrite Hnan in H. discriminate.
Qed.

Lemma sqrt_increasing_spec k : forall n i,
  ColorMatcher.sqrt_increasing k n = true -> n <= i < n + Z.of_nat k ->
  (ColorMatcher.root i <? ColorMatcher.root (i + 1))%float = true.
Proof.
  induction k as [|k IH]; intros n i H Hi; [lia|].
  cbn [ColorMatcher.sqrt_increasing] in H. apply andb_prop in H as [H0 H1].
  destruct (Z.eq_dec i n) as [->|Hne]; [exact H0|].
  apply (IH (n + 1)); [exact H1 | lia].
Qed.

(** Checked by evaluation on all 195075 consecutive pairs. *)
Lemma sqrt_table : ColorMatcher.sqrt_increasing (Z.to_nat ColorMatcher.max_sq) 0 = true.
Proof. vm_compute. reflexivity. Qed.

Lemma sqrt_succ n :
  0 <= n < ColorMatcher.max_sq ->
  (ColorMatcher.root n <? ColorMatcher.root (n + 1))%float = true.
Proof.
  intros Hn. apply (sqrt_increasing_spec (Z.to_nat ColorMatcher.max_sq) 0 n sqrt_table).
  rewrite Z2Nat.id; unfold ColorMatcher.max_sq in *; lia.
Qed.

Lemma sqrt_lt n m :
  0 <= n -> n < m -> m <= ColorMatcher.max_sq ->
  (ColorMatcher.root n <? ColorMatcher.root m)%float = true.
Proof.
  intros Hn Hnm Hm.
  assert (forall k : nat, n + 1 + Z.of_nat k <= ColorMatcher.max_sq ->
            (ColorMatcher.root n <? ColorMatcher.root (n + 1 + Z.of_nat k))%float
            = true) as Hk.
  { induction k as [|k IH]; intros Hle.
    - replace (n + 1 + Z.of_nat 0) with (n + 1) by lia.
      apply sqrt_succ. lia.
    - apply ltb_trans with (ColorMatcher.root (n + 1 + Z.of_nat k)).
      + apply IH. lia.
      + replace (n + 1 + Z.of_nat (S k)) with (n + 1 + Z.of_nat k + 1) by lia.
        apply sqrt_succ. lia. }
  specialize (Hk (Z.to_nat (m - n - 1))).
  rewrite Z2Nat.id in Hk by lia.
  replace (n + 1 + (m - n - 1)) with m in Hk by lia.
  apply Hk. lia.
Qed.

(** On radicands up to [ColorMatcher.max_sq] the rounded roots compare as the
    radicands do. *)
Lemma sqrt_ltb_iff n m :
  0 <= n <= ColorMatcher.max_sq -> 0 <= m <= ColorMatcher.max_sq ->
  (ColorMatcher.root n <? ColorMatcher.root m)%float = true <-> n < m.
Proof.
  intros Hn Hm. split.
  - intros H. destruct (Z.lt_ge_cases n m) as [|Hge]; [assumption|].
    destruct (Z.eq_dec n m) as [->|Hne].
    + rewrite ltb_irrefl in H. discriminate.
    + assert ((ColorMatcher.root m <? ColorMatcher.root n)%float = true) as H'
        by (apply sqrt_lt; lia).
      apply ltb_asym in H'. congruence.
  - intros H. apply sqrt_lt; lia.
Qed.

Lemma sqrt_lt_infinity n :
  0 <= n <= ColorMatcher.max_sq -> (ColorMatcher.root n <? infinity)%float = true.
Proof.
  intros Hn.
  assert ((ColorMatcher.root ColorMatcher.max_sq <? infinity)%float = true) as Hmax
    by (vm_compute; reflexivity).
  destruct (Z.eq_dec n ColorMatcher.max_sq) as [->|Hne]; [exact Hmax|].
  apply ltb_trans with (ColorMatcher.root ColorMatcher.max_sq); [|exact Hmax].
  apply sqrt_lt; lia.
Qed.

Lemma sqrt_leb n m :
  0 <= n -> n <= m -> m <= ColorMatcher.max_sq ->
  (ColorMatcher.root n <=? ColorMatcher.root m)%float = true.
Proof.
  intros Hn Hnm Hm. destruct (Z.eq_dec n m) as [->|Hne].
  - apply ltb_leb_refl with infinity, sqrt_lt_infinity. lia.
  - apply ltb_leb, sqrt_lt; lia.
Qed.

(** [math.sqrt] on an [int] of [0 .. 2^63 - 1] raises nothing and is the
    square root of the converted [int]. *)
Lemma math_sqrt_small n :
  0 <= n < 2 ^ 63 -> Py.math_sqrt n = Some (ColorMatcher.root n).
Proof.
  intros Hn. unfold Py.math_sqrt, Py.float_of_int, ColorMatcher.root.
  replace (n <? 0) with false by (symmetry; apply Z.ltb_ge; lia).
  replace (Z.abs n <? 2 ^ 63) with true
    by (symmetry; apply Z.ltb_lt; rewrite Z.abs_eq; lia).
  reflexivity.
Qed.

Lemma sqrt_rounded_spec k : forall n i,
  ColorMatcher.sqrt_rounded k n = true -> n <= i < n + Z.of_nat k ->
  ColorMatcher.nearest_to_sqrt (ColorMatcher.root i) i = true.
Proof.
  induction k as [|k IH]; intros n i H Hi; [lia|].
  cbn [ColorMatcher.sqrt_rounded] in H. apply andb_prop in H as [H0 H1].
  destruct (Z.eq_dec i n) as [->|Hne]; [exact H0|].
  apply (IH (n + 1)); [exact H1 | lia].
Qed.

(** Checked by evaluation on all 195076 radicands. *)
Lemma sqrt_rounded_table :
  ColorMatcher.sqrt_rounded (Z.to_nat (ColorMatcher.max_sq + 1)) 0 = true.
Proof. vm_compute. reflexivity. Qed.

Lemma root_nearest n :
  0 <= n <= ColorMatcher.max_sq ->
  ColorMatcher.nearest_to_sqrt (ColorMatcher.root n) n = true.
Proof.
  intros Hn.
  apply (sqrt_rounded_spec (Z.to_nat (ColorMatcher.max_sq + 1)) 0 n
           sqrt_rounded_table).
  rewrite Z2Nat.id; unfold ColorMatcher.max_sq in *; lia.
Qed.

End FloatFacts.

(** ** The classifier *)

Module ColorMatcherFacts.
Import ColorMatcher FloatFacts.

Lemma sq_to_range tr tg tb e :
  is_u8 tr -> is_u8 tg -> is_u8 tb -> rgb_u8 e ->
  0 <= sq_to tr tg tb e <= max_sq.
Proof.
  unfold rgb_u8, is_u8, sq_to, max_sq.
  intros Hr Hg Hb (Her & Heg & Heb).
  assert (forall x y, 0 <= x <= 255 -> 0 <= y <= 255 ->
                      0 <= (x - y) ^ 2 <= 65025) as Hsq.
  { intros x y Hx Hy. rewrite Z.pow_2_r.
    pose proof (Z.square_nonneg (x - y)).
    assert (0 <= (255 - (x - y)) * (255 + (x - y)))
      by (apply Z.mul_nonneg_nonneg; lia).
    lia. }
  pose proof (Hsq tr (r e) Hr Her).
  pose proof (Hsq tg (g e) Hg Heg).
  pose proof (Hsq tb (b e) Hb Heb). lia.
Qed.

Lemma sq_to_zero tr tg tb e :
  sq_to tr tg tb e = 0 <-> rgb_of e = (tr, tg, tb).
Proof.
  unfold sq_to, rgb_of. rewrite !Z.pow_2_r. split.
  - intros H.
    pose proof (Z.square_nonneg (tr - r e)) as H1.
    pose proof (Z.square_nonneg (tg - g e)) as H2.
    pose proof (Z.square_nonneg (tb - b e)) as H3.
    assert ((tr - r e) * (tr - r e) = 0) as E1 by lia.
    assert ((tg - g e) * (tg - g e) = 0) as E2 by lia.
    assert ((tb - b e) * (tb - b e) = 0) as E3 by lia.
    apply Z.mul_eq_0 in E1, E2, E3.
    f_equal; [f_equal|]; lia.
  - intros [= -> -> ->]. rewrite !Z.sub_diag. reflexivity.
Qed.

(** On bytes the radicand is small, so the distance raises nothing. *)
Lemma calculate_color_distance_bytes tr tg tb c :
  is_u8 tr -> is_u8 tg -> is_u8 tb -> rgb_u8 c ->
  calculate_color_distance tr tg tb (r c) (g c) (b c) =
  Some (distance_to tr tg tb c).
Proof.
  intros Hr Hg Hb Hc.
  pose proof (sq_to_range tr tg tb c Hr Hg Hb Hc) as Hrc.
  unfold calculate_color_distance, distance_to.
  change (squared_distance tr tg tb (r c) (g c) (b c))
    with (sq_to tr tg tb c).
  apply math_sqrt_small. unfold max_sq in Hrc. lia.
Qed.

(** One turn of the loop on a state holding an entry and its distance:
    the new entry replaces it exactly when it is strictly nearer. *)
Lemma closest_step_held tr tg tb e c :
  is_u8 tr -> is_u8 tg -> is_u8 tb -> rgb_u8 e -> rgb_u8 c ->
  closest_step tr tg tb (Some e, distance_to tr tg tb e) c =
  Some (if sq_to tr tg tb c <? sq_to tr tg tb e
        then (Some c, distance_to tr tg tb c)
        else (Some e, distance_to tr tg tb e)).
Proof.
  intros Hr Hg Hb He Hc.
  pose proof (sq_to_range tr tg tb e Hr Hg Hb He) as Hre.
  pose proof (sq_to_range tr tg tb c Hr Hg Hb Hc) as Hrc.
  unfold closest_step.
  rewrite (calculate_color_distance_bytes tr tg tb c Hr Hg Hb Hc).
  cbn [mbind option_bind]. unfold distance_to.
  destruct (Z.ltb_spec (sq_to tr tg tb c) (sq_to tr tg tb e)) as [Hlt|Hge].
  - rewrite (proj2 (sqrt_ltb_iff _ _ Hrc Hre) Hlt). reflexivity.
  - destruct (root (sq_to tr tg tb c) <? root (sq_to tr tg tb e))%float
      eqn:E; [|reflexivity].
    apply (sqrt_ltb_iff _ _ Hrc Hre) in E. lia.
Qed.

(** The first turn always takes the entry: its distance is finite. *)
Lemma closest_step_first tr tg tb c :
  is_u8 tr -> is_u8 tg -> is_u8 tb -> rgb_u8 c ->
  closest_step tr tg tb (None, infinity) c =
  Some (Some c, distance_to tr tg tb c).
Proof.
  intros Hr Hg Hb Hc.
  pose proof (sq_to_range tr tg tb c Hr Hg Hb Hc) as Hrc.
  unfold closest_step.
  rewrite (calculate_color_distance_bytes tr tg tb c Hr Hg Hb Hc).
  cbn [mbind option_bind]. unfold distance_to.
  rewrite (sqrt_lt_infinity _ Hrc). reflexivity.
Qed.

(** Loop invariant: after the prefix [pre] the state holds the first
    minimum of [pre]; it holds the first minimum of [pre ++ l] after the
    rest [l] of the catalogue, and nothing was raised. *)
Lemma fold_closest_invariant tr tg tb l : forall pre i e,
  is_u8 tr -> is_u8 tg -> is_u8 tb ->
  Forall rgb_u8 (pre ++ l) ->
  first_minimum tr tg tb pre i e ->
  exists i' e',
    first_minimum tr tg tb (pre ++ l) i' e' /\
    closest_loop tr tg tb l (Some e, distance_to tr tg tb e) =
    Some (Some e', distance_to tr tg tb e').
Proof.
  induction l as [|c l IH]; intros pre i e Hr Hg Hb Hall Hmin.
  - exists i, e. rewrite app_nil_r. split; [exact Hmin | reflexivity].
  - destruct Hmin as (Hi & Hle & Hlt).
    assert (rgb_u8 e) as Hue.
    { apply (proj1 (Forall_forall _ _) Hall).
      apply list_elem_of_lookup. exists i.
      apply lookup_app_l_Some. exact Hi. }
    assert (rgb_u8 c) as Huc.
    { apply (proj1 (Forall_forall _ _) Hall).
      apply elem_of_app. right. apply list_elem_of_here. }
    cbn [closest_loop]. rewrite closest_step_held by assumption.
    cbn [mbind option_bind].
    replace (pre ++ c :: l) with ((pre ++ [c]) ++ l) in *
      by (rewrite <- app_assoc; reflexivity).
    destruct (Z.ltb_spec (sq_to tr tg tb c) (sq_to tr tg tb e)) as [Hc|Hc].
    + apply (IH (pre ++ [c]) (length pre) c); try assumption.
      split; [|split].
      * rewrite lookup_app_r by lia. rewrite Nat.sub_diag. reflexivity.
      * intros j e' Hj. apply lookup_app_Some in Hj as [Hj|[_ Hj]].
        -- specialize (Hle j e' Hj). lia.
        -- apply list_lookup_singleton_Some in Hj as [_ <-]. lia.
      * intros j e' Hji Hj. rewrite lookup_app_l in Hj by lia.
        specialize (Hle j e' Hj). lia.
    + apply (IH (pre ++ [c]) i e); try assumption.
      split; [|split].
      * apply lookup_app_l_Some. exact Hi.
      * intros j e' Hj. apply lookup_app_Some in Hj as [Hj|[_ Hj]].
        -- exact (Hle j e' Hj).
        -- apply list_lookup_singleton_Some in Hj as [_ <-]. lia.
      * intros j e' Hji Hj.
        assert (i < length pre)%nat by (eapply lookup_lt_Some; eauto).
        rewrite lookup_app_l in Hj by lia. exact (Hlt j e' Hji Hj).
Qed.

Lemma find_closest_color_in_cons tr tg tb c l :
  is_u8 tr -> is_u8 tg -> is_u8 tb -> Forall rgb_u8 (c :: l) ->
  exists i e,
    first_minimum tr tg tb (c :: l) i e /\
    find_closest_color_in (c :: l) tr tg tb =
    Some (Some e, distance_to tr tg tb e).
Proof.
  intros Hr Hg Hb Hall. unfold find_closest_color_in. cbn [closest_loop].
  rewrite closest_step_first; try assumption;
    [|exact (Forall_inv Hall)].
  cbn [mbind option_bind].
  apply (fold_closest_invariant tr tg tb l [c] 0%nat c); try assumption.
  split; [reflexivity|]. split.
  - intros [|j] e' Hj; [injection Hj as <-; lia | discriminate].
  - intros j e' Hj. lia.
Qed.

Lemma first_minimum_unique tr tg tb catalog i e i' e' :
  first_minimum tr tg tb catalog i e ->
  first_minimum tr tg tb catalog i' e' -> i = i' /\ e = e'.
Proof.
  intros (Hi & Hle & Hlt) (Hi' & Hle' & Hlt').
  assert (i = i') as ->.
  { destruct (lt_eq_lt_dec i i') as [[H|H]|H]; [|exact H|].
    - specialize (Hlt' i e H Hi). specialize (Hle i' e' Hi'). lia.
    - specialize (Hlt i' e' H Hi'). specialize (Hle' i e Hi). lia. }
  split; congruence.
Qed.


Lemma distance_to_sqrt tr tg tb e :
  distance_to tr tg tb e = root (sq_to tr tg tb e).
Proof. reflexivity. Qed.

(** The distance of an entry of bytes is the binary64 number nearest to
    the real root of the squared distance. *)
Lemma distance_to_nearest tr tg tb e :
  is_u8 tr -> is_u8 tg -> is_u8 tb -> rgb_u8 e ->
  nearest_to_sqrt (distance_to tr tg tb e) (sq_to tr tg tb e) = true.
Proof.
  intros Hr Hg Hb He. apply root_nearest.
  apply sq_to_range; assumption.
Qed.

Lemma first_minimum_elem tr tg tb catalog i e :
  first_minimum tr tg tb catalog i e -> e ∈ catalog.
Proof. intros (Hi & _). apply list_elem_of_lookup. eauto. Qed.

Lemma euclidean_le tr tg tb e e' :
  sq_to tr tg tb e <= sq_to tr tg tb e' ->
  (euclidean tr tg tb e <= euclidean tr tg tb e')%R.
Proof. intros H. apply sqrt_le_1_alt, IZR_le, H. Qed.

Lemma euclidean_lt tr tg tb e e' :
  0 <= sq_to tr tg tb e < sq_to tr tg tb e' ->
  (euclidean tr tg tb e < euclidean tr tg tb e')%R.
Proof.
  intros [H0 H]. apply sqrt_lt_1_alt. split; [apply IZR_le | apply IZR_lt]; lia.
Qed.

(** C1: for every byte triple and every non-empty catalogue of byte
    triples, [find_closest_color] raises nothing and returns an entry [e]
    of the catalogue together with a distance [d]: no entry of the
    catalogue has a smaller sum of squared channel differences, hence a
    smaller Euclidean distance [sqrt ((r1-r2)^2 + (g1-g2)^2 + (b1-b2)^2)],
    every entry standing before [e] in the catalogue is strictly
    farther, so [e] is the first of the nearest entries, and [d] is the
    binary64 number nearest to the Euclidean distance of [e], which is
    what [calculate_color_distance] gives for it. *)
Theorem find_closest_color_nearest_first
    (catalog : list color) (tr tg tb : Z) :
  catalog <> [] ->
  is_u8 tr -> is_u8 tg -> is_u8 tb -> Forall rgb_u8 catalog ->
  exists i e d,
    find_closest_color_in catalog tr tg tb = Some (Some e, d) /\
    catalog !! i = Some e /\
    calculate_color_distance tr tg tb (r e) (g e) (b e) = Some d /\
    nearest_to_sqrt d
      ((tr - r e) ^ 2 + (tg - g e) ^ 2 + (tb - b e) ^ 2) = true /\
    (forall e', e' ∈ catalog ->
       (tr - r e) ^ 2 + (tg - g e) ^ 2 + (tb - b e) ^ 2 <=
         (tr - r e') ^ 2 + (tg - g e') ^ 2 + (tb - b e') ^ 2 /\
       (sqrt (IZR ((tr - r e) ^ 2 + (tg - g e) ^ 2 + (tb - b e) ^ 2)) <=
        sqrt (IZR ((tr - r e') ^ 2 + (tg - g e') ^ 2 + (tb - b e') ^ 2)))%R)
    /\
    (forall j e', (j < i)%nat -> catalog !! j = Some e' ->
       (tr - r e) ^ 2 + (tg - g e) ^ 2 + (tb - b e) ^ 2 <
         (tr - r e') ^ 2 + (tg - g e') ^ 2 + (tb - b e') ^ 2 /\
       (sqrt (IZR ((tr - r e) ^ 2 + (tg - g e) ^ 2 + (tb - b e) ^ 2)) <
        sqrt (IZR ((tr - r e') ^ 2 + (tg - g e') ^ 2 + (tb - b e') ^ 2)))%R).
Proof.
  intros Hne Hr Hg Hb Hall.
  destruct catalog as [|c l]; [congruence|].
  destruct (find_closest_color_in_cons tr tg tb c l Hr Hg Hb Hall)
    as (i & e & Hmin & Hres).
  pose proof (first_minimum_elem _ _ _ _ _ _ Hmin) as Hin.
  destruct Hmin as (Hi & Hle & Hlt).
  assert (forall x, x ∈ c :: l -> rgb_u8 x) as Hu8
    by (intros x Hx; exact (proj1 (Forall_forall _ _) Hall x Hx)).
  assert (forall x, x ∈ c :: l -> 0 <= sq_to tr tg tb x <= max_sq) as Hrange
    by (intros x Hx; apply sq_to_range; auto).
  exists i, e, (distance_to tr tg tb e).
  split; [exact Hres|]. split; [exact Hi|].
  split; [apply calculate_color_distance_bytes; auto|].
  split; [apply (distance_to_nearest tr tg tb e); auto|].
  split.
  - intros e' He'. apply list_elem_of_lookup in He' as Hj.
    destruct Hj as [j Hj]. specialize (Hle j e' Hj).
    split; [exact Hle | apply (euclidean_le tr tg tb e e'), Hle].
  - intros j e' Hji Hj. specialize (Hlt j e' Hji Hj).
    assert (e' ∈ c :: l) as He' by (apply list_elem_of_lookup; eauto).
    pose proof (Hrange e Hin).
    split; [exact Hlt | apply (euclidean_lt tr tg tb e e'); lia].
Qed.

Lemma DULUX_COLORS_u8 : Forall rgb_u8 DULUX_COLORS.
Proof. repeat constructor; unfold is_u8; simpl; lia. Qed.

(** A catalogue with a tie: seen from (1, 0, 0) the second and the third
    entry are both at distance 1 and the first one is farther. *)
Lemma find_closest_color_nearest_first_witness :
  let catalog := [Color "far" "A" 10 0 0 1.0%float;
                  Color "near" "B" 0 0 0 2.0%float;
                  Color "as near" "C" 2 0 0 3.0%float] in
  catalog <> [] /\ is_u8 1 /\ is_u8 0 /\ is_u8 0 /\
  Forall rgb_u8 catalog /\
  find_closest_color_in catalog 1 0 0 =
    Some (Some (Color "near" "B" 0 0 0 2.0%float), 1%float) /\
  exists i e d,
    find_closest_color_in catalog 1 0 0 = Some (Some e, d) /\
    catalog !! i = Some e /\
    calculate_color_distance 1 0 0 (r e) (g e) (b e) = Some d /\
    nearest_to_sqrt d
      ((1 - r e) ^ 2 + (0 - g e) ^ 2 + (0 - b e) ^ 2) = true /\
    (forall e', e' ∈ catalog ->
       (1 - r e) ^ 2 + (0 - g e) ^ 2 + (0 - b e) ^ 2 <=
         (1 - r e') ^ 2 + (0 - g e') ^ 2 + (0 - b e') ^ 2 /\
       (sqrt (IZR ((1 - r e) ^ 2 + (0 - g e) ^ 2 + (0 - b e) ^ 2)) <=
        sqrt (IZR ((1 - r e') ^ 2 + (0 - g e') ^ 2 + (0 - b e') ^ 2)))%R)
    /\
    (forall j e', (j < i)%nat -> catalog !! j = Some e' ->
       (1 - r e) ^ 2 + (0 - g e) ^ 2 + (0 - b e) ^ 2 <
         (1 - r e') ^ 2 + (0 - g e') ^ 2 + (0 - b e') ^ 2 /\
       (sqrt (IZR ((1 - r e) ^ 2 + (0 - g e) ^ 2 + (0 - b e) ^ 2)) <
        sqrt (IZR ((1 - r e') ^ 2 + (0 - g e') ^ 2 + (0 - b e') ^ 2)))%R).
Proof.
  intros catalog.
  assert (catalog <> []) as H0 by discriminate.
  assert (is_u8 1) as H1 by (unfold is_u8; lia).
  assert (is_u8 0) as H2 by (unfold is_u8; lia).
  assert (Forall rgb_u8 catalog) as H4
    by (repeat constructor; unfold is_u8; simpl; lia).
  repeat (split; [assumption|]).
  split; [vm_compute; reflexivity|].
  exact (find_closest_color_nearest_first catalog 1 0 0 H0 H1 H2 H2 H4).
Defined.

(** C6: on byte triples the classifier comes back without a match exactly
    when the catalogue is empty, which [color_match] answers with 404
    "No color match found"; for a non-empty catalogue it returns an entry
    of the catalogue and [color_match] answers with that match and the
    distance rounded to two decimals. *)
Theorem classifier_fails_iff_catalog_empty
    (catalog : list color) (tr tg tb : Z) :
  is_u8 tr -> is_u8 tg -> is_u8 tb -> Forall rgb_u8 catalog ->
  (fst <$> find_closest_color_in catalog tr tg tb = Some None
   <-> catalog = []) /\
  (color_match_in catalog (Some tr) (Some tg) (Some tb) = NoMatch
   <-> catalog = []) /\
  (catalog <> [] ->
   exists m d,
     m ∈ catalog /\
     find_closest_color_in catalog tr tg tb = Some (Some m, d) /\
     color_match_in catalog (Some tr) (Some tg) (Some tb) =
       Matched m (Py.round2 d) (tr, tg, tb)).
Proof.
  intros Hr Hg Hb Hall.
  assert (negb ((0 <=? tr) && (tr <=? 255) && (0 <=? tg) && (tg <=? 255)
                && (0 <=? tb) && (tb <=? 255)) = false) as Hvalid.
  { unfold is_u8 in *.
    repeat (rewrite (proj2 (Z.leb_le _ _)) by lia). reflexivity. }
  destruct catalog as [|c l].
  - unfold color_match_in. rewrite Hvalid. cbn.
    repeat split; try reflexivity; congruence.
  - destruct (find_closest_color_in_cons tr tg tb c l Hr Hg Hb Hall)
      as (i & e & Hmin & Hres).
    unfold color_match_in. rewrite Hvalid, Hres. cbn.
    split; [split; discriminate|]. split; [split; discriminate|].
    intros _. exists e, (distance_to tr tg tb e).
    split; [exact (first_minimum_elem _ _ _ _ _ _ Hmin)|]. split; reflexivity.
Qed.

Lemma classifier_fails_iff_catalog_empty_witness :
  is_u8 30 /\ is_u8 25 /\ is_u8 30 /\ Forall rgb_u8 DULUX_COLORS /\
  (fst <$> find_closest_color_in DULUX_COLORS 30 25 30 = Some None
   <-> DULUX_COLORS = []) /\
  (color_match_in DULUX_COLORS (Some 30) (Some 25) (Some 30) = NoMatch
   <-> DULUX_COLORS = []) /\
  (DULUX_COLORS <> [] ->
   exists m d,
     m ∈ DULUX_COLORS /\
     find_closest_color_in DULUX_COLORS 30 25 30 = Some (Some m, d) /\
     color_match_in DULUX_COLORS (Some 30) (Some 25) (Some 30) =
       Matched m (Py.round2 d) (30, 25, 30)).
Proof.
  assert (is_u8 30) as H1 by (unfold is_u8; lia).
  assert (is_u8 25) as H2 by (unfold is_u8; lia).
  pose proof DULUX_COLORS_u8 as H4.
  repeat (split; [assumption|]).
  exact (classifier_fails_iff_catalog_empty DULUX_COLORS 30 25 30
           H1 H2 H1 H4).
Defined.

(** C7: with the Dulux catalogue, and with the catalogue of Vivid White
    and Cruel Sea alone, (250,252,255) is classified as Vivid White at
    distance [sqrt 34], the binary64 number 5.830951894845301, which
    lies between 5.825 and 5.835, and (30,25,30) is classified as Cruel
    Sea; the route answers the first request with Vivid White and the
    distance 5.83. *)
Theorem vivid_white_and_cruel_sea :
  let vivid_white := Color "Vivid White" "W01A1" 255 255 255 90.0%float in
  let cruel_sea := Color "Cruel Sea" "P29A9" 33 26 27 5.5%float in
  vivid_white ∈ DULUX_COLORS /\ cruel_sea ∈ DULUX_COLORS /\
  Py.math_sqrt 34 = Some 5.830951894845301%float /\
  find_closest_color 250 252 255 =
    Some (Some vivid_white, 5.830951894845301%float) /\
  find_closest_color_in [vivid_white; cruel_sea] 250 252 255 =
    Some (Some vivid_white, 5.830951894845301%float) /\
  ((5.825 <=? 5.830951894845301) && (5.830951894845301 <? 5.835))%float
    = true /\
  fst <$> find_closest_color 30 25 30 = Some (Some cruel_sea) /\
  fst <$> find_closest_color_in [vivid_white; cruel_sea] 30 25 30 =
    Some (Some cruel_sea) /\
  color_match (Some 250) (Some 252) (Some 255) =
    Matched vivid_white 5.83%float (250, 252, 255).
Proof.
  cbv zeta. split; [|split].
  - apply list_elem_of_here.
  - do 3 apply list_elem_of_further. apply list_elem_of_here.
  - repeat split; vm_compute; reflexivity.
Qed.

(** C8: classification is a function of the catalogue and the request,
    so equal requests in a run of classifications get equal answers; for
    a request equal to the RGB of a catalogue entry the distance is 0.0
    and the entry returned is the first one of the catalogue with that
    RGB, hence that very entry when no other entry shares its RGB, as is
    the case for every entry of the Dulux catalogue. *)
Theorem classification_deterministic_and_exact (catalog : list color) :
  Forall rgb_u8 catalog ->
  (forall requests i j rgb,
     requests !! i = Some rgb -> requests !! j = Some rgb ->
     serve catalog requests !! i = serve catalog requests !! j) /\
  (forall e, e ∈ catalog ->
     exists i e',
       find_closest_color_in catalog (r e) (g e) (b e) =
         Some (Some e', 0%float) /\
       catalog !! i = Some e' /\ rgb_of e' = rgb_of e /\
       (forall j e'', (j < i)%nat -> catalog !! j = Some e'' ->
                      rgb_of e'' <> rgb_of e) /\
       ((forall e'', e'' ∈ catalog -> rgb_of e'' = rgb_of e -> e'' = e) ->
        e' = e)) /\
  (forall e, e ∈ DULUX_COLORS ->
     find_closest_color (r e) (g e) (b e) = Some (Some e, 0%float)).
Proof.
  intros Hall. split; [|split].
  - intros requests i j rgb Hi Hj. unfold serve.
    rewrite !list_lookup_fmap, Hi, Hj. reflexivity.
  - intros e He.
    pose proof (proj1 (Forall_forall _ _) Hall e He) as (Hr & Hg & Hb).
    destruct catalog as [|c l]; [inversion He|].
    destruct (find_closest_color_in_cons (r e) (g e) (b e) c l Hr Hg Hb Hall)
      as (i & e' & Hmin & Hres).
    pose proof (first_minimum_elem _ _ _ _ _ _ Hmin) as Hin'.
    destruct Hmin as (Hi & Hle & Hlt).
    assert (sq_to (r e) (g e) (b e) e = 0) as Hzero
      by (apply sq_to_zero; reflexivity).
    assert (sq_to (r e) (g e) (b e) e' = 0) as Hzero'.
    { apply list_elem_of_lookup in He as [j Hj]. specialize (Hle j e Hj).
      pose proof (sq_to_range (r e) (g e) (b e) e' Hr Hg Hb
                    (proj1 (Forall_forall _ _) Hall e' Hin')). lia. }
    exists i, e'. split; [|split; [exact Hi|split; [|split]]].
    + rewrite Hres. unfold distance_to. rewrite Hzero'.
      vm_compute. reflexivity.
    + apply sq_to_zero in Hzero'. exact Hzero'.
    + intros j e'' Hji Hj Heq. specialize (Hlt j e'' Hji Hj).
      apply sq_to_zero in Heq. lia.
    + intros Huniq. apply Huniq; [exact Hin'|].
      apply sq_to_zero in Hzero'. exact Hzero'.
  - intros e He. unfold DULUX_COLORS in He.
    repeat (apply elem_of_cons in He as [->|He]; [vm_compute; reflexivity|]).
    inversion He.
Qed.

Lemma classification_deterministic_and_exact_witness :
  Forall rgb_u8 DULUX_COLORS /\
  (forall requests i j rgb,
     requests !! i = Some rgb -> requests !! j = Some rgb ->
     serve DULUX_COLORS requests !! i = serve DULUX_COLORS requests !! j) /\
  (forall e, e ∈ DULUX_COLORS ->
     exists i e',
       find_closest_color_in DULUX_COLORS (r e) (g e) (b e) =
         Some (Some e', 0%float) /\
       DULUX_COLORS !! i = Some e' /\ rgb_of e' = rgb_of e /\
       (forall j e'', (j < i)%nat -> DULUX_COLORS !! j = Some e'' ->
                      rgb_of e'' <> rgb_of e) /\
       ((forall e'', e'' ∈ DULUX_COLORS -> rgb_of e'' = rgb_of e ->
                     e'' = e) ->
        e' = e)) /\
  (forall e, e ∈ DULUX_COLORS ->
     find_closest_color (r e) (g e) (b e) = Some (Some e, 0%float)).
Proof.
  pose proof DULUX_COLORS_u8 as H.
  split; [exact H|].
  exact (classification_deterministic_and_exact DULUX_COLORS H).
Defined.

End ColorMatcherFacts.

(** ** Black-level validation *)

Module BlackCalibrationFacts.
Import BlackCalibration.

Lemma status_of_black black_cal white_cal :
  status_of black_cal white_cal !! "blackCalibration" = Some black_cal.
Proof. unfold status_of. apply lookup_insert_eq. Qed.

Lemma status_of_white black_cal white_cal :
  status_of black_cal white_cal !! "whiteCalibration" = Some white_cal.
Proof.
  unfold status_of. rewrite lookup_insert_ne by discriminate.
  apply lookup_singleton_eq.
Qed.

Lemma validate_with_pair black_cal white_cal :
  validate_black_levels_outcome true (status_of black_cal white_cal) =
  check_channels black_cal white_cal ["x"; "y"; "z"].
Proof.
  unfold validate_black_levels_outcome.
  rewrite status_of_black, status_of_white. reflexivity.
Qed.

(** The loop passes exactly when no channel of the list is above 15% and
    no division raises. *)
Lemma check_channels_pass black_cal white_cal channels :
  check_channels black_cal white_cal channels = AllWithinRange <->
  forall c, c ∈ channels -> within black_cal white_cal c.
Proof.
  unfold within.
  induction channels as [|ch rest IH]; cbn [check_channels].
  - split; [intros _ c Hc; inversion Hc | reflexivity].
  - destruct (channel_ratio black_cal white_cal ch) as [rt|] eqn:Er.
    + destruct (0.15 <? rt)%float eqn:E.
      * split; [discriminate|]. intros H.
        destruct (H ch (list_elem_of_here _ _)) as (rt' & Hr' & E').
        congruence.
      * rewrite IH. split.
        -- intros H c Hc. apply elem_of_cons in Hc as [->|Hc]; eauto.
        -- intros H c Hc. apply H, list_elem_of_further, Hc.
    + split; [discriminate|]. intros H.
      destruct (H ch (list_elem_of_here _ _)) as (rt' & Hr' & _).
      congruence.
Qed.

(** The loop reports the first channel of the list above 15%, with its
    ratio. *)
Lemma check_channels_fail black_cal white_cal channels ch rt :
  check_channels black_cal white_cal channels = ChannelTooHigh ch rt <->
  exists before after,
    channels = before ++ ch :: after /\
    (forall c, c ∈ before -> within black_cal white_cal c) /\
    channel_ratio black_cal white_cal ch = Some rt /\
    (0.15 <? rt)%float = true.
Proof.
  unfold within.
  induction channels as [|c0 rest IH]; cbn [check_channels].
  - split; [discriminate|]. intros (before & after & H & _).
    destruct before; discriminate.
  - destruct (channel_ratio black_cal white_cal c0) as [r0|] eqn:Er.
    + destruct (0.15 <? r0)%float eqn:E.
      * split.
        -- intros [= <- <-]. exists [], rest. repeat split; try assumption.
           intros c Hc. inversion Hc.
        -- intros (before & after & Hl & Hb & Hch & Hhigh).
           destruct before as [|b0 before]; cbn in Hl.
           ++ injection Hl as -> _. congruence.
           ++ injection Hl as -> _.
              destruct (Hb b0 (list_elem_of_here _ _)) as (r' & Hr' & E').
              congruence.
      * rewrite IH. split.
        -- intros (before & after & -> & Hb & Hch & Hhigh).
           exists (c0 :: before), after. repeat split; try assumption.
           intros c Hc. apply elem_of_cons in Hc as [->|Hc]; eauto.
        -- intros (before & after & Hl & Hb & Hch & Hhigh).
           destruct before as [|b0 before]; cbn in Hl.
           ++ injection Hl as -> _. congruence.
           ++ injection Hl as -> ->. exists before, after.
              repeat split; try assumption.
              intros c Hc. apply Hb, list_elem_of_further, Hc.
    + split; [discriminate|].
      intros (before & after & Hl & Hb & Hch & Hhigh).
      destruct before as [|b0 before]; cbn in Hl.
      * injection Hl as -> _. congruence.
      * injection Hl as -> _.
        destruct (Hb b0 (list_elem_of_here _ _)) as (r' & Hr' & _).
        congruence.
Qed.

(** The loop ends on an exception at the first channel whose division
    raises, the channels before it being within range. *)
Lemma check_channels_raised black_cal white_cal channels :
  check_channels black_cal white_cal channels = Raised <->
  exists before ch after,
    channels = before ++ ch :: after /\
    (forall c, c ∈ before -> within black_cal white_cal c) /\
    channel_ratio black_cal white_cal ch = None.
Proof.
  unfold within.
  induction channels as [|c0 rest IH]; cbn [check_channels].
  - split; [discriminate|]. intros (before & ch & after & H & _).
    destruct before; discriminate.
  - destruct (channel_ratio black_cal white_cal c0) as [r0|] eqn:Er.
    + destruct (0.15 <? r0)%float eqn:E.
      * split; [discriminate|].
        intros (before & ch & after & Hl & Hb & Hch).
        destruct before as [|b0 before]; cbn in Hl.
        -- injection Hl as -> _. congruence.
        -- injection Hl as -> _.
           destruct (Hb b0 (list_elem_of_here _ _)) as (r' & Hr' & E').
           congruence.
      * rewrite IH. split.
        -- intros (before & ch & after & -> & Hb & Hch).
           exists (c0 :: before), ch, after. repeat split; try assumption.
           intros c Hc. apply elem_of_cons in Hc as [->|Hc]; eauto.
        -- intros (before & ch & after & Hl & Hb & Hch).
           destruct before as [|b0 before]; cbn in Hl.
           ++ injection Hl as -> _. congruence.
           ++ injection Hl as -> ->. exists before, ch, after.
              repeat split; try assumption.
              intros c Hc. apply Hb, list_elem_of_further, Hc.
    + split; [|reflexivity]. intros _.
      exists [], c0, rest. repeat split; try assumption.
      intros c Hc. inversion Hc.
Qed.

Lemma channel_ratio_ignores_ir black_cal white_cal bir wir c :
  c <> "ir" ->
  channel_ratio (<["ir" := bir]> black_cal) (<["ir" := wir]> white_cal) c =
  channel_ratio black_cal white_cal c.
Proof.
  intros Hc. unfold channel_ratio.
  rewrite !lookup_insert_ne by congruence. reflexivity.
Qed.

Lemma check_channels_ext b1 w1 b2 w2 channels :
  (forall c, c ∈ channels -> channel_ratio b1 w1 c = channel_ratio b2 w2 c) ->
  check_channels b1 w1 channels = check_channels b2 w2 channels.
Proof.
  induction channels as [|c rest IH]; intros H; cbn [check_channels];
    [reflexivity|].
  rewrite (H c (list_elem_of_here _ _)), IH; [reflexivity|].
  intros c' Hc'. apply H, list_elem_of_further, Hc'.
Qed.

Lemma channel_ratio_cases black_cal white_cal c :
  channel_ratio black_cal white_cal c =
  match white_cal !! c with
  | None => Py.truediv (default 0 (black_cal !! c)) 65535
  | Some w =>
      if 0 <? w then Py.truediv (default 0 (black_cal !! c)) w
      else Some 1%float
  end.
Proof. unfold channel_ratio. destruct (white_cal !! c); reflexivity. Qed.

(** Counts that fit in 53 bits are divided as floats, and nothing is
    raised. *)
Lemma truediv_small a b :
  Z.abs a < 2 ^ 53 -> 0 < b < 2 ^ 53 ->
  Py.truediv a b =
  Some (PrimFloat.div
          (if a <? 0 then PrimFloat.opp (Py.float_of_small (- a))
           else Py.float_of_small a)
          (Py.float_of_small b)).
Proof.
  intros Ha Hb. unfold Py.truediv.
  replace (b =? 0) with false by (symmetry; apply Z.eqb_neq; lia).
  replace (Z.abs a <? 2 ^ 53) with true by (symmetry; apply Z.ltb_lt; lia).
  replace (Z.abs b <? 2 ^ 53) with true
    by (symmetry; apply Z.ltb_lt; rewrite Z.abs_eq; lia).
  replace (b <? 0) with false by (symmetry; apply Z.ltb_ge; lia).
  reflexivity.
Qed.

(** C2, as the code has it: the validation reads the channels x, y and z
    only; the ratio of a channel is black / white with an absent black
    count read as 0 and an absent white count read as 65535, and it is 1
    when the white count is present but not positive, so that a zero
    white count fails the channel instead of being replaced by the
    sentinel; the validation fails exactly when some ratio exceeds 0.15
    (or is too large to be computed) and reports the first channel above
    0.15 in the order x, y, z; counts that fit in 53 bits are divided as
    floats and raise nothing; the ir counts do not matter. Black (500,
    600, 550) against white (40000, 42000, 41000) passes with ratios
    near 0.0125, 0.0143 and 0.0134; any black with x = 7000 against that
    white fails on x with ratio 0.175. *)
Theorem validate_black_levels_checks_xyz_ratios :
  (forall black_cal white_cal c,
     channel_ratio black_cal white_cal c =
     match white_cal !! c with
     | None => Py.truediv (default 0 (black_cal !! c)) 65535
     | Some w =>
         if 0 <? w then Py.truediv (default 0 (black_cal !! c)) w
         else Some 1%float
     end) /\
  (forall black_cal white_cal c,
     Z.abs (default 0 (black_cal !! c)) < 2 ^ 53 ->
     default 65535 (white_cal !! c) < 2 ^ 53 ->
     is_Some (channel_ratio black_cal white_cal c)) /\
  (forall black_cal white_cal,
     validate_black_levels true (status_of black_cal white_cal) = false <->
     exists c, c ∈ ["x"; "y"; "z"] /\
       match channel_ratio black_cal white_cal c with
       | Some rt => (0.15 <? rt)%float = true
       | None => True
       end) /\
  (forall black_cal white_cal c rt,
     validate_black_levels_outcome true (status_of black_cal white_cal) =
       ChannelTooHigh c rt <->
     exists before after,
       ["x"; "y"; "z"] = before ++ c :: after /\
       (forall c', c' ∈ before ->
          exists rt', channel_ratio black_cal white_cal c' = Some rt' /\
                      (0.15 <? rt')%float = false) /\
       channel_ratio black_cal white_cal c = Some rt /\
       (0.15 <? rt)%float = true) /\
  (forall black_cal white_cal,
     validate_black_levels_outcome true (status_of black_cal white_cal) =
       Raised <->
     exists before c after,
       ["x"; "y"; "z"] = before ++ c :: after /\
       (forall c', c' ∈ before ->
          exists rt', channel_ratio black_cal white_cal c' = Some rt' /\
                      (0.15 <? rt')%float = false) /\
       channel_ratio black_cal white_cal c = None) /\
  (forall black_cal white_cal c w,
     c ∈ ["x"; "y"; "z"] -> white_cal !! c = Some w -> w <= 0 ->
     validate_black_levels true (status_of black_cal white_cal) = false) /\
  (forall black_cal white_cal bir wir,
     validate_black_levels_outcome true
       (status_of (<["ir" := bir]> black_cal) (<["ir" := wir]> white_cal)) =
     validate_black_levels_outcome true (status_of black_cal white_cal)) /\
  (let black := {[ "x" := 500; "y" := 600; "z" := 550 ]} in
   let white := {[ "x" := 40000; "y" := 42000; "z" := 41000 ]} in
   validate_black_levels true (status_of black white) = true /\
   channel_ratio black white "x" = Some 0.0125%float /\
   (exists ry, channel_ratio black white "y" = Some ry /\
      ((0.0142 <? ry) && (ry <? 0.0143))%float = true) /\
   (exists rz, channel_ratio black white "z" = Some rz /\
      ((0.0134 <? rz) && (rz <? 0.0135))%float = true)) /\
  (forall rest,
     validate_black_levels_outcome true
       (status_of (<["x" := 7000]> rest)
                  {[ "x" := 40000; "y" := 42000; "z" := 41000 ]}) =
     ChannelTooHigh "x" 0.175%float).
Proof.
  assert (forall black_cal white_cal,
            validate_black_levels true (status_of black_cal white_cal)
            = false <->
            exists c, c ∈ ["x"; "y"; "z"] /\
              match channel_ratio black_cal white_cal c with
              | Some rt => (0.15 <? rt)%float = true
              | None => True
              end)
    as Hfail.
  { intros black_cal white_cal. unfold validate_black_levels.
    rewrite validate_with_pair.
    destruct (check_channels black_cal white_cal ["x"; "y"; "z"]) eqn:E;
      cbn [passed].
    - split; [intros _|reflexivity].
      exfalso. revert E. cbn [check_channels].
      repeat (destruct (channel_ratio _ _ _); try discriminate;
              destruct (_ <? _)%float; try discriminate).
    - split; [intros _|reflexivity].
      exfalso. revert E. cbn [check_channels].
      repeat (destruct (channel_ratio _ _ _); try discriminate;
              destruct (_ <? _)%float; try discriminate).
    - split; [intros _|reflexivity].
      apply check_channels_fail in E
        as (before & after & Hl & _ & Hc & Hhigh).
      exists channel. split.
      + rewrite Hl. apply elem_of_app. right. apply list_elem_of_here.
      + rewrite Hc. exact Hhigh.
    - split; [intros _|reflexivity].
      apply check_channels_raised in E
        as (before & ch & after & Hl & _ & Hc).
      exists ch. split.
      + rewrite Hl. apply elem_of_app. right. apply list_elem_of_here.
      + rewrite Hc. exact I.
    - split; [discriminate|]. intros (c & Hc & Hhigh).
      destruct (proj1 (check_channels_pass _ _ _) E c Hc) as (rt & Hr & Hlow).
      rewrite Hr in Hhigh. congruence. }
  split; [|split; [|split; [exact Hfail|split; [|split; [|split;
    [|split; [|split]]]]]]].
  - apply channel_ratio_cases.
  - intros black_cal white_cal c Hb Hw. unfold channel_ratio.
    destruct (Z.ltb_spec 0 (default 65535 (white_cal !! c))) as [Hpos|_];
      [|eexists; reflexivity].
    rewrite truediv_small by lia. eexists; reflexivity.
  - intros black_cal white_cal c rt. rewrite validate_with_pair.
    apply check_channels_fail.
  - intros black_cal white_cal. rewrite validate_with_pair.
    apply check_channels_raised.
  - intros black_cal white_cal c w Hc Hw Hle. apply Hfail.
    exists c. split; [exact Hc|]. rewrite channel_ratio_cases, Hw.
    rewrite (proj2 (Z.ltb_ge 0 w)) by lia.
    vm_compute. reflexivity.
  - intros black_cal white_cal bir wir. rewrite !validate_with_pair.
    apply check_channels_ext. intros c Hc.
    apply channel_ratio_ignores_ir. intros ->.
    repeat (apply elem_of_cons in Hc as [Hc|Hc]; [discriminate|]).
    inversion Hc.
  - cbv zeta. split; [vm_compute; reflexivity|].
    split; [vm_compute; reflexivity|]. split.
    + eexists. split; [vm_compute; reflexivity|]. vm_compute. reflexivity.
    + eexists. split; [vm_compute; reflexivity|]. vm_compute. reflexivity.
  - intros rest. rewrite validate_with_pair. cbn [check_channels].
    assert (channel_ratio (<["x" := 7000]> rest)
              {[ "x" := 40000; "y" := 42000; "z" := 41000 ]} "x"
            = Some 0.175%float) as ->.
    { rewrite channel_ratio_cases, !lookup_insert_eq.
      vm_compute. reflexivity. }
    vm_compute. reflexivity.
Qed.

(** C2 as worded replaces a zero white count by 65535: black
    (500, 600, 550) would then pass against a white whose x count is 0,
    while [validate_black_levels] fails it on x with ratio 1. *)
Lemma zero_white_count_is_not_replaced_by_sentinel :
  let black : gmap string Z := {[ "x" := 500; "y" := 600; "z" := 550 ]} in
  let white : gmap string Z := {[ "x" := 0; "y" := 42000; "z" := 41000 ]} in
  specified_pass black white = true /\
  validate_black_levels true (status_of black white) = false /\
  validate_black_levels_outcome true (status_of black white) =
    ChannelTooHigh "x" 1%float.
Proof. cbv zeta. repeat split; vm_compute; reflexivity. Qed.

End BlackCalibrationFacts.

(** ** Device settings *)

Module MockServerFacts.
Import MockServer.

Lemma checked_act key lo hi mk (data : gmap string Py.value) st :
  match data !! key with
  | Some v =>
      (value ← to_int v;
       if (lo <=? value) && (value <=? hi)
       then store key (Py.PInt value)
       else leave (BadRequest (mk value)) : handler unit) st
  | None => (mret tt : handler unit) st
  end = act key (checked lo hi mk (data !! key)) st.
Proof.
  destruct (data !! key) as [v|]; [|reflexivity].
  unfold checked, to_int, mbind, handler_bind.
  destruct (Py.int v) as [z|]; [|reflexivity]. cbn.
  destruct ((lo <=? z) && (z <=? hi)); reflexivity.
Qed.

Lemma unchecked_act key (data : gmap string Py.value) st :
  match data !! key with
  | Some v => (value ← to_int v; store key (Py.PInt value) : handler unit) st
  | None => (mret tt : handler unit) st
  end = act key (unchecked (data !! key)) st.
Proof.
  destruct (data !! key) as [v|]; [|reflexivity].
  unfold unchecked, to_int, mbind, handler_bind.
  destruct (Py.int v) as [z|]; reflexivity.
Qed.

Lemma set_autoZeroMode_act data st :
  set_autoZeroMode data st =
  act "autoZeroMode" (checked 0 1 InvalidAutoZeroMode (data !! "autoZeroMode")) st.
Proof.
  rewrite <- checked_act. unfold set_autoZeroMode.
  destruct (data !! "autoZeroMode"); reflexivity.
Qed.

Lemma set_autoZeroFreq_act data st :
  set_autoZeroFreq data st =
  act "autoZeroFreq"
    (checked 0 255 InvalidAutoZeroFreq (data !! "autoZeroFreq")) st.
Proof.
  rewrite <- checked_act. unfold set_autoZeroFreq.
  destruct (data !! "autoZeroFreq"); reflexivity.
Qed.

Lemma set_waitTime_act data st :
  set_waitTime data st =
  act "waitTime" (checked 0 255 InvalidWaitTime (data !! "waitTime")) st.
Proof.
  rewrite <- checked_act. unfold set_waitTime.
  destruct (data !! "waitTime"); reflexivity.
Qed.

Lemma set_atime_act data st :
  set_atime data st = act "atime" (unchecked (data !! "atime")) st.
Proof.
  rewrite <- unchecked_act. unfold set_atime.
  destruct (data !! "atime"); reflexivity.
Qed.

Lemma set_again_act data st :
  set_again data st = act "again" (unchecked (data !! "again")) st.
Proof.
  rewrite <- unchecked_act. unfold set_again.
  destruct (data !! "again"); reflexivity.
Qed.

Lemma set_brightness_act data st :
  set_brightness data st =
  act "brightness" (unchecked (data !! "brightness")) st.
Proof.
  rewrite <- unchecked_act. unfold set_brightness.
  destruct (data !! "brightness"); reflexivity.
Qed.

Lemma set_ledState_act data st :
  set_ledState data st = act "ledState" (truth (data !! "ledState")) st.
Proof. unfold set_ledState, truth. destruct (data !! "ledState"); reflexivity. Qed.

(** The handler carries out its plan. *)
Lemma update_settings_plan data st :
  update_settings data st = execute (plan data) st.
Proof.
  unfold update_settings, run_handler, update_settings_body, plan.
  unfold mbind, handler_bind.
  rewrite set_autoZeroMode_act.
  destruct (checked 0 1 _ _); cbn; try reflexivity;
  rewrite set_autoZeroFreq_act;
  (destruct (checked 0 255 InvalidAutoZeroFreq _); cbn; try reflexivity);
  rewrite set_waitTime_act;
  (destruct (checked 0 255 InvalidWaitTime _); cbn; try reflexivity);
  rewrite set_atime_act;
  (destruct (unchecked (data !! "atime")); cbn; try reflexivity);
  rewrite set_again_act;
  (destruct (unchecked (data !! "again")); cbn; try reflexivity);
  rewrite set_brightness_act;
  (destruct (unchecked (data !! "brightness")); cbn; try reflexivity);
  rewrite set_ledState_act;
  (destruct (truth (data !! "ledState")); cbn; reflexivity).
Qed.

Lemma execute_spec p : forall st,
  execute p st =
  (match first_reject p with
   | Some e => BadRequest e
   | None => SettingsSaved
   end,
   apply_stores (accepted_prefix p) st).
Proof.
  induction p as [|[k [|v|e]] p IH]; intros st; cbn;
    try reflexivity; apply IH.
Qed.

Lemma apply_stores_frame p : forall st k,
  k ∉ p.*1 -> apply_stores p st !! k = st !! k.
Proof.
  induction p as [|[k' vd] p IH]; intros st k Hk; [reflexivity|].
  rewrite fmap_cons, not_elem_of_cons in Hk. destruct Hk as [Hne Hk].
  cbn in Hne.
  destruct vd; cbn; rewrite IH by assumption; try reflexivity.
  apply lookup_insert_ne. congruence.
Qed.

Lemma accepted_prefix_keys p k :
  k ∈ (accepted_prefix p).*1 -> k ∈ p.*1.
Proof.
  induction p as [|[k' vd] p IH]; [intros H; exact H|].
  destruct vd; cbn; intros H.
  - apply elem_of_cons in H as [->|H];
      [apply list_elem_of_here | apply list_elem_of_further, IH, H].
  - apply elem_of_cons in H as [->|H];
      [apply list_elem_of_here | apply list_elem_of_further, IH, H].
  - inversion H.
Qed.

Lemma apply_stores_app p1 p2 st :
  apply_stores (p1 ++ p2) st = apply_stores p2 (apply_stores p1 st).
Proof.
  revert st. induction p1 as [|[k [|v|e]] p1 IH]; intros st; cbn;
    try reflexivity; apply IH.
Qed.

Lemma apply_stores_stored p1 k v p2 st :
  k ∉ p2.*1 -> apply_stores (p1 ++ (k, Store v) :: p2) st !! k = Some v.
Proof.
  intros Hk. rewrite apply_stores_app. cbn.
  rewrite apply_stores_frame by assumption. apply lookup_insert_eq.
Qed.

Lemma accepted_prefix_full p :
  first_reject p = None -> accepted_prefix p = p.
Proof.
  induction p as [|[k [|v|e]] p IH]; cbn; intros H;
    try reflexivity; try discriminate; f_equal; apply IH, H.
Qed.

Lemma saved_no_reject data st :
  (update_settings data st).1 = SettingsSaved ->
  first_reject (plan data) = None.
Proof.
  rewrite update_settings_plan, execute_spec. cbn [fst].
  destruct (first_reject (plan data)); [discriminate | reflexivity].
Qed.

(** A field that passes is skipped or stored, never rejected. *)
Lemma passes_checked data key lo hi mk :
  passes data key lo hi ->
  checked lo hi mk (data !! key) = Skip \/
  exists z, checked lo hi mk (data !! key) = Store (Py.PInt z) /\
            (forall z', data !! key = Some (Py.PInt z') -> z' = z).
Proof.
  unfold passes, accepted, checked.
  destruct (data !! key) as [v|]; [|left; reflexivity].
  intros (z & Hz & Hrange). right. exists z. rewrite Hz.
  rewrite (proj2 (Z.leb_le lo z)), (proj2 (Z.leb_le z hi)) by lia.
  split; [reflexivity|]. intros z' [= ->]. cbn in Hz. congruence.
Qed.


Lemma in_range_true lo hi z :
  lo <= z <= hi -> (lo <=? z) && (z <=? hi) = true.
Proof. intros H. rewrite (proj2 (Z.leb_le lo z)), (proj2 (Z.leb_le z hi)) by lia. reflexivity. Qed.

Lemma in_range_false lo hi z :
  ~ lo <= z <= hi -> (lo <=? z) && (z <=? hi) = false.
Proof.
  intros H. destruct (Z.leb_spec lo z); [|reflexivity].
  destruct (Z.leb_spec z hi); [|reflexivity]. lia.
Qed.

(** A key is not among the fields a list of decisions may store. *)
Ltac not_a_key :=
  let H := fresh in
  intros H; try apply accepted_prefix_keys in H; cbn in H;
  repeat (apply elem_of_cons in H as [H|H]; [discriminate H|]);
  inversion H.

(** The state after the handler, at a key none of the remaining
    decisions can store. *)
Ltac frame_rest :=
  rewrite ?apply_stores_frame by not_a_key;
  rewrite ?lookup_insert_eq, ?lookup_insert_ne by discriminate.


(** Unfolding equations of the plan functions at a decided head; the
    rest of the plan stays folded. *)
Lemma accepted_prefix_skip k p :
  accepted_prefix ((k, Skip) :: p) = (k, Skip) :: accepted_prefix p.
Proof. reflexivity. Qed.

Lemma accepted_prefix_store k v p :
  accepted_prefix ((k, Store v) :: p) = (k, Store v) :: accepted_prefix p.
Proof. reflexivity. Qed.

Lemma accepted_prefix_reject k e p :
  accepted_prefix ((k, Reject e) :: p) = [].
Proof. reflexivity. Qed.

Lemma first_reject_skip k p : first_reject ((k, Skip) :: p) = first_reject p.
Proof. reflexivity. Qed.

Lemma first_reject_store k v p :
  first_reject ((k, Store v) :: p) = first_reject p.
Proof. reflexivity. Qed.

Lemma first_reject_reject k e p : first_reject ((k, Reject e) :: p) = Some e.
Proof. reflexivity. Qed.

Lemma apply_stores_skip k p st :
  apply_stores ((k, Skip) :: p) st = apply_stores p st.
Proof. reflexivity. Qed.

Lemma apply_stores_store k v p st :
  apply_stores ((k, Store v) :: p) st = apply_stores p (<[k := v]> st).
Proof. reflexivity. Qed.

Lemma apply_stores_nil st : apply_stores [] st = st.
Proof. reflexivity. Qed.

Ltac step_plan :=
  repeat progress
    rewrite ?accepted_prefix_skip, ?accepted_prefix_store,
      ?accepted_prefix_reject, ?first_reject_skip, ?first_reject_store,
      ?first_reject_reject, ?apply_stores_skip, ?apply_stores_store,
      ?apply_stores_nil.

(** The state a validated field is looked up in once the plan is
    unfolded: the decisions of the fields checked before it are skipped
    or stored, as [passes] says. *)
Lemma validated_index i key lo hi :
  validated_fields !! i = Some (key, (lo, hi)) ->
  (i = 0%nat /\ key = "autoZeroMode" /\ lo = 0 /\ hi = 1) \/
  (i = 1%nat /\ key = "autoZeroFreq" /\ lo = 0 /\ hi = 255) \/
  (i = 2%nat /\ key = "waitTime" /\ lo = 0 /\ hi = 255).
Proof.
  destruct i as [|[|[|i]]]; cbn; intros [= <- <- <-]; auto 10.
Qed.

Lemma checked_some lo hi mk v :
  checked lo hi mk (Some v) =
  match Py.int v with
  | None => Reject Raised
  | Some z =>
      if (lo <=? z) && (z <=? hi) then Store (Py.PInt z) else Reject (mk z)
  end.
Proof. reflexivity. Qed.

(** A field that passes is skipped or stored. *)
Lemma passes_not_rejecting data key lo hi mk :
  passes data key lo hi ->
  checked lo hi mk (data !! key) = Skip \/
  exists z, checked lo hi mk (data !! key) = Store (Py.PInt z).
Proof.
  intros H.
  destruct (passes_checked data key lo hi mk H) as [E|(z & E & _)]; eauto.
Qed.

(** C3, as the code has it: the range test of a calibration field is made
    on [int(value)], not on the value supplied. A value is rejected when
    its conversion raises or gives an integer out of range, and the
    field then keeps its stored value; when the conversion gives an
    integer in range, that integer is stored, provided every calibration
    field the handler checks before it in the same request is absent or
    accepted. When the fields before it pass, the answer to a rejected
    value is the exception, or the range error with the converted
    integer. *)
Theorem update_settings_validates_calibration_fields
    (data st : gmap string Py.value) (i : nat) (key : string) (lo hi : Z)
    (v : Py.value) :
  validated_fields !! i = Some (key, (lo, hi)) ->
  data !! key = Some v ->
  (~ accepted lo hi v ->
   is_rejected (update_settings data st).1 /\
   (update_settings data st).2 !! key = st !! key) /\
  (forall z,
     Py.int v = Some z -> lo <= z <= hi ->
     (forall j key' lo' hi',
        (j < i)%nat -> validated_fields !! j = Some (key', (lo', hi')) ->
        passes data key' lo' hi') ->
     (update_settings data st).2 !! key = Some (Py.PInt z)) /\
  ((forall j key' lo' hi',
      (j < i)%nat -> validated_fields !! j = Some (key', (lo', hi')) ->
      passes data key' lo' hi') ->
   (Py.int v = None ->
    (update_settings data st).1 = BadRequest Raised) /\
   (forall z, Py.int v = Some z -> ~ lo <= z <= hi ->
    (update_settings data st).1 = BadRequest (range_error key z))).
Proof.
  intros Hi Hkey. rewrite update_settings_plan, execute_spec. cbn [fst snd].
  unfold plan, accepted.
  apply validated_index in Hi
    as [(-> & -> & -> & ->)|[(-> & -> & -> & ->)|(-> & -> & -> & ->)]];
    rewrite Hkey, checked_some.
  - split; [|split].
    + intros Hrej. destruct (Py.int v) as [z|] eqn:Hz.
      * rewrite in_range_false by (intros Hin; apply Hrej; eauto).
        step_plan. split; [eexists; reflexivity | reflexivity].
      * step_plan. split; [eexists; reflexivity | reflexivity].
    + intros z Hz Hin _. rewrite Hz, (in_range_true _ _ _ Hin). step_plan.
      frame_rest. reflexivity.
    + intros _. split.
      * intros ->. step_plan. reflexivity.
      * intros z -> Hout. rewrite (in_range_false _ _ _ Hout). step_plan.
        reflexivity.
  - split; [|split].
    + intros Hrej.
      assert (exists e,
                match Py.int v with
                | Some z =>
                    if (0 <=? z) && (z <=? 255) then Store (Py.PInt z)
                    else Reject (InvalidAutoZeroFreq z)
                | None => Reject Raised
                end = Reject e) as [e ->].
      { destruct (Py.int v) as [z|] eqn:Hz; [|eauto].
        rewrite in_range_false by (intros Hin; apply Hrej; eauto). eauto. }
      destruct (checked 0 1 InvalidAutoZeroMode (data !! "autoZeroMode"));
        step_plan; (split; [eexists; reflexivity | frame_rest; reflexivity]).
    + intros z Hz Hin Hpre. rewrite Hz, (in_range_true _ _ _ Hin).
      destruct (passes_not_rejecting data "autoZeroMode" 0 1
                  InvalidAutoZeroMode
                  (Hpre 0%nat _ _ _ (Nat.lt_0_succ _) eq_refl))
        as [->|(z1 & ->)]; step_plan; frame_rest; reflexivity.
    + intros Hpre.
      destruct (passes_not_rejecting data "autoZeroMode" 0 1
                  InvalidAutoZeroMode
                  (Hpre 0%nat _ _ _ (Nat.lt_0_succ _) eq_refl))
        as [->|(z1 & ->)]; step_plan; (split;
        [ intros ->; step_plan; reflexivity
        | intros z -> Hout; rewrite (in_range_false _ _ _ Hout); step_plan;
          reflexivity ]).
  - split; [|split].
    + intros Hrej.
      assert (exists e,
                match Py.int v with
                | Some z =>
                    if (0 <=? z) && (z <=? 255) then Store (Py.PInt z)
                    else Reject (InvalidWaitTime z)
                | None => Reject Raised
                end = Reject e) as [e ->].
      { destruct (Py.int v) as [z|] eqn:Hz; [|eauto].
        rewrite in_range_false by (intros Hin; apply Hrej; eauto). eauto. }
      destruct (checked 0 1 InvalidAutoZeroMode (data !! "autoZeroMode"));
        destruct (checked 0 255 InvalidAutoZeroFreq (data !! "autoZeroFreq"));
        step_plan; (split; [eexists; reflexivity | frame_rest; reflexivity]).
    + intros z Hz Hin Hpre. rewrite Hz, (in_range_true _ _ _ Hin).
      destruct (passes_not_rejecting data "autoZeroMode" 0 1
                  InvalidAutoZeroMode
                  (Hpre 0%nat _ _ _ ltac:(lia) eq_refl))
        as [->|(z1 & ->)];
      destruct (passes_not_rejecting data "autoZeroFreq" 0 255
                  InvalidAutoZeroFreq
                  (Hpre 1%nat _ _ _ ltac:(lia) eq_refl))
        as [->|(z2 & ->)]; step_plan; frame_rest; reflexivity.
    + intros Hpre.
      destruct (passes_not_rejecting data "autoZeroMode" 0 1
                  InvalidAutoZeroMode
                  (Hpre 0%nat _ _ _ ltac:(lia) eq_refl))
        as [->|(z1 & ->)];
      destruct (passes_not_rejecting data "autoZeroFreq" 0 255
                  InvalidAutoZeroFreq
                  (Hpre 1%nat _ _ _ ltac:(lia) eq_refl))
        as [->|(z2 & ->)]; step_plan; (split;
        [ intros ->; step_plan; reflexivity
        | intros z -> Hout; rewrite (in_range_false _ _ _ Hout); step_plan;
          reflexivity ]).
Qed.

(** A request with autoZeroMode 1 and the wait time 12.5: the conversion
    gives 12, which is in range and stored. *)
Lemma update_settings_validates_calibration_fields_witness :
  let data : gmap string Py.value :=
    {[ "autoZeroMode" := Py.PInt 1; "waitTime" := Py.PFloat 12.5 ]} in
  validated_fields !! 2%nat = Some ("waitTime", (0, 255)) /\
  data !! "waitTime" = Some (Py.PFloat 12.5) /\
  Py.int (Py.PFloat 12.5) = Some 12 /\
  (update_settings data device_state).2 !! "waitTime" = Some (Py.PInt 12).
Proof.
  intros data.
  assert (validated_fields !! 2%nat = Some ("waitTime", (0, 255))) as H1
    by reflexivity.
  assert (data !! "waitTime" = Some (Py.PFloat 12.5)) as H2
    by (vm_compute; reflexivity).
  assert (Py.int (Py.PFloat 12.5) = Some 12) as H3
    by (vm_compute; reflexivity).
  split; [exact H1|]. split; [exact H2|]. split; [exact H3|].
  refine (proj1 (proj2 (update_settings_validates_calibration_fields
                          data device_state 2%nat "waitTime" 0 255
                          (Py.PFloat 12.5) H1 H2)) 12 H3 _ _); [lia|].
  intros j key' lo' hi' Hj Hv.
  destruct j as [|[|j]]; [| |lia]; injection Hv as <- <- <-; unfold passes.
  - replace (data !! "autoZeroMode") with (Some (Py.PInt 1))
      by (vm_compute; reflexivity).
    exists 1. split; [reflexivity | lia].
  - replace (data !! "autoZeroFreq") with (@None Py.value)
      by (vm_compute; reflexivity).
    exact I.
Defined.

(** C3 as worded fails in three ways. Out-of-range values are accepted
    when their conversion is in range: a wait time of 255.9 is above 255,
    yet the request is saved and 255 is stored, and an autoZeroMode of
    -0.9 is below 0, yet 0 is stored over the 1 of the device. An
    in-range value is not stored as supplied: for a wait time of 12.5
    the device holds 12. And with autoZeroMode = 5 and waitTime = 10 in
    one request the handler answers with the autoZeroMode error and the
    in-range waitTime is not stored (the device keeps its wait time
    0). *)
Lemma calibration_values_are_converted_and_late_fields_dropped :
  let high : gmap string Py.value := {[ "waitTime" := Py.PFloat 255.9 ]} in
  let low : gmap string Py.value :=
    {[ "autoZeroMode" := Py.PFloat (-0.9) ]} in
  let half : gmap string Py.value := {[ "waitTime" := Py.PFloat 12.5 ]} in
  let data : gmap string Py.value :=
    {[ "autoZeroMode" := Py.PInt 5; "waitTime" := Py.PInt 10 ]} in
  (255 <? 255.9)%float = true /\
  (update_settings high device_state).1 = SettingsSaved /\
  (update_settings high device_state).2 !! "waitTime" = Some (Py.PInt 255) /\
  (-0.9 <? 0)%float = true /\
  (update_settings low device_state).1 = SettingsSaved /\
  device_state !! "autoZeroMode" = Some (Py.PInt 1) /\
  (update_settings low device_state).2 !! "autoZeroMode" =
    Some (Py.PInt 0) /\
  ((0 <=? 12.5) && (12.5 <=? 255))%float = true /\
  (update_settings half device_state).1 = SettingsSaved /\
  (update_settings half device_state).2 !! "waitTime" = Some (Py.PInt 12) /\
  data !! "waitTime" = Some (Py.PInt 10) /\
  (0 <=? 10) && (10 <=? 255) = true /\
  (update_settings data device_state).1 =
    BadRequest (InvalidAutoZeroMode 5) /\
  device_state !! "waitTime" = Some (Py.PInt 0) /\
  (update_settings data device_state).2 !! "waitTime" = Some (Py.PInt 0).
Proof. cbv zeta. repeat split; vm_compute; reflexivity. Qed.

(** C4, on the code: the [/settings] handler stores any integer
    brightness and answers "Settings saved", 300 included, while the
    [/brightness] handler rejects an integer outside 0..255 and leaves
    the device unchanged, and stores one inside. *)
Theorem update_settings_accepts_any_brightness :
  (forall (st : gmap string Py.value) z,
     update_settings {[ "brightness" := Py.PInt z ]} st =
     (SettingsSaved, <["brightness" := Py.PInt z]> st)) /\
  update_settings {[ "brightness" := Py.PInt 300 ]} device_state =
    (SettingsSaved, <["brightness" := Py.PInt 300]> device_state) /\
  (forall (data st : gmap string Py.value) z,
     data !! "brightness" = Some (Py.PInt z) -> ~ 0 <= z <= 255 ->
     update_brightness data st = (BadRequest BrightnessOutOfRange, st)) /\
  (forall (data st : gmap string Py.value) z,
     data !! "brightness" = Some (Py.PInt z) -> 0 <= z <= 255 ->
     update_brightness data st =
     (BrightnessSet z, <["brightness" := Py.PInt z]> st)).
Proof.
  assert (forall (st : gmap string Py.value) z,
            update_settings {[ "brightness" := Py.PInt z ]} st =
            (SettingsSaved, <["brightness" := Py.PInt z]> st)) as Hany.
  { intros st z. rewrite update_settings_plan. unfold plan.
    rewrite lookup_singleton_eq, !lookup_singleton_ne by discriminate.
    reflexivity. }
  split; [exact Hany|]. split; [apply Hany|]. split.
  - intros data st z Hb Hout. unfold update_brightness, run_handler.
    rewrite Hb. unfold mbind, handler_bind. cbn.
    rewrite (in_range_false _ _ _ Hout). reflexivity.
  - intros data st z Hb Hin. unfold update_brightness, run_handler.
    rewrite Hb. unfold mbind, handler_bind. cbn.
    rewrite (in_range_true _ _ _ Hin). reflexivity.
Qed.






Lemma plan_atime_split data z :
  data !! "atime" = Some (Py.PInt z) ->
  plan data =
  [ ("autoZeroMode", checked 0 1 InvalidAutoZeroMode (data !! "autoZeroMode"));
    ("autoZeroFreq",
       checked 0 255 InvalidAutoZeroFreq (data !! "autoZeroFreq"));
    ("waitTime", checked 0 255 InvalidWaitTime (data !! "waitTime")) ]
  ++ ("atime", Store (Py.PInt z))
  :: [ ("again", unchecked (data !! "again"));
       ("brightness", unchecked (data !! "brightness"));
       ("ledState", truth (data !! "ledState")) ].
Proof. intros H. unfold plan. rewrite H. reflexivity. Qed.

Lemma plan_again_split data z :
  data !! "again" = Some (Py.PInt z) ->
  plan data =
  [ ("autoZeroMode", checked 0 1 InvalidAutoZeroMode (data !! "autoZeroMode"));
    ("autoZeroFreq",
       checked 0 255 InvalidAutoZeroFreq (data !! "autoZeroFreq"));
    ("waitTime", checked 0 255 InvalidWaitTime (data !! "waitTime"));
    ("atime", unchecked (data !! "atime")) ]
  ++ ("again", Store (Py.PInt z))
  :: [ ("brightness", unchecked (data !! "brightness"));
       ("ledState", truth (data !! "ledState")) ].
Proof. intros H. unfold plan. rewrite H. reflexivity. Qed.

Lemma plan_ledState_split data v :
  data !! "ledState" = Some v ->
  plan data =
  [ ("autoZeroMode", checked 0 1 InvalidAutoZeroMode (data !! "autoZeroMode"));
    ("autoZeroFreq",
       checked 0 255 InvalidAutoZeroFreq (data !! "autoZeroFreq"));
    ("waitTime", checked 0 255 InvalidWaitTime (data !! "waitTime"));
    ("atime", unchecked (data !! "atime"));
    ("again", unchecked (data !! "again"));
    ("brightness", unchecked (data !! "brightness")) ]
  ++ ("ledState", Store (Py.PBool (Py.bool v))) :: [].
Proof. intros H. unfold plan. rewrite H. reflexivity. Qed.

(** The answer of the handler is the first rejection of its plan. *)
Lemma update_settings_response data st :
  (update_settings data st).1 =
  match first_reject (plan data) with
  | Some e => BadRequest e
  | None => SettingsSaved
  end.
Proof. rewrite update_settings_plan, execute_spec. reflexivity. Qed.

Lemma update_settings_saved_state data st :
  (update_settings data st).1 = SettingsSaved ->
  (update_settings data st).2 = apply_stores (plan data) st.
Proof.
  intros H. apply saved_no_reject in H.
  rewrite update_settings_plan, execute_spec, accepted_prefix_full by exact H.
  reflexivity.
Qed.









End MockServerFacts.

(** ** The brightness optimizer *)

Module BrightnessOptimizerFacts.
Import BrightnessOptimizer.

Section LoopFacts.

Variable cap : nat.
Variable read_control : nat -> Z -> float.
Variable adjust : Z -> float -> Z.

Lemma clamp_range x : 0 <= clamp x 0 255 <= 255.
Proof. unfold clamp. lia. Qed.

Lemma turn_at_cap st :
  (cap <= iterations st)%nat -> turn cap read_control adjust st = Stop st.
Proof.
  intros H. unfold turn. rewrite (proj2 (Nat.ltb_ge _ _)) by lia.
  reflexivity.
Qed.

Lemma turn_below_cap st :
  (iterations st < cap)%nat ->
  turn cap read_control adjust st =
  let st' := attempt read_control st in
  if in_range st' then Stop st'
  else if (S (iterations st) <? cap)%nat then Continue (retune adjust st')
       else Stop st'.
Proof.
  intros H. unfold turn. rewrite (proj2 (Nat.ltb_lt _ _)) by lia.
  reflexivity.
Qed.

Lemma run_stop fuel st r :
  turn cap read_control adjust st = Stop r ->
  (1 <= fuel)%nat ->
  run cap read_control adjust fuel st = Some r /\
  turns cap read_control adjust fuel st = Some 1%nat.
Proof.
  intros Hturn Hf. destruct fuel as [|fuel]; [lia|]. cbn.
  rewrite Hturn. split; reflexivity.
Qed.

Lemma loop_outcome k : forall st,
  (cap - iterations st)%nat = k -> exists r n, outcome_from cap read_control adjust st r n.
Proof.
  induction k as [|k IH]; intros st Hk.
  - pose proof (turn_at_cap st ltac:(lia)) as Hturn.
    exists st, 1%nat.
    constructor; try lia; try (split; reflexivity);
      try (intros fuel Hf; apply (run_stop fuel st st Hturn Hf));
      try (intros; exfalso; lia); auto.
  - pose proof (turn_below_cap st ltac:(lia)) as Hturn. cbv zeta in Hturn.
    destruct (in_range (attempt read_control st)) eqn:Hin;
      [|destruct (S (iterations st) <? cap)%nat eqn:Hmore].
    + exists (attempt read_control st), 1%nat.
      constructor; cbn; try lia; try (split; reflexivity);
        try (intros fuel Hf; apply (run_stop fuel _ _ Hturn Hf)); auto.
      intros _ Hfalse. cbn in Hin. congruence.
    + apply Nat.ltb_lt in Hmore.
      destruct (IH (retune adjust (attempt read_control st)))
        as (r & n & Hr); [cbn; lia|].
      destruct Hr as [Hrun Hturns Hbound Hiter Htargets Hlevel Hatt Hfailed].
      cbn in Hbound, Hiter, Htargets, Hlevel, Hatt, Hfailed.
      exists r, (S n). constructor; try lia.
      * intros [|fuel] Hf; [lia|]. cbn. rewrite Hturn. apply Hrun. lia.
      * intros [|fuel] Hf; [lia|]. cbn. rewrite Hturn.
        rewrite Hturns by lia. reflexivity.
      * exact Htargets.
      * intros _. apply Hlevel, clamp_range.
      * intros _. apply Hatt. exact Hmore.
      * intros _. apply Hfailed. exact Hmore.
    + apply Nat.ltb_ge in Hmore.
      exists (attempt read_control st), 1%nat.
      constructor; cbn; try lia; try (split; reflexivity);
        try (intros fuel Hf; apply (run_stop fuel _ _ Hturn Hf)); auto.
Qed.

(** C9: from the initial state of a scan and for every trajectory of the
    control variable, the optimizer loop returns a result as soon as it
    is given [max 1 cap] turns of fuel, after at most that many turns and
    at most [cap] attempts. A result reported in range has its control
    variable in the target band. A result reported out of range comes
    from the attempt that reached the cap: it carries the brightness
    that attempt commanded and the control variable read with it, and
    [in_range = false]. That is the result whenever no reading of the
    trajectory lies in the band. *)
Theorem optimizer_terminates_within_cap (level a g : Z) (tmin tmax : float) :
  let st0 := initial level a g tmin tmax in
  exists r n,
    (forall fuel, (Nat.max 1 cap <= fuel)%nat ->
       run cap read_control adjust fuel st0 = Some r) /\
    turns cap read_control adjust (Nat.max 1 cap) st0 = Some n /\
    (n <= Nat.max 1 cap)%nat /\
    (iterations r <= cap)%nat /\
    (in_range r = true ->
       in_band tmin tmax (control_variable r) = true) /\
    (in_range r = false ->
       iterations r = cap /\
       ((0 < cap)%nat ->
          control_variable r =
            read_control (cap - 1)%nat (brightness r) /\
          in_band tmin tmax (control_variable r) = false)) /\
    ((forall i b, in_band tmin tmax (read_control i b) = false) ->
       in_range r = false /\ iterations r = cap).
Proof.
  intros st0.
  destruct (loop_outcome (cap - iterations st0)%nat st0 eq_refl)
    as (r & n & [Hrun Hturns Hbound Hiter Htargets Hlevel Hatt Hfailed]).
  cbn in Hbound, Hiter, Htargets, Hlevel, Hatt, Hfailed.
  rewrite Nat.sub_0_r in Hbound.
  assert (cap = 0%nat -> r = st0) as Hzero.
  { intros Hc0. pose proof (Hrun n (le_n _)) as H1.
    rewrite (proj1 (run_stop n st0 st0
                      (turn_at_cap st0 ltac:(cbn; lia)) (proj1 Hbound)))
      in H1.
    congruence. }
  assert (in_range r = false -> iterations r = cap) as Hcap.
  { intros Hfalse. destruct (Nat.eq_dec cap 0%nat) as [Hc0|Hc0].
    - rewrite (Hzero Hc0), Hc0. reflexivity.
    - apply Hfailed; [lia | exact Hfalse]. }
  assert ((forall i b, in_band tmin tmax (read_control i b) = false) ->
          in_range r = false) as Hnever.
  { intros Hout. destruct (Nat.eq_dec cap 0%nat) as [Hc0|Hc0].
    - rewrite (Hzero Hc0). reflexivity.
    - destruct (Hatt ltac:(lia)) as [Hcv Hband].
      rewrite Hband, Hcv. apply Hout. }
  exists r, n. repeat apply conj.
  - intros fuel Hf. apply Hrun. lia.
  - apply Hturns. lia.
  - lia.
  - lia.
  - intros Htrue. destruct (Nat.eq_dec cap 0%nat) as [Hc0|Hc0].
    + rewrite (Hzero Hc0) in Htrue. discriminate.
    + destruct (Hatt ltac:(lia)) as [_ Hband]. congruence.
  - intros Hfalse. split; [exact (Hcap Hfalse)|].
    intros Hpos. destruct (Hatt Hpos) as [Hcv Hband].
    rewrite (Hcap Hfalse) in Hcv.
    replace (cap - 1)%nat with (pred cap) by lia.
    split; [exact Hcv | congruence].
  - intros Hout. split; [exact (Hnever Hout) | exact (Hcap (Hnever Hout))].
Qed.

End LoopFacts.

(** A trajectory that stays above the band [20000, 55000]: with a cap of
    3 and a halving policy the loop tries 128, 64 and 32, and returns the
    last of them out of range. *)
Example optimizer_gives_up_at_cap :
  let r := run 3 (fun _ _ => 60000%float) (fun level _ => level / 2) 3
             (initial 128 56 3 20000 55000) in
  brightness <$> r = Some 32 /\ in_range <$> r = Some false /\
  iterations <$> r = Some 3%nat.
Proof. cbv zeta. repeat split; vm_compute; reflexivity. Qed.

End BrightnessOptimizerFacts.
(** ** More on the classifier *)

Module ColorMatcherMore.
Import ColorMatcher FloatFacts ColorMatcherFacts.

Lemma root_zero_iff n :
  0 <= n <= max_sq -> root n = 0%float <-> n = 0.
Proof.
  intros Hn. split; [|intros ->; vm_compute; reflexivity].
  intros H0. destruct (Z.eq_dec n 0) as [|Hne]; [assumption|].
  assert ((root 0 <? root n)%float = true) as Hlt
    by (apply sqrt_lt; lia).
  rewrite H0 in Hlt. vm_compute in Hlt. discriminate.
Qed.

Lemma find_closest_color_in_nil tr tg tb :
  find_closest_color_in [] tr tg tb = Some (None, infinity).
Proof. reflexivity. Qed.

(** The result on a non-empty catalogue of byte triples, in one piece. *)
Lemma find_closest_color_in_first_minimum catalog tr tg tb :
  catalog <> [] ->
  is_u8 tr -> is_u8 tg -> is_u8 tb -> Forall rgb_u8 catalog ->
  exists i e,
    first_minimum tr tg tb catalog i e /\
    find_closest_color_in catalog tr tg tb =
    Some (Some e, root (sq_to tr tg tb e)).
Proof.
  intros Hne Hr Hg Hb Hall. destruct catalog as [|c l]; [congruence|].
  exact (find_closest_color_in_cons tr tg tb c l Hr Hg Hb Hall).
Qed.

(** The loop over a catalogue extended at its end goes on from the state
    reached on the catalogue. *)
Lemma closest_loop_app tr tg tb l1 l2 : forall acc,
  closest_loop tr tg tb (l1 ++ l2) acc =
  closest_loop tr tg tb l1 acc ≫= closest_loop tr tg tb l2.
Proof.
  induction l1 as [|c l1 IH]; intros acc; [reflexivity|].
  cbn [app closest_loop].
  destruct (closest_step tr tg tb acc c) as [acc'|]; [|reflexivity].
  cbn [mbind option_bind]. apply IH.
Qed.

(** X1: reordering the catalogue never changes the distance returned, and
    nothing is raised; the entries returned for the two orders are
    equally far from the target. *)
Theorem closest_distance_ignores_catalog_order
    (catalog catalog' : list color) (tr tg tb : Z) :
  is_u8 tr -> is_u8 tg -> is_u8 tb -> Forall rgb_u8 catalog ->
  catalog ≡ₚ catalog' ->
  is_Some (find_closest_color_in catalog tr tg tb) /\
  snd <$> find_closest_color_in catalog tr tg tb =
    snd <$> find_closest_color_in catalog' tr tg tb /\
  (forall e e',
     fst <$> find_closest_color_in catalog tr tg tb = Some (Some e) ->
     fst <$> find_closest_color_in catalog' tr tg tb = Some (Some e') ->
     e ∈ catalog /\ e' ∈ catalog /\
     sq_to tr tg tb e = sq_to tr tg tb e').
Proof.
  intros Hr Hg Hb Hall Hperm.
  assert (Forall rgb_u8 catalog') as Hall' by (rewrite <- Hperm; exact Hall).
  destruct catalog as [|c l].
  - apply Permutation_nil_l in Hperm. subst catalog'.
    split; [eexists; reflexivity|]. split; [reflexivity|].
    intros e e' H. discriminate H.
  - assert (catalog' <> []) as Hne'.
    { intros ->. apply Permutation_nil_r in Hperm. discriminate. }
    destruct (find_closest_color_in_first_minimum (c :: l) tr tg tb
                ltac:(discriminate) Hr Hg Hb Hall)
      as (i & e & Hmin & Hres).
    destruct (find_closest_color_in_first_minimum catalog' tr tg tb
                Hne' Hr Hg Hb Hall')
      as (i' & e' & Hmin' & Hres').
    pose proof (first_minimum_elem _ _ _ _ _ _ Hmin) as Hin.
    pose proof (first_minimum_elem _ _ _ _ _ _ Hmin') as Hin'.
    assert (sq_to tr tg tb e = sq_to tr tg tb e') as Heq.
    { destruct Hmin as (_ & Hle & _), Hmin' as (_ & Hle' & _).
      rewrite <- Hperm in Hin'. rewrite Hperm in Hin.
      apply list_elem_of_lookup in Hin as [j Hj].
      apply list_elem_of_lookup in Hin' as [j' Hj'].
      specialize (Hle j' e' Hj'). specialize (Hle' j e Hj). lia. }
    rewrite Hres, Hres'. cbn [fmap option_fmap option_map fst snd].
    split; [eexists; reflexivity|].
    split; [rewrite Heq; reflexivity|].
    intros e0 e0' [= <-] [= <-]. rewrite <- Hperm in Hin'. auto.
Qed.

Lemma closest_distance_ignores_catalog_order_witness :
  is_u8 30 /\ is_u8 25 /\ is_u8 30 /\ Forall rgb_u8 DULUX_COLORS /\
  DULUX_COLORS ≡ₚ reverse DULUX_COLORS /\
  is_Some (find_closest_color_in DULUX_COLORS 30 25 30) /\
  snd <$> find_closest_color_in DULUX_COLORS 30 25 30 =
    snd <$> find_closest_color_in (reverse DULUX_COLORS) 30 25 30 /\
  (forall e e',
     fst <$> find_closest_color_in DULUX_COLORS 30 25 30 = Some (Some e) ->
     fst <$> find_closest_color_in (reverse DULUX_COLORS) 30 25 30 =
       Some (Some e') ->
     e ∈ DULUX_COLORS /\ e' ∈ DULUX_COLORS /\
     sq_to 30 25 30 e = sq_to 30 25 30 e').
Proof.
  assert (is_u8 30) as H1 by (unfold is_u8; lia).
  assert (is_u8 25) as H2 by (unfold is_u8; lia).
  pose proof DULUX_COLORS_u8 as H4.
  assert (DULUX_COLORS ≡ₚ reverse DULUX_COLORS) as H5
    by (symmetry; apply reverse_Permutation).
  repeat (split; [assumption|]).
  exact (closest_distance_ignores_catalog_order DULUX_COLORS
           (reverse DULUX_COLORS) 30 25 30 H1 H2 H1 H4 H5).
Defined.

(** X2: growing the catalogue at its end. The answer over
    [catalog ++ extra] is an entry no entry of the grown catalogue is
    nearer than, and its distance is never larger than the one over
    [catalog]. When some added entry is strictly nearer than the old
    answer, the new answer is one of the added entries and strictly
    nearer; when none is, the answer and its distance stay the same. *)
Theorem closest_color_catalog_growth
    (catalog extra : list color) (tr tg tb : Z) :
  catalog <> [] ->
  is_u8 tr -> is_u8 tg -> is_u8 tb -> Forall rgb_u8 (catalog ++ extra) ->
  exists e e' d d',
    find_closest_color_in catalog tr tg tb = Some (Some e, d) /\
    find_closest_color_in (catalog ++ extra) tr tg tb = Some (Some e', d') /\
    e ∈ catalog /\ e' ∈ catalog ++ extra /\
    (d' <=? d)%float = true /\
    (forall x, x ∈ catalog ++ extra ->
               sq_to tr tg tb e' <= sq_to tr tg tb x) /\
    ((exists x, x ∈ extra /\ sq_to tr tg tb x < sq_to tr tg tb e) ->
     e' ∈ extra /\ sq_to tr tg tb e' < sq_to tr tg tb e /\
     (d' <? d)%float = true) /\
    ((forall x, x ∈ extra -> sq_to tr tg tb e <= sq_to tr tg tb x) ->
     e' = e /\ d' = d).
Proof.
  intros Hne Hr Hg Hb Hall.
  pose proof (proj1 (Forall_app _ _ _) Hall) as [Hall1 Hall2].
  destruct (find_closest_color_in_first_minimum catalog tr tg tb
              Hne Hr Hg Hb Hall1) as (i & e & Hmin & Hres).
  destruct (fold_closest_invariant tr tg tb extra catalog i e
              Hr Hg Hb Hall Hmin) as (i' & e' & Hmin' & Hfold).
  assert (find_closest_color_in (catalog ++ extra) tr tg tb =
          Some (Some e', distance_to tr tg tb e')) as Hres'.
  { unfold find_closest_color_in in *. rewrite closest_loop_app, Hres.
    exact Hfold. }
  pose proof (first_minimum_elem _ _ _ _ _ _ Hmin) as Hin.
  pose proof (first_minimum_elem _ _ _ _ _ _ Hmin') as Hin'.
  assert (forall x, x ∈ catalog ++ extra ->
                    0 <= sq_to tr tg tb x <= max_sq) as Hrange.
  { intros x Hx. apply sq_to_range; try assumption.
    exact (proj1 (Forall_forall _ _) Hall x Hx). }
  assert (e ∈ catalog ++ extra) as Hin2 by (apply elem_of_app; auto).
  pose proof (Hrange e Hin2) as Hre. pose proof (Hrange e' Hin') as Hre'.
  destruct Hmin as (Hi & Hle & Hlt). destruct Hmin' as (Hi' & Hle' & Hlt').
  assert (forall x, x ∈ catalog ++ extra ->
                    sq_to tr tg tb e' <= sq_to tr tg tb x) as Hmin_all.
  { intros x Hx. apply list_elem_of_lookup in Hx as [j Hj].
    exact (Hle' j x Hj). }
  pose proof (Hmin_all e Hin2) as Hnear.
  assert (i' = i /\ e' = e \/
          (length catalog <= i')%nat /\
          sq_to tr tg tb e' < sq_to tr tg tb e) as Hcases.
  { destruct (Nat.lt_ge_cases i' (length catalog)) as [Hshort|Hlong].
    - left. rewrite lookup_app_l in Hi' by exact Hshort.
      assert (first_minimum tr tg tb catalog i' e') as Hm'.
      { split; [exact Hi'|split].
        - intros j x Hj. apply (Hle' j x). apply lookup_app_l_Some, Hj.
        - intros j x Hji Hj. apply (Hlt' j x Hji).
          apply lookup_app_l_Some, Hj. }
      exact (first_minimum_unique _ _ _ _ _ _ _ _ Hm'
               (conj Hi (conj Hle Hlt))).
    - right. split; [exact Hlong|].
      apply (Hlt' i e); [|apply lookup_app_l_Some, Hi].
      apply lookup_lt_Some in Hi. lia. }
  exists e, e', (distance_to tr tg tb e), (distance_to tr tg tb e').
  split; [exact Hres|]. split; [exact Hres'|].
  split; [exact Hin|]. split; [exact Hin'|].
  split; [rewrite !distance_to_sqrt; apply sqrt_leb; lia|].
  split; [exact Hmin_all|]. split.
  - intros (x & Hx & Hxe).
    assert (sq_to tr tg tb e' < sq_to tr tg tb e) as Hstrict.
    { pose proof (Hmin_all x ltac:(apply elem_of_app; auto)). lia. }
    destruct Hcases as [[_ ->]|[Hlong _]]; [lia|].
    split; [|split; [exact Hstrict|]].
    + rewrite lookup_app_r in Hi' by exact Hlong.
      apply list_elem_of_lookup. eauto.
    + rewrite !distance_to_sqrt. apply sqrt_lt; lia.
  - intros Hextra. destruct Hcases as [[_ ->]|[Hlong Hstrict]];
      [split; reflexivity|].
    rewrite lookup_app_r in Hi' by exact Hlong.
    assert (e' ∈ extra) as He' by (apply list_elem_of_lookup; eauto).
    specialize (Hextra e' He'). lia.
Qed.

(** The Dulux catalogue grown by an entry at (30, 25, 30), asked for that
    colour: Cruel Sea was the answer, the added entry is the new one. *)
Lemma closest_color_catalog_growth_witness :
  let near_black := Color "Near Black" "X0" 30 25 30 4.0%float in
  let cruel_sea := Color "Cruel Sea" "P29A9" 33 26 27 5.5%float in
  DULUX_COLORS <> [] /\ is_u8 30 /\ is_u8 25 /\ is_u8 30 /\
  Forall rgb_u8 (DULUX_COLORS ++ [near_black]) /\
  fst <$> find_closest_color_in DULUX_COLORS 30 25 30 =
    Some (Some cruel_sea) /\
  find_closest_color_in (DULUX_COLORS ++ [near_black]) 30 25 30 =
    Some (Some near_black, 0%float) /\
  exists e e' d d',
    find_closest_color_in DULUX_COLORS 30 25 30 = Some (Some e, d) /\
    find_closest_color_in (DULUX_COLORS ++ [near_black]) 30 25 30 =
      Some (Some e', d') /\
    e ∈ DULUX_COLORS /\ e' ∈ DULUX_COLORS ++ [near_black] /\
    (d' <=? d)%float = true /\
    (forall x, x ∈ DULUX_COLORS ++ [near_black] ->
               sq_to 30 25 30 e' <= sq_to 30 25 30 x) /\
    ((exists x, x ∈ [near_black] /\ sq_to 30 25 30 x < sq_to 30 25 30 e) ->
     e' ∈ [near_black] /\ sq_to 30 25 30 e' < sq_to 30 25 30 e /\
     (d' <? d)%float = true) /\
    ((forall x, x ∈ [near_black] -> sq_to 30 25 30 e <= sq_to 30 25 30 x) ->
     e' = e /\ d' = d).
Proof.
  cbv zeta.
  assert (DULUX_COLORS <> []) as H0 by discriminate.
  assert (is_u8 30) as H1 by (unfold is_u8; lia).
  assert (is_u8 25) as H2 by (unfold is_u8; lia).
  assert (Forall rgb_u8
            (DULUX_COLORS ++ [Color "Near Black" "X0" 30 25 30 4.0%float]))
    as H4 by (repeat constructor; unfold is_u8; simpl; lia).
  repeat (split; [assumption|]).
  split; [vm_compute; reflexivity|]. split; [vm_compute; reflexivity|].
  exact (closest_color_catalog_growth DULUX_COLORS _ 30 25 30
           H0 H1 H2 H1 H4).
Defined.

(** X3: the distance returned is 0.0 exactly when the catalogue holds an entry
    with the RGB of the request. *)
Theorem zero_distance_iff_exact_color
    (catalog : list color) (tr tg tb : Z) :
  is_u8 tr -> is_u8 tg -> is_u8 tb -> Forall rgb_u8 catalog ->
  snd <$> find_closest_color_in catalog tr tg tb = Some 0%float <->
  exists e, e ∈ catalog /\ rgb_of e = (tr, tg, tb).
Proof.
  intros Hr Hg Hb Hall. destruct catalog as [|c l].
  - cbn. split.
    + intros H.
      apply (f_equal (fun o => match o with
                               | Some x => (x <? 1)%float
                               | None => false
                               end)) in H.
      vm_compute in H. discriminate.
    + intros (e & He & _). inversion He.
  - destruct (find_closest_color_in_first_minimum (c :: l) tr tg tb
                ltac:(discriminate) Hr Hg Hb Hall)
      as (i & e & Hmin & Hres).
    pose proof (first_minimum_elem _ _ _ _ _ _ Hmin) as Hin.
    assert (forall x, x ∈ c :: l -> 0 <= sq_to tr tg tb x <= max_sq)
      as Hrange.
    { intros x Hx. apply sq_to_range; try assumption.
      exact (proj1 (Forall_forall _ _) Hall x Hx). }
    rewrite Hres. cbn [fmap option_fmap option_map snd].
    split.
    + intros [= Hz]. apply (root_zero_iff _ (Hrange e Hin)) in Hz.
      exists e. split; [exact Hin|]. apply sq_to_zero, Hz.
    + intros (x & Hx & Hrgb). apply sq_to_zero in Hrgb.
      destruct Hmin as (_ & Hle & _).
      apply list_elem_of_lookup in Hx as Hj. destruct Hj as [j Hj].
      specialize (Hle j x Hj). pose proof (Hrange e Hin).
      f_equal. apply (root_zero_iff _ (Hrange e Hin)). lia.
Qed.

Lemma zero_distance_iff_exact_color_witness :
  is_u8 39 /\ is_u8 17 /\ is_u8 0 /\ Forall rgb_u8 DULUX_COLORS /\
  (snd <$> find_closest_color_in DULUX_COLORS 39 17 0 = Some 0%float <->
   exists e, e ∈ DULUX_COLORS /\ rgb_of e = (39, 17, 0)).
Proof.
  assert (is_u8 39) as H1 by (unfold is_u8; lia).
  assert (is_u8 17) as H2 by (unfold is_u8; lia).
  assert (is_u8 0) as H3 by (unfold is_u8; lia).
  pose proof DULUX_COLORS_u8 as H4.
  repeat (split; [assumption|]).
  exact (zero_distance_iff_exact_color DULUX_COLORS 39 17 0 H1 H2 H3 H4).
Defined.

Lemma root_inj n m :
  0 <= n <= max_sq -> 0 <= m <= max_sq ->
  root n = root m -> n = m.
Proof.
  intros Hn Hm Heq.
  destruct (Z.lt_trichotomy n m) as [H|[H|H]]; [|exact H|].
  - pose proof (sqrt_lt n m ltac:(lia) H ltac:(lia)) as Hlt.
    rewrite Heq, ltb_irrefl in Hlt. discriminate.
  - pose proof (sqrt_lt m n ltac:(lia) H ltac:(lia)) as Hlt.
    rewrite Heq, ltb_irrefl in Hlt. discriminate.
Qed.

(** X4: on byte triples nothing is raised and rounding never reorders two
    candidates: the computed distances compare with [<] as the exact
    squared distances do, and are equal only for equal squared
    distances. The distance is symmetric, it is 0.0 exactly between
    equal triples, and it never exceeds [sqrt (3 * 255^2)]. *)
Theorem color_distance_exact_on_bytes (tr tg tb : Z) (c1 c2 : color) :
  is_u8 tr -> is_u8 tg -> is_u8 tb -> rgb_u8 c1 -> rgb_u8 c2 ->
  exists d1 d2 dmax,
    calculate_color_distance tr tg tb (r c1) (g c1) (b c1) = Some d1 /\
    calculate_color_distance tr tg tb (r c2) (g c2) (b c2) = Some d2 /\
    Py.math_sqrt 195075 = Some dmax /\
    (d1 <? d2)%float = (sq_to tr tg tb c1 <? sq_to tr tg tb c2) /\
    (d1 = d2 <-> sq_to tr tg tb c1 = sq_to tr tg tb c2) /\
    calculate_color_distance (r c1) (g c1) (b c1) tr tg tb = Some d1 /\
    (d1 = 0%float <-> rgb_of c1 = (tr, tg, tb)) /\
    (d1 <=? dmax)%float = true.
Proof.
  intros Hr Hg Hb H1 H2.
  pose proof (sq_to_range tr tg tb c1 Hr Hg Hb H1) as R1.
  pose proof (sq_to_range tr tg tb c2 Hr Hg Hb H2) as R2.
  exists (distance_to tr tg tb c1), (distance_to tr tg tb c2), (root 195075).
  split; [apply calculate_color_distance_bytes; assumption|].
  split; [apply calculate_color_distance_bytes; assumption|].
  split; [apply math_sqrt_small; lia|].
  rewrite !distance_to_sqrt. repeat apply conj.
  - destruct (Z.ltb_spec (sq_to tr tg tb c1) (sq_to tr tg tb c2)) as [H|H].
    + apply sqrt_ltb_iff; assumption.
    + destruct (root _ <? root _)%float eqn:E; [|reflexivity].
      apply sqrt_ltb_iff in E; [lia|assumption..].
  - apply root_inj; assumption.
  - intros ->. reflexivity.
  - rewrite <- distance_to_sqrt.
    rewrite <- (calculate_color_distance_bytes tr tg tb c1) by assumption.
    unfold calculate_color_distance, squared_distance. f_equal.
    rewrite !Z.pow_2_r. lia.
  - intros H. apply sq_to_zero, root_zero_iff; assumption.
  - intros H. apply root_zero_iff; [assumption|]. apply sq_to_zero, H.
  - apply sqrt_leb; unfold max_sq in *; lia.
Qed.

Lemma color_distance_exact_on_bytes_witness :
  let c1 := Color "Vivid White" "W01A1" 255 255 255 90.0%float in
  let c2 := Color "Cruel Sea" "P29A9" 33 26 27 5.5%float in
  is_u8 250 /\ is_u8 252 /\ is_u8 255 /\ rgb_u8 c1 /\ rgb_u8 c2 /\
  exists d1 d2 dmax,
    calculate_color_distance 250 252 255 (r c1) (g c1) (b c1) = Some d1 /\
    calculate_color_distance 250 252 255 (r c2) (g c2) (b c2) = Some d2 /\
    Py.math_sqrt 195075 = Some dmax /\
    (d1 <? d2)%float = (sq_to 250 252 255 c1 <? sq_to 250 252 255 c2) /\
    (d1 = d2 <-> sq_to 250 252 255 c1 = sq_to 250 252 255 c2) /\
    calculate_color_distance (r c1) (g c1) (b c1) 250 252 255 = Some d1 /\
    (d1 = 0%float <-> rgb_of c1 = (250, 252, 255)) /\
    (d1 <=? dmax)%float = true.
Proof.
  cbv zeta.
  assert (is_u8 250) as H1 by (unfold is_u8; lia).
  assert (is_u8 252) as H2 by (unfold is_u8; lia).
  assert (is_u8 255) as H3 by (unfold is_u8; lia).
  assert (rgb_u8 (Color "Vivid White" "W01A1" 255 255 255 90.0%float))
    as H4 by (unfold rgb_u8, is_u8; simpl; lia).
  assert (rgb_u8 (Color "Cruel Sea" "P29A9" 33 26 27 5.5%float))
    as H5 by (unfold rgb_u8, is_u8; simpl; lia).
  repeat (split; [assumption|]).
  exact (color_distance_exact_on_bytes 250 252 255 _ _ H1 H2 H3 H4 H5).
Defined.

Lemma in_byte_range r g b :
  (0 <=? r) && (r <=? 255) && (0 <=? g) && (g <=? 255)
  && (0 <=? b) && (b <=? 255) = true <->
  is_u8 r /\ is_u8 g /\ is_u8 b.
Proof.
  unfold is_u8. rewrite !andb_true_iff, !Z.leb_le. tauto.
Qed.

(** X5: the answers of [color_match] split the requests: 400 for a
    parameter that is not an integer, 400 for integers of which one is
    outside 0..255, and otherwise 200 with the nearest entry, its
    distance rounded to two decimals and the request echoed; with a
    non-empty catalogue of bytes the 404 and the 500 answer are never
    given. The rounded distance of (250, 252, 255) is 5.83, where the
    classifier has 5.830951894845301. *)
Theorem color_match_answers
    (catalog : list color) (pr pg pb : option Z) :
  catalog <> [] -> Forall rgb_u8 catalog ->
  (color_match_in catalog pr pg pb = InvalidParameters <->
   pr = None \/ pg = None \/ pb = None) /\
  (color_match_in catalog pr pg pb = InvalidRGB <->
   exists r g b,
     pr = Some r /\ pg = Some g /\ pb = Some b /\
     ~ (is_u8 r /\ is_u8 g /\ is_u8 b)) /\
  (forall m d input,
     color_match_in catalog pr pg pb = Matched m d input <->
     exists r g b d0,
       pr = Some r /\ pg = Some g /\ pb = Some b /\
       is_u8 r /\ is_u8 g /\ is_u8 b /\ input = (r, g, b) /\
       find_closest_color_in catalog r g b = Some (Some m, d0) /\
       d = Py.round2 d0) /\
  color_match_in catalog pr pg pb <> NoMatch /\
  color_match_in catalog pr pg pb <> InternalError /\
  Py.round2 5.830951894845301 = 5.83%float /\
  Py.round2 0.125 = 0.12%float /\ Py.round2 0.375 = 0.38%float.
Proof.
  intros Hne Hall.
  assert (Py.round2 5.830951894845301 = 5.83%float /\
          Py.round2 0.125 = 0.12%float /\ Py.round2 0.375 = 0.38%float)
    as Hround by (repeat split; vm_compute; reflexivity).
  unfold color_match_in.
  destruct pr as [r|], pg as [g|], pb as [b|];
    try (split; [|split; [|split; [|split; [|split]]]];
         [ split; [auto | reflexivity]
         | split; [discriminate | intros (? & ? & ? & ? & ? & ? & _);
                                  discriminate]
         | intros m d input;
           split; [discriminate | intros (? & ? & ? & ? & ? & ? & ? & _);
                                  discriminate]
         | discriminate
         | discriminate
         | exact Hround ]).
  destruct ((0 <=? r) && (r <=? 255) && (0 <=? g) && (g <=? 255)
            && (0 <=? b) && (b <=? 255)) eqn:Hrange; cbn [negb].
  - apply in_byte_range in Hrange as Hu. destruct Hu as (Hr & Hg & Hb).
    destruct (find_closest_color_in_first_minimum catalog r g b
                Hne Hr Hg Hb Hall) as (i & e & Hmin & Hres).
    rewrite Hres. split; [|split; [|split; [|split; [|split]]]].
    + split; [discriminate | intros [H|[H|H]]; discriminate].
    + split; [discriminate|].
      intros (r' & g' & b' & [= <-] & [= <-] & [= <-] & Hnot).
      tauto.
    + intros m d input. split.
      * intros [= <- <- <-]. exists r, g, b, (root (sq_to r g b e)).
        auto 12.
      * intros (r' & g' & b' & d0 & [= <-] & [= <-] & [= <-] & _ & _ & _
                & -> & Hfind & ->).
        rewrite Hres in Hfind. injection Hfind as <- <-. reflexivity.
    + discriminate.
    + discriminate.
    + exact Hround.
  - assert (~ (is_u8 r /\ is_u8 g /\ is_u8 b)) as Hnot.
    { intros Hu. apply in_byte_range in Hu. congruence. }
    split; [|split; [|split; [|split; [|split]]]].
    + split; [discriminate | intros [H|[H|H]]; discriminate].
    + split; [intros _; exists r, g, b; auto|reflexivity].
    + intros m d input. split; [discriminate|].
      intros (r' & g' & b' & d0 & [= <-] & [= <-] & [= <-] & Hr & Hg & Hb
                & _).
      tauto.
    + discriminate.
    + discriminate.
    + exact Hround.
Qed.

Lemma color_match_answers_witness :
  DULUX_COLORS <> [] /\ Forall rgb_u8 DULUX_COLORS /\
  color_match_in DULUX_COLORS (Some 250) (Some 252) (Some 255) =
    Matched (Color "Vivid White" "W01A1" 255 255 255 90.0%float)
      5.83%float (250, 252, 255) /\
  (color_match_in DULUX_COLORS (Some 250) (Some 252) (Some 255)
     = InvalidParameters
   <-> Some 250 = None \/ Some 252 = None \/ Some 255 = (None : option Z)) /\
  (color_match_in DULUX_COLORS (Some 250) (Some 252) (Some 255) = InvalidRGB
   <-> exists r g b,
     Some 250 = Some r /\ Some 252 = Some g /\ Some 255 = Some b /\
     ~ (is_u8 r /\ is_u8 g /\ is_u8 b)) /\
  (forall m d input,
     color_match_in DULUX_COLORS (Some 250) (Some 252) (Some 255) =
       Matched m d input <->
     exists r g b d0,
       Some 250 = Some r /\ Some 252 = Some g /\ Some 255 = Some b /\
       is_u8 r /\ is_u8 g /\ is_u8 b /\ input = (r, g, b) /\
       find_closest_color_in DULUX_COLORS r g b = Some (Some m, d0) /\
       d = Py.round2 d0) /\
  color_match_in DULUX_COLORS (Some 250) (Some 252) (Some 255) <> NoMatch /\
  color_match_in DULUX_COLORS (Some 250) (Some 252) (Some 255)
    <> InternalError /\
  Py.round2 5.830951894845301 = 5.83%float /\
  Py.round2 0.125 = 0.12%float /\ Py.round2 0.375 = 0.38%float.
Proof.
  assert (DULUX_COLORS <> []) as H0 by discriminate.
  pose proof DULUX_COLORS_u8 as H1.
  split; [exact H0|]. split; [exact H1|].
  split; [vm_compute; reflexivity|].
  exact (color_match_answers DULUX_COLORS (Some 250) (Some 252) (Some 255)
           H0 H1).
Defined.

End ColorMatcherMore.

(** ** More on the device settings server *)

Module MockServerMore.
Import MockServer MockServerFacts.

Lemma apply_stores_lookup p : forall st k,
  apply_stores p st !! k =
  match stored p k with
  | Some v => Some v
  | None => st !! k
  end.
Proof.
  induction p as [|[k' [|v|e]] p IH]; intros st k; cbn;
    try reflexivity; try apply IH.
  rewrite IH. destruct (stored p k); [reflexivity|].
  rewrite lookup_insert. destruct (decide (k' = k)); reflexivity.
Qed.

Lemma stored_not_key p k : k ∉ p.*1 -> stored p k = None.
Proof.
  induction p as [|[k' vd] p IH]; intros Hk; [reflexivity|].
  rewrite fmap_cons, not_elem_of_cons in Hk. destruct Hk as [Hne Hk].
  cbn in Hne. destruct vd; cbn; rewrite (IH Hk); try reflexivity.
  destruct (decide (k' = k)); congruence.
Qed.

Lemma stored_elem p k v : stored p k = Some v -> (k, Store v) ∈ p.
Proof.
  induction p as [|[k' vd] p IH]; [discriminate|].
  destruct vd as [|w|e]; cbn; intros H;
    try (apply list_elem_of_further, IH, H).
  destruct (stored p k) as [w'|] eqn:E.
  - injection H as ->. apply list_elem_of_further, IH. reflexivity.
  - destruct (decide (k' = k)) as [->|]; [|discriminate].
    injection H as ->. apply list_elem_of_here.
Qed.

Lemma accepted_prefix_elem p x : x ∈ accepted_prefix p -> x ∈ p.
Proof.
  induction p as [|[k' vd] p IH]; [intros H; exact H|].
  destruct vd; cbn; intros H; try (inversion H; fail);
    apply elem_of_cons in H as [->|H];
    first [apply list_elem_of_here | apply list_elem_of_further, IH, H].
Qed.

(** The state after the handler, key by key. *)
Lemma update_settings_state data st k :
  (update_settings data st).2 !! k =
  match stored (accepted_prefix (plan data)) k with
  | Some v => Some v
  | None => st !! k
  end.
Proof.
  rewrite update_settings_plan, execute_spec. apply apply_stores_lookup.
Qed.

Lemma plan_keys data : (plan data).*1 = settings_fields.
Proof. reflexivity. Qed.

Lemma stored_outside_fields data k :
  k ∉ settings_fields -> stored (accepted_prefix (plan data)) k = None.
Proof.
  intros Hk. apply stored_not_key. intros H.
  apply accepted_prefix_keys in H. rewrite plan_keys in H. contradiction.
Qed.

Lemma checked_store lo hi mk o v :
  checked lo hi mk o = Store v ->
  exists w z, o = Some w /\ Py.int w = Some z /\ lo <= z <= hi
              /\ v = Py.PInt z.
Proof.
  unfold checked. destruct o as [w|]; [|discriminate].
  destruct (Py.int w) as [z|] eqn:Hz; [|discriminate].
  destruct (Z.leb_spec lo z); destruct (Z.leb_spec z hi); cbn;
    try discriminate.
  intros [= <-]. exists w, z. repeat split; try assumption; reflexivity.
Qed.

Lemma unchecked_store o v :
  unchecked o = Store v ->
  exists w z, o = Some w /\ Py.int w = Some z /\ v = Py.PInt z.
Proof.
  unfold unchecked. destruct o as [w|]; [|discriminate].
  destruct (Py.int w) as [z|] eqn:Hz; [|discriminate].
  intros [= <-]. exists w, z. auto.
Qed.

Lemma truth_store o v :
  truth o = Store v -> exists w, o = Some w /\ v = Py.PBool (Py.bool w).
Proof.
  unfold truth. destruct o as [w|]; [|discriminate].
  intros [= <-]. exists w. auto.
Qed.

(** What the plan can store under each field. *)
Lemma plan_store data k v :
  (k, Store v) ∈ plan data ->
  exists w,
    data !! k = Some w /\
    ((k = "ledState" /\ v = Py.PBool (Py.bool w)) \/
     exists z,
       Py.int w = Some z /\ v = Py.PInt z /\
       ((k = "autoZeroMode" /\ 0 <= z <= 1) \/
        (k = "autoZeroFreq" /\ 0 <= z <= 255) \/
        (k = "waitTime" /\ 0 <= z <= 255) \/
        k = "atime" \/ k = "again" \/ k = "brightness")).
Proof.
  unfold plan. intros H.
  repeat (apply elem_of_cons in H as [H|H]);
    try (inversion H; fail); injection H as -> H; symmetry in H.
  - apply checked_store in H as (w & z & Hd & Hz & Hr & ->).
    exists w. split; [exact Hd|]. right. exists z. auto 10.
  - apply checked_store in H as (w & z & Hd & Hz & Hr & ->).
    exists w. split; [exact Hd|]. right. exists z. auto 10.
  - apply checked_store in H as (w & z & Hd & Hz & Hr & ->).
    exists w. split; [exact Hd|]. right. exists z. auto 10.
  - apply unchecked_store in H as (w & z & Hd & Hz & ->).
    exists w. split; [exact Hd|]. right. exists z. auto 10.
  - apply unchecked_store in H as (w & z & Hd & Hz & ->).
    exists w. split; [exact Hd|]. right. exists z. auto 10.
  - apply unchecked_store in H as (w & z & Hd & Hz & ->).
    exists w. split; [exact Hd|]. right. exists z. auto 10.
  - apply truth_store in H as (w & Hd & ->).
    exists w. split; [exact Hd|]. left. auto.
Qed.


Lemma plan_ignores_key data k (v : Py.value) :
  k ∉ settings_fields ->
  plan (<[k := v]> data) = plan data /\ plan (delete k data) = plan data.
Proof.
  intros Hk. unfold settings_fields in Hk.
  repeat (apply not_elem_of_cons in Hk as [? Hk]).
  unfold plan.
  rewrite !lookup_insert_ne, !lookup_delete_ne by congruence.
  split; reflexivity.
Qed.

(** X6: a key of the payload that is not one of the seven recognized fields
    is ignored: the answer and the device are the same with or without
    it, and the handler never touches that key of the device. *)
Theorem update_settings_ignores_unknown_fields
    (data st : gmap string Py.value) (k : string) (v : Py.value) :
  k ∉ settings_fields ->
  update_settings (<[k := v]> data) st = update_settings data st /\
  update_settings (delete k data) st = update_settings data st /\
  (update_settings data st).2 !! k = st !! k.
Proof.
  intros Hk. destruct (plan_ignores_key data k v Hk) as [Hins Hdel].
  rewrite !update_settings_plan, Hins, Hdel.
  split; [reflexivity|]. split; [reflexivity|].
  rewrite <- update_settings_plan, update_settings_state.
  rewrite (stored_outside_fields data k Hk). reflexivity.
Qed.

Lemma update_settings_ignores_unknown_fields_witness :
  let data : gmap string Py.value := {[ "waitTime" := Py.PInt 7 ]} in
  ("enhancedLEDMode" ∉ settings_fields) /\
  update_settings (<["enhancedLEDMode" := Py.PBool true]> data)
    device_state = update_settings data device_state /\
  update_settings (delete "enhancedLEDMode" data) device_state =
    update_settings data device_state /\
  (update_settings data device_state).2 !! "enhancedLEDMode" =
    device_state !! "enhancedLEDMode".
Proof.
  cbv zeta.
  assert ("enhancedLEDMode" ∉ settings_fields) as H by not_a_key.
  split; [exact H|].
  exact (update_settings_ignores_unknown_fields _ device_state
           "enhancedLEDMode" (Py.PBool true) H).
Defined.

(** X7: sending the same settings request twice gives the same answer and
    leaves the device as sending it once. *)
Theorem update_settings_idempotent (data st : gmap string Py.value) :
  update_settings data (update_settings data st).2 =
  update_settings data st.
Proof.
  rewrite !update_settings_plan, !execute_spec. cbn [snd]. f_equal.
  apply map_eq. intros k. rewrite !apply_stores_lookup.
  destruct (stored (accepted_prefix (plan data)) k); reflexivity.
Qed.

Lemma first_reject_none_iff p :
  first_reject p = None <-> Forall (fun kv => not_rejecting kv.2) p.
Proof.
  induction p as [|[k [|v|e]] p IH]; cbn.
  - split; [constructor | reflexivity].
  - rewrite IH. split; [constructor; [exact I | assumption]|].
    intros H. exact (Forall_inv_tail H).
  - rewrite IH. split; [constructor; [exact I | assumption]|].
    intros H. exact (Forall_inv_tail H).
  - split; [discriminate|]. intros H. destruct (Forall_inv H).
Qed.

Lemma checked_not_rejecting (data : gmap string Py.value) key lo hi mk :
  not_rejecting (checked lo hi mk (data !! key)) <-> passes data key lo hi.
Proof.
  unfold passes, accepted, checked. destruct (data !! key) as [v|];
    [|split; auto].
  destruct (Py.int v) as [z|].
  - destruct (Z.leb_spec lo z) as [Hlo|Hlo];
      destruct (Z.leb_spec z hi) as [Hhi|Hhi]; cbn.
    + split; [intros _; exists z; split; [reflexivity|lia] | auto].
    + split; [intros [] | intros (z' & [= <-] & ?); lia].
    + split; [intros [] | intros (z' & [= <-] & ?); lia].
    + split; [intros [] | intros (z' & [= <-] & ?); lia].
  - cbn. split; [intros [] | intros (z & [=] & _)].
Qed.

Lemma unchecked_not_rejecting (data : gmap string Py.value) key :
  not_rejecting (unchecked (data !! key)) <-> converts data key.
Proof.
  unfold converts, unchecked. destruct (data !! key) as [v|];
    [|split; auto].
  destruct (Py.int v) as [z|]; cbn.
  - split; [eauto | auto].
  - split; [intros [] | intros [z [=]]].
Qed.

Lemma truth_not_rejecting o : not_rejecting (truth o).
Proof. destruct o; exact I. Qed.

Lemma stored_elem_NoDup p k v :
  NoDup p.*1 -> (k, Store v) ∈ p -> stored p k = Some v.
Proof.
  induction p as [|[k' vd] p IH]; intros Hnd Hin; [inversion Hin|].
  rewrite fmap_cons in Hnd. apply NoDup_cons in Hnd as [Hk' Hnd].
  cbn in Hk'. apply elem_of_cons in Hin as [[= <- <-]|Hin].
  - cbn. rewrite (stored_not_key p k Hk').
    destruct (decide (k = k)); congruence.
  - specialize (IH Hnd Hin). destruct vd; cbn; rewrite IH; reflexivity.
Qed.

Lemma settings_fields_NoDup : NoDup settings_fields.
Proof. apply (bool_decide_unpack _). vm_compute. reflexivity. Qed.

Ltac in_plan :=
  unfold plan;
  repeat first [ apply list_elem_of_here | apply list_elem_of_further ].

Lemma checked_accept lo hi mk v :
  not_rejecting (checked lo hi mk (Some v)) ->
  exists z, Py.int v = Some z /\
            checked lo hi mk (Some v) = Store (Py.PInt z).
Proof.
  unfold checked. destruct (Py.int v) as [z|]; [|intros []].
  destruct ((lo <=? z) && (z <=? hi)); [|intros []].
  intros _. exists z. split; reflexivity.
Qed.

Lemma unchecked_accept v :
  not_rejecting (unchecked (Some v)) ->
  exists z, Py.int v = Some z /\ unchecked (Some v) = Store (Py.PInt z).
Proof.
  unfold unchecked. destruct (Py.int v) as [z|]; [|intros []].
  intros _. exists z. split; reflexivity.
Qed.

Lemma plan_numeric_entry data key v :
  key ∈ ["autoZeroMode"; "autoZeroFreq"; "waitTime"; "atime"; "again";
         "brightness"] ->
  data !! key = Some v ->
  exists vd,
    (key, vd) ∈ plan data /\
    (not_rejecting vd ->
     exists z, Py.int v = Some z /\ vd = Store (Py.PInt z)).
Proof.
  intros Hkey Hd.
  repeat (apply elem_of_cons in Hkey as [->|Hkey]);
    try (inversion Hkey; fail);
    (eexists; split; [in_plan|]); rewrite Hd;
    first [apply checked_accept | apply unchecked_accept].
Qed.

(** X8: a settings request is saved exactly when each calibration field it
    carries converts to an integer of its range and each of atime, again
    and brightness it carries converts to an integer. The status then
    shows the integer of every numeric field carried and the truth value
    of ledState, and the old value under every key the payload does not
    carry. *)
Theorem settings_saved_iff_fields_pass (data st : gmap string Py.value) :
  ((update_settings data st).1 = SettingsSaved <->
   passes data "autoZeroMode" 0 1 /\ passes data "autoZeroFreq" 0 255 /\
   passes data "waitTime" 0 255 /\ converts data "atime" /\
   converts data "again" /\ converts data "brightness") /\
  ((update_settings data st).1 = SettingsSaved ->
   (forall key v,
      key ∈ ["autoZeroMode"; "autoZeroFreq"; "waitTime"; "atime"; "again";
             "brightness"] ->
      data !! key = Some v ->
      exists z, Py.int v = Some z /\
                get_status (update_settings data st).2 !! key =
                  Some (Py.PInt z)) /\
   (forall v, data !! "ledState" = Some v ->
      get_status (update_settings data st).2 !! "ledState" =
        Some (Py.PBool (Py.bool v))) /\
   (forall k, data !! k = None ->
      get_status (update_settings data st).2 !! k = st !! k)).
Proof.
  assert ((update_settings data st).1 = SettingsSaved <->
          first_reject (plan data) = None) as Hsaved_iff.
  { rewrite update_settings_response.
    destruct (first_reject (plan data)); split; congruence. }
  split.
  - rewrite Hsaved_iff, first_reject_none_iff. unfold plan.
    rewrite !Forall_cons, Forall_nil. cbn [snd].
    rewrite !checked_not_rejecting, !unchecked_not_rejecting.
    pose proof (truth_not_rejecting (data !! "ledState")). tauto.
  - intros Hsaved. apply Hsaved_iff in Hsaved as Hnone.
    unfold get_status.
    assert (forall k, (update_settings data st).2 !! k =
                      match stored (plan data) k with
                      | Some v => Some v
                      | None => st !! k
                      end) as Hstate.
    { intros k. rewrite update_settings_state.
      rewrite (accepted_prefix_full _ Hnone). reflexivity. }
    assert (forall k vd, (k, vd) ∈ plan data -> not_rejecting vd) as Hok.
    { intros k vd Hin. apply first_reject_none_iff in Hnone.
      exact (proj1 (Forall_forall _ _) Hnone (k, vd) Hin). }
    assert (forall k v, (k, Store v) ∈ plan data ->
                        (update_settings data st).2 !! k = Some v) as Hput.
    { intros k v Hin. rewrite Hstate.
      rewrite (stored_elem_NoDup (plan data) k v
                 settings_fields_NoDup Hin).
      reflexivity. }
    split; [|split].
    + intros key v Hkey Hd.
      destruct (plan_numeric_entry data key v Hkey Hd) as (vd & Hin & Hvd).
      destruct (Hvd (Hok key vd Hin)) as (z & Hz & ->).
      exists z. split; [exact Hz | exact (Hput key _ Hin)].
    + intros v Hd. apply Hput.
      assert (truth (data !! "ledState") = Store (Py.PBool (Py.bool v)))
        as <- by (rewrite Hd; reflexivity).
      in_plan.
    + intros k Hd. rewrite Hstate.
      destruct (stored (plan data) k) as [v|] eqn:E; [|reflexivity].
      apply stored_elem, plan_store in E as (w & Hw & _). congruence.
Qed.


(** The three outcomes of the [/brightness] handler. *)
Lemma update_brightness_cases (data st : gmap string Py.value) :
  let v := default (Py.PInt 128) (data !! "brightness") in
  (Py.int v = None /\
   update_brightness data st = (BadRequest Raised, st)) \/
  (exists z, Py.int v = Some z /\ ~ 0 <= z <= 255 /\
     update_brightness data st = (BadRequest BrightnessOutOfRange, st)) \/
  (exists z, Py.int v = Some z /\ 0 <= z <= 255 /\
     update_brightness data st =
     (BrightnessSet z, <["brightness" := Py.PInt z]> st)).
Proof.
  intros v. unfold update_brightness, run_handler, mbind, handler_bind.
  fold v. unfold to_int. destruct (Py.int v) as [z|]; [|left; auto].
  right. cbn. destruct (Z.leb_spec 0 z); destruct (Z.leb_spec z 255); cbn;
    first [ right; exists z; repeat split; try reflexivity; lia
          | left; exists z; repeat split; try reflexivity; lia ].
Qed.

Lemma update_brightness_frame (data st : gmap string Py.value) k :
  k <> "brightness" -> (update_brightness data st).2 !! k = st !! k.
Proof.
  intros Hk.
  destruct (update_brightness_cases data st)
    as [(_ & E)|[(z & _ & _ & E)|(z & _ & _ & E)]];
    rewrite E; cbn [snd]; try reflexivity.
  apply lookup_insert_ne. congruence.
Qed.

(** X9: the [/brightness] handler on any payload: a missing key means 128; a
    value that does not convert to an integer and an integer outside
    0..255 are answered with 400 and change nothing; a success stores an
    integer of 0..255; no other key of the device is touched, so a
    brightness that is in range stays in range. *)
Theorem update_brightness_keeps_range (data st : gmap string Py.value) :
  (data !! "brightness" = None ->
   update_brightness data st =
   (BrightnessSet 128, <["brightness" := Py.PInt 128]> st)) /\
  (is_rejected (update_brightness data st).1 ->
   (update_brightness data st).2 = st) /\
  (forall z, (update_brightness data st).1 = BrightnessSet z ->
     0 <= z <= 255 /\
     Py.int (default (Py.PInt 128) (data !! "brightness")) = Some z /\
     (update_brightness data st).2 = <["brightness" := Py.PInt z]> st) /\
  (forall k, k <> "brightness" ->
     (update_brightness data st).2 !! k = st !! k) /\
  (holds_int_in st "brightness" 0 255 ->
   holds_int_in (update_brightness data st).2 "brightness" 0 255).
Proof.
  destruct (update_brightness_cases data st)
    as [(Hv & E)|[(z & Hv & Hr & E)|(z & Hv & Hr & E)]];
    cbv zeta in Hv; rewrite E; cbn [fst snd].
  - split; [intros Hd; rewrite Hd in Hv; discriminate|].
    split; [reflexivity|]. split; [discriminate|]. split; auto.
  - split; [intros Hd; rewrite Hd in Hv; cbn in Hv;
            injection Hv as <-; lia|].
    split; [reflexivity|]. split; [discriminate|]. split; auto.
  - split; [intros Hd; rewrite Hd in Hv; cbn in Hv;
            injection Hv as <-; reflexivity|].
    split; [intros [e [=]]|]. split; [intros z' [= <-]; auto|].
    split; [intros k Hk; apply lookup_insert_ne; congruence|].
    intros _. exists z. split; [apply lookup_insert_eq | exact Hr].
Qed.

Lemma start_scan_state (st : gmap string Py.value) k :
  (start_scan st).2 !! k =
  if decide (k = "isScanning") then Some (Py.PBool false)
  else if decide (k = "currentB") then Some (Py.PInt 90)
  else if decide (k = "currentG") then Some (Py.PInt 120)
  else if decide (k = "currentR") then Some (Py.PInt 180)
  else st !! k.
Proof.
  unfold start_scan. cbn [snd]. rewrite !lookup_insert.
  repeat case_decide; simplify_eq; reflexivity.
Qed.

Lemma start_scan_frame (st : gmap string Py.value) k :
  k ∉ scan_keys -> (start_scan st).2 !! k = st !! k.
Proof.
  intros Hk. unfold scan_keys in Hk.
  repeat (apply not_elem_of_cons in Hk as [? Hk]).
  rewrite start_scan_state.
  repeat (destruct (decide _); [congruence|]). reflexivity.
Qed.

(** X10: the [/scan] route always answers (180, 120, 90), leaves that reading
    in the status with [isScanning] false, touches no other key, has the
    same effect when repeated, and can be swapped with a settings
    request: the answers and the final device are the same in either
    order. *)
Theorem start_scan_fixed_reading (st : gmap string Py.value) :
  (start_scan st).1 = (Py.PInt 180, Py.PInt 120, Py.PInt 90) /\
  get_status (start_scan st).2 !! "isScanning" = Some (Py.PBool false) /\
  get_status (start_scan st).2 !! "currentR" = Some (Py.PInt 180) /\
  get_status (start_scan st).2 !! "currentG" = Some (Py.PInt 120) /\
  get_status (start_scan st).2 !! "currentB" = Some (Py.PInt 90) /\
  (forall k, k ∉ scan_keys -> (start_scan st).2 !! k = st !! k) /\
  start_scan (start_scan st).2 = start_scan st /\
  (forall data,
     (update_settings data (start_scan st).2).1 =
       (update_settings data st).1 /\
     (update_settings data (start_scan st).2).2 =
       (start_scan (update_settings data st).2).2).
Proof.
  assert (forall s : gmap string Py.value,
            (start_scan s).1 = (Py.PInt 180, Py.PInt 120, Py.PInt 90))
    as Hans.
  { intros s. unfold start_scan, item. cbn [fst].
    rewrite !lookup_insert_ne by discriminate.
    rewrite !lookup_insert_eq.
    rewrite !lookup_insert_ne by discriminate.
    rewrite !lookup_insert_eq.
    rewrite !lookup_insert_ne by discriminate.
    rewrite !lookup_insert_eq. reflexivity. }
  split; [apply Hans|]. unfold get_status.
  do 4 (split; [rewrite start_scan_state; reflexivity|]).
  split; [|split].
  - intros k. apply start_scan_frame.
  - apply injective_projections; [rewrite !Hans; reflexivity|].
    apply map_eq. intros k. rewrite !start_scan_state.
    repeat (destruct (decide _); [reflexivity|]). reflexivity.
  - intros data. split; [rewrite !update_settings_response; reflexivity|].
    apply map_eq. intros k.
    rewrite update_settings_state, !start_scan_state, update_settings_state.
    destruct (decide (k ∈ scan_keys)) as [Hin|Hout].
    + rewrite stored_outside_fields.
      * reflexivity.
      * unfold scan_keys in Hin.
        repeat (apply elem_of_cons in Hin as [->|Hin]);
          try (inversion Hin; fail); not_a_key.
    + unfold scan_keys in Hout.
      repeat (apply not_elem_of_cons in Hout as [? Hout]).
      repeat (destruct (decide _); [congruence|]). reflexivity.
Qed.


Lemma update_settings_keeps_range data st key lo hi :
  (key, (lo, hi)) ∈ validated_fields ->
  holds_int_in st key lo hi ->
  holds_int_in (update_settings data st).2 key lo hi.
Proof.
  intros Hkey (z0 & Hst & Hr0). unfold holds_int_in.
  rewrite update_settings_state.
  destruct (stored (accepted_prefix (plan data)) key) as [v|] eqn:E;
    [|exists z0; auto].
  apply stored_elem, accepted_prefix_elem, plan_store in E
    as (w & Hw & [[-> _]|(z & Hz & -> & Hcases)]).
  - unfold validated_fields in Hkey.
    repeat (apply elem_of_cons in Hkey as [Hkey|Hkey]);
      try discriminate; inversion Hkey.
  - exists z. split; [reflexivity|].
    unfold validated_fields in Hkey.
    repeat (apply elem_of_cons in Hkey as [[= -> -> ->]|Hkey]);
      try (inversion Hkey; fail);
      destruct Hcases as [[? ?]|[[? ?]|[[? ?]|[?|[?|?]]]]];
      try discriminate; assumption.
Qed.

Lemma update_settings_keeps_keys data st k :
  is_Some (st !! k) -> is_Some ((update_settings data st).2 !! k).
Proof.
  intros H. rewrite update_settings_state.
  destruct (stored _ k); [eauto | exact H].
Qed.

Lemma handle_keeps (req : request) (st : gmap string Py.value) :
  (calibration_in_range st -> calibration_in_range (handle req st).2) /\
  (forall k, is_Some (st !! k) -> is_Some ((handle req st).2 !! k)).
Proof.
  destruct req as [|data| |data|]; cbn [handle].
  - auto.
  - destruct (update_settings data st) as [resp st'] eqn:E. cbn [snd].
    replace st' with (update_settings data st).2 by (rewrite E; reflexivity).
    split.
    + intros (H1 & H2 & H3). repeat split;
        apply update_settings_keeps_range; try assumption;
        unfold validated_fields;
        repeat first [apply list_elem_of_here | apply list_elem_of_further].
    + intros k. apply update_settings_keeps_keys.
  - destruct (start_scan st) as [rgb st'] eqn:E. cbn [snd].
    replace st' with (start_scan st).2 by (rewrite E; reflexivity).
    assert (forall k, k ∉ scan_keys -> (start_scan st).2 !! k = st !! k)
      as Hframe by apply start_scan_frame.
    split.
    + unfold calibration_in_range, holds_int_in.
      rewrite !Hframe by not_a_key. auto.
    + intros k Hk. rewrite start_scan_state.
      repeat (destruct (decide _); [eauto|]). exact Hk.
  - destruct (update_brightness data st) as [resp st'] eqn:E. cbn [snd].
    replace st' with (update_brightness data st).2
      by (rewrite E; reflexivity).
    assert (forall k, k <> "brightness" ->
              (update_brightness data st).2 !! k = st !! k)
      as Hframe by apply update_brightness_frame.
    split.
    + unfold calibration_in_range, holds_int_in.
      rewrite !Hframe by discriminate. auto.
    + intros k Hk. destruct (decide (k = "brightness")) as [->|Hne];
        [|rewrite Hframe by exact Hne; exact Hk].
      destruct (update_brightness_cases data st)
        as [(_ & E')|[(z & _ & _ & E')|(z & _ & _ & E')]];
        rewrite E'; cbn [snd]; [exact Hk | exact Hk |].
      rewrite lookup_insert_eq. eauto.
  - auto.
Qed.

(** X11: whatever is sent to the server, in any order and with any payload,
    the three calibration settings it holds stay integers of their
    ranges, and no key of the status ever disappears. *)
Theorem calibration_settings_stay_in_range
    (reqs : list request) (st : gmap string Py.value) :
  calibration_in_range st ->
  calibration_in_range (run_requests reqs st).2 /\
  (forall k, is_Some (st !! k) ->
             is_Some ((run_requests reqs st).2 !! k)).
Proof.
  revert st. induction reqs as [|req reqs IH]; intros st Hst; [auto|].
  cbn [run_requests].
  destruct (handle_keeps req st) as [Hcal Hkeys].
  destruct (handle req st) as [rep st1]. cbn [snd] in Hcal, Hkeys.
  destruct (IH st1 (Hcal Hst)) as [Hcal' Hkeys'].
  destruct (run_requests reqs st1) as [reps st2]. cbn [snd] in *.
  split; [exact Hcal'|]. intros k Hk. apply Hkeys', Hkeys, Hk.
Qed.

Lemma device_state_in_range : calibration_in_range device_state.
Proof.
  repeat split; eexists; (split; [vm_compute; reflexivity | lia]).
Qed.

Lemma calibration_settings_stay_in_range_witness :
  let reqs :=
    [ PostSettings {[ "autoZeroMode" := Py.PInt 7;
                      "waitTime" := Py.PStr "abc" ]};
      PostScan;
      PostBrightness {[ "brightness" := Py.PInt 999 ]};
      PostSettings {[ "autoZeroFreq" := Py.PFloat 12.5%float ]};
      GetStatus ] in
  calibration_in_range device_state /\
  calibration_in_range (run_requests reqs device_state).2 /\
  (forall k, is_Some (device_state !! k) ->
             is_Some ((run_requests reqs device_state).2 !! k)).
Proof.
  cbv zeta. pose proof device_state_in_range as H.
  split; [exact H|].
  exact (calibration_settings_stay_in_range _ device_state H).
Defined.

End MockServerMore.

(* ===================================================================== *)
(** * More on the black-level validation *)
(* ===================================================================== *)

Module BlackCalibrationMore.
Import BlackCalibration BlackCalibrationFacts.

Lemma sentinel_table_spec k : forall b0 b,
  sentinel_table k b0 = true ->
  b0 <= b < b0 + Z.of_nat k ->
  exists rt, Py.truediv b 65535 = Some rt /\
             (0.15 <? rt)%float = (9830 <? b).
Proof.
  induction k as [|k IH]; intros b0 b Ht Hb; [lia|].
  cbn [sentinel_table] in Ht. apply andb_prop in Ht as [Hh Ht].
  destruct (Z.eq_dec b b0) as [->|Hne].
  - destruct (Py.truediv b0 65535) as [rt|]; [|discriminate].
    apply Bool.eqb_prop in Hh. eauto.
  - apply (IH (b0 + 1)); [exact Ht | lia].
Qed.

Lemma sentinel_threshold b :
  is_count b ->
  exists rt, Py.truediv b 65535 = Some rt /\
             (0.15 <? rt)%float = (9830 <? b).
Proof.
  intros Hb. apply (sentinel_table_spec (Z.to_nat 65536) 0).
  - vm_compute. reflexivity.
  - unfold is_count in Hb. rewrite Z2Nat.id by lia. lia.
Qed.

Lemma zero_black_table_spec k : forall w0 w,
  zero_black_table k w0 = true ->
  w0 <= w < w0 + Z.of_nat k ->
  exists rt, Py.truediv 0 w = Some rt /\ (0.15 <? rt)%float = false.
Proof.
  induction k as [|k IH]; intros w0 w Ht Hw; [lia|].
  cbn [zero_black_table] in Ht. apply andb_prop in Ht as [Hh Ht].
  destruct (Z.eq_dec w w0) as [->|Hne].
  - destruct (Py.truediv 0 w0) as [rt|]; [|discriminate].
    apply Bool.negb_true_iff in Hh. eauto.
  - apply (IH (w0 + 1)); [exact Ht | lia].
Qed.

Lemma zero_black_passes w :
  0 < w <= 65535 ->
  exists rt, Py.truediv 0 w = Some rt /\ (0.15 <? rt)%float = false.
Proof.
  intros Hw. apply (zero_black_table_spec (Z.to_nat 65535) 1).
  - vm_compute. reflexivity.
  - rewrite Z2Nat.id by lia. lia.
Qed.

Lemma validate_true_iff black_cal white_cal :
  validate_black_levels true (status_of black_cal white_cal) = true <->
  forall c, c ∈ ["x"; "y"; "z"] -> within black_cal white_cal c.
Proof.
  unfold validate_black_levels. rewrite validate_with_pair.
  rewrite <- check_channels_pass.
  destruct (check_channels black_cal white_cal ["x"; "y"; "z"]);
    cbn [passed]; split; congruence.
Qed.

(** X12: [validate_black_levels], white calibration without channel
    data: every channel is compared with the default 65535, so a black
    calibration of 16-bit counts passes exactly when each of its x, y
    and z counts (0 when absent) is at most 9830. *)
Theorem black_levels_against_default_white (black_cal : gmap string Z)
    (Hcounts : forall c, c ∈ ["x"; "y"; "z"] ->
                         is_count (default 0 (black_cal !! c))) :
  validate_black_levels true (status_of black_cal ∅) = true <->
  forall c, c ∈ ["x"; "y"; "z"] -> default 0 (black_cal !! c) <= 9830.
Proof.
  rewrite validate_true_iff.
  assert (forall c, c ∈ ["x"; "y"; "z"] ->
            exists rt, channel_ratio black_cal ∅ c = Some rt /\
              (0.15 <? rt)%float = (9830 <? default 0 (black_cal !! c)))
    as Hr.
  { intros c Hc. unfold channel_ratio. rewrite lookup_empty.
    cbn [default]. change (0 <? 65535) with true. cbn iota.
    apply sentinel_threshold, Hcounts, Hc. }
  unfold within. split; intros H c Hc; specialize (H c Hc);
    destruct (Hr c Hc) as (rt & Hrt & Hcmp).
  - destruct H as (rt' & Hrt' & Hlow).
    assert (rt' = rt) as -> by congruence.
    rewrite Hcmp in Hlow. apply Z.ltb_ge in Hlow. exact Hlow.
  - exists rt. split; [exact Hrt|]. rewrite Hcmp. apply Z.ltb_ge. exact H.
Qed.

Lemma black_levels_against_default_white_witness :
  let black_cal : gmap string Z := {[ "x" := 500; "y" := 9830 ]} in
  validate_black_levels true (status_of black_cal ∅) = true <->
  forall c, c ∈ ["x"; "y"; "z"] -> default 0 (black_cal !! c) <= 9830.
Proof.
  intros black_cal. apply (black_levels_against_default_white black_cal).
  intros c Hc.
  repeat (apply elem_of_cons in Hc as [->|Hc]);
    [| | |apply elem_of_nil in Hc; contradiction];
    vm_compute; split; discriminate.
Defined.

(** X13: [validate_black_levels], black calibration without channel
    data (or with zero counts): it passes whenever each white channel is
    absent or positive, and fails as soon as one white channel is zero or
    negative; white counts are 16-bit at most. *)
Theorem dark_black_levels_pass_iff_white_positive
    (black_cal white_cal : gmap string Z)
    (Hdark : forall c, c ∈ ["x"; "y"; "z"] -> default 0 (black_cal !! c) = 0)
    (Hwhite : forall c w, c ∈ ["x"; "y"; "z"] ->
                          white_cal !! c = Some w -> w <= 65535) :
  validate_black_levels true (status_of black_cal white_cal) = true <->
  forall c w, c ∈ ["x"; "y"; "z"] -> white_cal !! c = Some w -> 0 < w.
Proof.
  rewrite validate_true_iff.
  assert (forall c, c ∈ ["x"; "y"; "z"] ->
            within black_cal white_cal c <->
            match white_cal !! c with
            | Some w => 0 < w
            | None => True
            end) as Hr.
  { intros c Hc. unfold within, channel_ratio. rewrite (Hdark c Hc).
    destruct (white_cal !! c) as [w|] eqn:Ew; cbn [default].
    - change (Datatypes.id w) with w.
      destruct (Z.ltb_spec 0 w) as [Hw|Hw].
      + split; [intros _; exact Hw|]. intros _.
        apply zero_black_passes. pose proof (Hwhite c w Hc Ew). lia.
      + split; [|lia]. intros (rt & [= <-] & Hlow).
        vm_compute in Hlow. discriminate.
    - change (0 <? 65535) with true. cbn iota.
      split; [intros _; exact I|]. intros _.
      apply zero_black_passes. lia. }
  split.
  - intros H c w Hc Ew. apply (Hr c Hc) in H; [|exact Hc].
    rewrite Ew in H. exact H.
  - intros H c Hc. apply (Hr c Hc).
    destruct (white_cal !! c) as [w|] eqn:Ew; [|exact I].
    exact (H c w Hc Ew).
Qed.

Lemma dark_black_levels_pass_iff_white_positive_witness :
  let white_cal : gmap string Z := {[ "x" := 40000; "z" := 1 ]} in
  validate_black_levels true (status_of ∅ white_cal) = true <->
  forall c w, c ∈ ["x"; "y"; "z"] -> white_cal !! c = Some w -> 0 < w.
Proof.
  intros white_cal.
  apply (dark_black_levels_pass_iff_white_positive ∅ white_cal).
  - intros c _. rewrite lookup_empty. reflexivity.
  - intros c w Hc.
    repeat (apply elem_of_cons in Hc as [->|Hc]);
      [| | |apply elem_of_nil in Hc; contradiction];
      vm_compute; intros [= <-]; discriminate.
Defined.

(** X14: [validate_black_levels], failed status and missing keys: the
    check passes only when the status request succeeded and the status
    holds both calibrations; a failed request is reported as such
    whatever the status holds, and a missing [blackCalibration] is the
    key reported even when [whiteCalibration] is missing too. *)
Theorem validate_black_levels_needs_both_calibrations
    (success : bool) (status : gmap string (gmap string Z)) :
  (validate_black_levels success status = true ->
   success = true /\ is_Some (status !! "blackCalibration") /\
   is_Some (status !! "whiteCalibration")) /\
  (validate_black_levels_outcome success status = CouldNotGetStatus <->
   success = false) /\
  (forall key,
     validate_black_levels_outcome success status = MissingData key <->
     success = true /\
     (key = "blackCalibration" /\ status !! "blackCalibration" = None \/
      key = "whiteCalibration" /\ is_Some (status !! "blackCalibration") /\
      status !! "whiteCalibration" = None)).
Proof.
  assert (forall b w chs, check_channels b w chs <> CouldNotGetStatus /\
            forall key, check_channels b w chs <> MissingData key) as Hloop.
  { intros b w chs. induction chs as [|c chs IH]; cbn [check_channels].
    - split; [|intros key]; discriminate.
    - destruct (channel_ratio b w c) as [rt|];
        [|split; [|intros key]; discriminate].
      destruct (0.15 <? rt)%float.
      + split; [|intros key]; discriminate.
      + exact IH. }
  unfold validate_black_levels, validate_black_levels_outcome.
  destruct success; cbn [negb].
  - destruct (status !! "blackCalibration") as [b|] eqn:Eb.
    + destruct (status !! "whiteCalibration") as [w|] eqn:Ew.
      * destruct (Hloop b w ["x"; "y"; "z"]) as [H1 H2].
        split; [|split].
        -- intros _. repeat split; eexists; reflexivity.
        -- split; [intros H; contradiction | discriminate].
        -- intros key. split; [intros H; exfalso; exact (H2 key H)|].
           intros [_ [[_ H]|[_ [_ H]]]]; discriminate.
      * split; [|split].
        -- cbn [passed]. discriminate.
        -- split; discriminate.
        -- intros key. split.
           ++ intros [= <-]. split; [reflexivity|]. right.
              repeat split. eexists; reflexivity.
           ++ intros [_ [[_ H]|[-> _]]]; [discriminate | reflexivity].
    + split; [|split].
      * cbn [passed]. discriminate.
      * split; discriminate.
      * intros key. split.
        -- intros [= <-]. split; [reflexivity|]. left. split; reflexivity.
        -- intros [_ [[-> _]|[_ [[? H] _]]]]; [reflexivity | discriminate].
  - split; [|split].
    + cbn [passed]. discriminate.
    + split; reflexivity.
    + intros key. split; [discriminate | intros [H _]; discriminate].
Qed.

End BlackCalibrationMore.

(* ===================================================================== *)
(** * The white checks of the scan scripts *)
(* ===================================================================== *)

Module ScanChecksFacts.
Import ScanChecks.

(** A [float] that equals an [int] exceeds every smaller [int]. *)
Lemma compare_float_int_eq_gt f n k :
  k < n ->
  Py.compare_float_int f n = Some Eq ->
  Py.compare_float_int f k = Some Gt.
Proof.
  unfold Py.compare_float_int. intros Hk.
  destruct (Prim2SF f) as [s|s| |s m e]; try discriminate.
  - intros H. assert ((0 ?= n) = Eq) as H' by congruence.
    apply Z.compare_eq in H'. f_equal. apply Z.compare_gt_iff. lia.
  - destruct s; discriminate.
  - set (sm := if s then Z.neg m else Z.pos m).
    destruct (0 <=? e) eqn:He; intros H.
    + assert ((sm * 2 ^ e ?= n) = Eq) as H' by congruence.
      apply Z.compare_eq in H'. f_equal. apply Z.compare_gt_iff. lia.
    + assert ((sm ?= n * 2 ^ (- e)) = Eq) as H' by congruence.
      apply Z.compare_eq in H'. f_equal. apply Z.compare_gt_iff.
      apply Z.leb_gt in He.
      assert (0 < 2 ^ (- e)) by (apply Z.pow_pos_nonneg; lia). nia.
Qed.

Lemma eq_gt v n k : k < n -> eq v n = true -> gt v k = Some true.
Proof.
  intros Hk. destruct v as [|b|z|f|s| |]; cbn; try discriminate.
  - intros H. apply Z.eqb_eq in H. f_equal. apply Z.ltb_lt. lia.
  - intros H. apply Z.eqb_eq in H. f_equal. apply Z.ltb_lt. lia.
  - destruct (Py.compare_float_int f n) as [[| |]|] eqn:E; try discriminate.
    intros _. rewrite (compare_float_int_eq_gt f n k Hk E). reflexivity.
Qed.

Lemma exact_white_near r g b :
  exact_white r g b = true -> near_white r g b = Some true.
Proof.
  unfold exact_white, near_white. intros H.
  apply andb_prop in H as [H Hb]. apply andb_prop in H as [Hr Hg].
  rewrite (eq_gt r 255 200), (eq_gt g 255 200), (eq_gt b 255 200)
    by (lia || assumption).
  reflexivity.
Qed.

Lemma digits2_pos_log2 m :
  Z.pos (SpecFloat.digits2_pos m) = Z.log2 (Z.pos m) + 1.
Proof.
  assert (forall p, SpecFloat.digits2_pos p = Pos.size p) as Hsize
    by (induction p; cbn; congruence).
  rewrite Hsize.
  destruct m; cbn [Z.log2 Pos.size]; rewrite ?Pos2Z.inj_succ; lia.
Qed.

(** The only [float] that equals the [int] 255 is 255.0. *)
Lemma compare_float_int_255 f :
  Py.compare_float_int f 255 = Some Eq -> f = 255%float.
Proof.
  intros H. apply Prim2SF_inj.
  pose proof (Prim2SF_valid f) as Hv.
  unfold Py.compare_float_int in H.
  change (Prim2SF 255) with (S754_finite false 8972014882652160 (-45)).
  destruct (Prim2SF f) as [s|s| |s m e];
    try (cbn in H; discriminate H); try (destruct s; discriminate H).
  - unfold SpecFloat.valid_binary, SpecFloat.bounded in Hv.
    apply andb_prop in Hv as [Hc _].
    unfold SpecFloat.canonical_mantissa, SpecFloat.fexp, SpecFloat.emin,
      prec, emax in Hc.
    apply Z.eqb_eq in Hc. rewrite digits2_pos_log2 in Hc.
    pose proof (Z.log2_spec (Z.pos m) ltac:(lia)) as [Hlow Hhigh].
    set (sm := if s then Z.neg m else Z.pos m) in H.
    destruct (0 <=? e) eqn:He;
      [ assert ((sm * 2 ^ e ?= 255) = Eq) as H' by congruence
      | assert ((sm ?= 255 * 2 ^ (- e)) = Eq) as H' by congruence ];
      clear H; rename H' into H; apply Z.compare_eq in H; subst sm.
    + apply Z.leb_le in He. exfalso.
      destruct s; [pose proof (Z.pow_nonneg 2 e); nia|].
      assert (Z.log2 (Z.pos m) = 52) as Hl by lia.
      rewrite Hl in Hlow.
      assert (1 <= 2 ^ e) by (apply (Z.pow_le_mono_r 2 0 e); lia).
      change (2 ^ 52) with 4503599627370496 in Hlow. nia.
    + apply Z.leb_gt in He.
      destruct s;
        [pose proof (Z.pow_pos_nonneg 2 (- e) ltac:(lia) ltac:(lia)); lia|].
      assert (Z.log2 (Z.pos m) = 7 + - e) as Hl.
      { rewrite H. rewrite Z.log2_mul_pow2 by lia.
        change (Z.log2 255) with 7. lia. }
      rewrite Hl in Hc.
      assert (e = -45) as -> by lia.
      change (255 * 2 ^ (- -45)) with (Z.pos 8972014882652160) in H.
      injection H as ->. reflexivity.
Qed.

(** A channel that equals 255 is the integer or the float 255. *)
Lemma eq_255 v : eq v 255 = true -> v = JInt 255 \/ v = JFloat 255.
Proof.
  destruct v as [|b|z|f|s| |]; cbn; try discriminate.
  - destruct b; discriminate.
  - intros H. apply Z.eqb_eq in H. left. congruence.
  - destruct (Py.compare_float_int f 255) as [[| |]|] eqn:E;
      try discriminate.
    intros _. right. f_equal. apply compare_float_int_255, E.
Qed.

(** X15: [scan_color] of simple_vivid_white_test.py never prints the
    PERFECT line: a scan of exactly (255, 255, 255) is reported as close
    to white, because the near-white test comes first. A failed request
    or a body it cannot compare returns [(False, {})]. *)
Theorem scan_color_never_reports_perfect_white (resp : scan_response) :
  (scan_color resp).2 <> Some PerfectWhite /\
  (forall code data,
     resp = Some (code, data) -> code = 200%nat ->
     exact_white (channel data "r") (channel data "g") (channel data "b")
       = true ->
     scan_color resp = (true, data, Some CloseToWhite)) /\
  ((scan_color resp).2 = None -> (scan_color resp).1 = (false, ∅)).
Proof.
  unfold scan_color. split; [|split].
  - destruct resp as [[code data]|]; [|discriminate].
    destruct (code =? 200)%nat; [|discriminate].
    destruct (near_white _ _ _) as [[|]|] eqn:En; cbn [snd]; try discriminate.
    destruct (exact_white _ _ _) eqn:Ee; [|discriminate].
    apply exact_white_near in Ee. congruence.
  - intros code data -> -> He. cbn [Nat.eqb].
    change (200 =? 200)%nat with true. cbn iota.
    rewrite (exact_white_near _ _ _ He). reflexivity.
  - destruct resp as [[code data]|]; [|reflexivity].
    destruct (code =? 200)%nat; [|reflexivity].
    destruct (near_white _ _ _) as [[|]|]; cbn [fst snd];
      [discriminate| |reflexivity].
    destruct (exact_white _ _ _); discriminate.
Qed.

(** X16: the white checks nest. A scan accepted by [test_enhanced_scan]
    (test_enhanced_final.py) is accepted by [test_white_scan]
    (test_calibration_sequence.py). A scan with integer channels accepted
    by [test_white_scan] is accepted by [enhanced_scan]
    (test_enhanced_scan_only.py) exactly when each of the two optional
    sections it prints is absent or an object: a section that is
    anything else - null, a number, a string, an array - makes it fail.
    And a scan accepted by [enhanced_scan] is one [scan_color] calls
    close to white. *)
Theorem white_checks_nest (resp : scan_response) :
  (test_enhanced_scan resp = true -> test_white_scan resp = true) /\
  (forall code data,
     resp = Some (code, data) -> integer_channels data ->
     test_white_scan resp = true ->
     (enhanced_scan resp = true <->
      forall key, key ∈ ["brightnessOptimization"; "sensorConfig"] ->
                  data !! key = None \/ data !! key = Some JObject)) /\
  (enhanced_scan resp = true ->
   (scan_color resp).2 = Some CloseToWhite).
Proof.
  destruct resp as [[code data]|];
    [|repeat split; try discriminate; intros ? ? H; discriminate H].
  unfold test_enhanced_scan, test_white_scan, enhanced_scan, scan_color.
  destruct (code =? 200)%nat;
    [|repeat split; try discriminate; intros ? ? _ _ H; discriminate H].
  split; [|split].
  - intros H. unfold exact_white in H.
    apply andb_prop in H as [H Hb]. apply andb_prop in H as [Hr Hg].
    apply eq_255 in Hr, Hg, Hb.
    destruct Hr as [-> | ->], Hg as [-> | ->], Hb as [-> | ->];
      vm_compute; reflexivity.
  - intros code' data' [= <- <-] Hint Hwhite.
    destruct (Hint "r" ltac:(repeat constructor)) as [r Hr].
    destruct (Hint "g" ltac:(repeat constructor)) as [g Hg].
    destruct (Hint "b" ltac:(repeat constructor)) as [b Hb].
    rewrite Hr, Hg, Hb in *.
    cbn [rgb_diff sub absolute add mbind option_bind lt] in Hwhite.
    apply Z.ltb_lt in Hwhite.
    assert (near_white (JInt r) (JInt g) (JInt b) = Some true) as Hnear.
    { unfold near_white, gt.
      replace (200 <? r) with true by (symmetry; apply Z.ltb_lt; lia).
      replace (200 <? g) with true by (symmetry; apply Z.ltb_lt; lia).
      replace (200 <? b) with true by (symmetry; apply Z.ltb_lt; lia).
      reflexivity. }
    rewrite Hnear.
    assert (forall key,
              section_prints data key = true <->
              data !! key = None \/ data !! key = Some JObject) as Hsec.
    { intros key. unfold section_prints.
      destruct (data !! key) as [[|?|?|?|?| |]|];
        split; auto; try discriminate;
        intros [H|H]; discriminate H. }
    split.
    + intros Hacc key Hkey.
      apply Hsec.
      destruct (section_prints data "brightnessOptimization") eqn:E1;
        [|discriminate Hacc].
      destruct (section_prints data "sensorConfig") eqn:E2;
        [|discriminate Hacc].
      repeat (apply elem_of_cons in Hkey as [->|Hkey]; [assumption|]).
      inversion Hkey.
    + intros Hkeys.
      rewrite (proj2 (Hsec "brightnessOptimization"))
        by (apply Hkeys; repeat constructor).
      rewrite (proj2 (Hsec "sensorConfig"))
        by (apply Hkeys; repeat constructor).
      cbn [negb]. destruct (exact_white _ _ _); reflexivity.
  - destruct (section_prints data "brightnessOptimization");
      [|discriminate].
    destruct (section_prints data "sensorConfig"); [|discriminate].
    cbn [negb].
    destruct (exact_white _ _ _) eqn:Ee.
    + intros _. rewrite (exact_white_near _ _ _ Ee). reflexivity.
    + destruct (near_white _ _ _) as [[|]|]; [reflexivity| |];
        discriminate.
Qed.

End ScanChecksFacts.

(* ===================================================================== *)
(** * test_calibration.py run against the mock server *)
(* ===================================================================== *)

Module CalibrationSuiteFacts.
Import MockServer MockServerFacts CalibrationSuite.

Lemma mock_update (data st : gmap string Py.value) :
  update_settings (gmap string Py.value) mock_post_settings data st =
  (match first_reject (plan data) with None => true | Some _ => false end,
   apply_stores (accepted_prefix (plan data)) st).
Proof.
  unfold update_settings, mock_post_settings.
  rewrite update_settings_plan, execute_spec.
  destruct (first_reject (plan data)); reflexivity.
Qed.

Lemma mock_status (st : gmap string Py.value) :
  get_status (gmap string Py.value) mock_fetch_status st = st.
Proof. reflexivity. Qed.

Lemma get_insert (st : gmap string Py.value) k v :
  Py.get (<[k := v]> st) k = v.
Proof. unfold Py.get. rewrite lookup_insert_eq. reflexivity. Qed.

Lemma get_insert_ne (st : gmap string Py.value) k k' v :
  k <> k' -> Py.get (<[k := v]> st) k' = Py.get st k'.
Proof.
  intros H. unfold Py.get. rewrite lookup_insert_ne by exact H. reflexivity.
Qed.

Lemma eq_int a b : Py.eq (Py.PInt a) (Py.PInt b) = (a =? b).
Proof. reflexivity. Qed.

(** One request to [/settings] with a literal payload: the plan of the
    payload is evaluated, and what it stores is applied. *)
Ltac post :=
  rewrite mock_update;
  match goal with
  | |- context [plan ?d] =>
      let p := eval vm_compute in (plan d) in
      change (plan d) with p
  end;
  cbn [first_reject accepted_prefix apply_stores];
  rewrite ?mock_status.

(** Reading the status back after the stores. *)
Ltac read :=
  repeat first [rewrite get_insert
               | rewrite get_insert_ne by discriminate];
  rewrite ?eq_int, ?Z.eqb_refl;
  cbv beta iota zeta.

Lemma status_fields_mock (st : gmap string Py.value) results :
  test_status_includes_calibration_settings _ mock_fetch_status st results =
  log_test "Status Calibration Fields"
    (bool_decide (Forall (fun k => is_Some (st !! k))
                    ["autoZeroMode"; "autoZeroFreq"; "waitTime"]))
    results.
Proof.
  unfold test_status_includes_calibration_settings.
  rewrite mock_status.
  destruct (st !! "autoZeroMode") as [m|] eqn:Em;
  destruct (st !! "autoZeroFreq") as [f|] eqn:Ef;
  destruct (st !! "waitTime") as [w|] eqn:Ew;
  cbn [filter list_filter]; rewrite ?Em, ?Ef, ?Ew;
  repeat (case_decide; try discriminate; try contradiction);
  case_bool_decide as HF; try reflexivity; exfalso.
  1: { apply HF. repeat constructor; rewrite ?Em, ?Ef, ?Ew; eexists;
       reflexivity. }
  all: apply Forall_cons in HF as [[? Hmode] HF];
       apply Forall_cons in HF as [[? Hfreq] HF];
       apply Forall_cons in HF as [[? Hwait] _]; congruence.
Qed.

Lemma mode_test_mock (st : gmap string Py.value) results :
  test_auto_zero_mode_settings _ mock_post_settings mock_fetch_status
    st results =
  (<["autoZeroMode" := Py.PInt 1]> (<["autoZeroMode" := Py.PInt 0]> st),
   results ++ [("Auto-Zero Mode 0", true); ("Auto-Zero Mode 1", true);
               ("Auto-Zero Mode Invalid", true)]).
Proof.
  unfold test_auto_zero_mode_settings. cbn [fold_left].
  unfold set_and_read_back.
  post. read. post. read. post. cbn [existsb]. read.
  unfold log_test. rewrite <- !app_assoc. reflexivity.
Qed.

Lemma freq_test_mock (st : gmap string Py.value) results :
  test_auto_zero_frequency_settings _ mock_post_settings mock_fetch_status
    st results =
  Some (<["autoZeroFreq" := Py.PInt 255]>
          (<["autoZeroFreq" := Py.PInt 127]>
             (<["autoZeroFreq" := Py.PInt 0]> st)),
        results ++ [("Auto-Zero Freq 0", true); ("Auto-Zero Freq 127", true);
                    ("Auto-Zero Freq 255", true);
                    ("Auto-Zero Freq Invalid", true)]).
Proof.
  unfold test_auto_zero_frequency_settings. cbn [fold_left].
  unfold set_and_read_back.
  post. read. post. read. post. read. post. read.
  cbn [Py.le_int]. change (255 <=? 255) with true.
  cbn [mbind option_bind].
  unfold log_test. rewrite <- !app_assoc. reflexivity.
Qed.

Lemma wait_test_mock (st : gmap string Py.value) results :
  test_wait_time_settings _ mock_post_settings mock_fetch_status
    st results =
  Some (<["waitTime" := Py.PInt 255]>
          (<["waitTime" := Py.PInt 50]>
             (<["waitTime" := Py.PInt 10]>
                (<["waitTime" := Py.PInt 0]> st))),
        results ++ [("Wait Time 0", true); ("Wait Time 10", true);
                    ("Wait Time 50", true); ("Wait Time 255", true);
                    ("Wait Time Invalid", true)]).
Proof.
  unfold test_wait_time_settings. cbn [fold_left].
  unfold set_and_read_back.
  post. read. post. read. post. read. post. read. post. read.
  cbn [Py.le_int]. change (255 <=? 255) with true.
  cbn [mbind option_bind].
  unfold log_test. rewrite <- !app_assoc. reflexivity.
Qed.

Lemma combined_test_mock (st : gmap string Py.value) results :
  test_combined_settings _ mock_post_settings mock_fetch_status st results =
  (<["again" := Py.PInt 3]>
     (<["atime" := Py.PInt 56]>
        (<["waitTime" := Py.PInt 5]>
           (<["autoZeroFreq" := Py.PInt 127]>
              (<["autoZeroMode" := Py.PInt 1]> st)))),
   results ++ [("Combined Settings", true)]).
Proof.
  unfold test_combined_settings.
  rewrite mock_update.
  set (p := plan (as_payload combined_settings)).
  vm_compute in p. subst p.
  cbn [first_reject accepted_prefix apply_stores].
  rewrite mock_status. unfold combined_settings. cbn [forallb].
  read. reflexivity.
Qed.

Lemma persistence_test_mock (st : gmap string Py.value) results :
  test_persistence _ mock_post_settings mock_fetch_status st results =
  (<["waitTime" := Py.PInt 15]>
     (<["autoZeroFreq" := Py.PInt 200]>
        (<["autoZeroMode" := Py.PInt 0]> st)),
   results ++ [("Settings Persistence", true)]).
Proof.
  unfold test_persistence.
  rewrite mock_update.
  set (p := plan (as_payload test_settings)).
  vm_compute in p. subst p.
  cbn [first_reject accepted_prefix apply_stores].
  rewrite mock_status. unfold test_settings. cbn [forallb].
  read. reflexivity.
Qed.

(** X17: [run_all_tests] of test_calibration.py against the mock server,
    from any device state and a fresh tester: no test raises, sixteen
    results are logged, and the only one that can fail is the status
    check, which fails exactly when the status lacked one of the three
    calibration fields at the start. Whatever the verdict, the device is
    left with the last values the suite stored. *)
Theorem calibration_suite_against_mock (st : gmap string Py.value) :
  let present :=
    bool_decide (Forall (fun k => is_Some (st !! k))
                   ["autoZeroMode"; "autoZeroFreq"; "waitTime"]) in
  run_all_tests _ mock_post_settings mock_fetch_status st [] =
  Some (present,
        <["autoZeroMode" := Py.PInt 0]>
          (<["autoZeroFreq" := Py.PInt 200]>
             (<["waitTime" := Py.PInt 15]>
                (<["atime" := Py.PInt 56]>
                   (<["again" := Py.PInt 3]> st)))),
        [("ESP32 Connectivity", true);
         ("Status Calibration Fields", present);
         ("Auto-Zero Mode 0", true); ("Auto-Zero Mode 1", true);
         ("Auto-Zero Mode Invalid", true);
         ("Auto-Zero Freq 0", true); ("Auto-Zero Freq 127", true);
         ("Auto-Zero Freq 255", true); ("Auto-Zero Freq Invalid", true);
         ("Wait Time 0", true); ("Wait Time 10", true);
         ("Wait Time 50", true); ("Wait Time 255", true);
         ("Wait Time Invalid", true);
         ("Combined Settings", true); ("Settings Persistence", true)]).
Proof.
  intros present. unfold run_all_tests.
  change (test_connectivity _ mock_fetch_status st [])
    with (true, log_test "ESP32 Connectivity" true []).
  cbv beta iota zeta. cbn [negb].
  rewrite status_fields_mock. fold present.
  rewrite mode_test_mock, freq_test_mock.
  cbn [mbind option_bind]. rewrite wait_test_mock.
  cbn [mbind option_bind]. rewrite combined_test_mock, persistence_test_mock.
  unfold log_test. rewrite <- !app_assoc. cbn [app].
  do 3 f_equal.
  - destruct present; reflexivity.
  - apply map_eq. intros k.
    destruct (decide ("autoZeroMode" = k)) as [<-|];
      [repeat first [rewrite lookup_insert_eq
                    | rewrite lookup_insert_ne by discriminate];
       reflexivity|].
    destruct (decide ("autoZeroFreq" = k)) as [<-|];
      [repeat first [rewrite lookup_insert_eq
                    | rewrite lookup_insert_ne by discriminate];
       reflexivity|].
    destruct (decide ("waitTime" = k)) as [<-|];
      [repeat first [rewrite lookup_insert_eq
                    | rewrite lookup_insert_ne by discriminate];
       reflexivity|].
    destruct (decide ("atime" = k)) as [<-|];
      [repeat first [rewrite lookup_insert_eq
                    | rewrite lookup_insert_ne by discriminate];
       reflexivity|].
    destruct (decide ("again" = k)) as [<-|];
      [repeat first [rewrite lookup_insert_eq
                    | rewrite lookup_insert_ne by discriminate];
       reflexivity|].
    repeat rewrite lookup_insert_ne by assumption. reflexivity.
Qed.

(** X18: [run_all_tests] against a device that does not answer the
    status request with 200: the suite stops after the connectivity test,
    logs that one failure, reports failure, and has sent no setting to
    the device. *)
Theorem calibration_suite_stops_when_unreachable
    (S : Type) (post_settings : gmap string Py.value -> S -> option nat * S)
    (fetch_status : S -> option (nat * gmap string Py.value))
    (dev : S) (results : list (string * bool))
    (Hdown : forall code doc,
       fetch_status dev = Some (code, doc) -> code <> 200%nat) :
  run_all_tests S post_settings fetch_status dev results =
  Some (false, dev, results ++ [("ESP32 Connectivity", false)]).
Proof.
  unfold run_all_tests, test_connectivity.
  destruct (fetch_status dev) as [[code doc]|] eqn:E.
  - specialize (Hdown code doc eq_refl).
    apply Nat.eqb_neq in Hdown. rewrite Hdown. reflexivity.
  - reflexivity.
Qed.

Lemma calibration_suite_stops_when_unreachable_witness :
  run_all_tests unit (fun _ dev => (Some 200%nat, dev))
    (fun _ => Some (503%nat, ∅)) tt [] =
  Some (false, tt, [("ESP32 Connectivity", false)]).
Proof.
  apply (calibration_suite_stops_when_unreachable unit
           (fun _ dev => (Some 200%nat, dev))
           (fun _ => Some (503%nat, ∅)) tt []).
  intros code doc [= <- _]. discriminate.
Defined.

End CalibrationSuiteFacts.
